(** * upload_image_and_add_to_slide_v2.py: a shallow embedding

    The script glues two cloud services together: an image is uploaded to a
    storage bucket, a signed download URL is generated for it, the image is
    placed on a slide through one batch update (deleting a previous element
    of the same name first), and the temporary object is deleted again.

    The Python functions are embedded as computations of a small
    state-and-exception monad over a [World]: the local files, the buckets,
    the presentations, the wall clock and the console.  Every effect of the
    script (a call into one of the client libraries, a [print], a reading of
    [time.time()]) is recorded, in program order, in the trace of the run. *)

From Stdlib Require Import ZArith QArith Lqa String Ascii List Lia.
From stdpp Require Import base gmap strings list fin_maps.

Local Open Scope string_scope.
Local Open Scope list_scope.

(** ** Values exchanged with the Slides API *)

(** A Python number handed through to the API unchanged: the defaults of
    [add_image_to_slide] mix floats ([1.8]) and ints ([1100000]).  The script
    never computes with them, so a float is kept as the rational it denotes. *)
Inductive number :=
| Int (z : Z)
| Float (q : Q).

(** [{'magnitude': ..., 'unit': ...}] *)
Record Dimension := { magnitude : Z; dim_unit : string }.

(** [{'height': ..., 'width': ...}] *)
Record Size := { height : Dimension; width : Dimension }.

(** [{'scaleX': ..., 'scaleY': ..., 'translateX': ..., 'translateY': ..., 'unit': ...}] *)
Record Transform := {
  scaleX : number;
  scaleY : number;
  translateX : number;
  translateY : number;
  tr_unit : string }.

(** [datetime.timedelta], in its normalised representation. *)
Record timedelta := { td_days : Z; td_seconds : Z; td_microseconds : Z }.

(** [datetime.timedelta(minutes=m)] *)
Definition timedelta_minutes (m : Z) : timedelta :=
  {| td_days := (m * 60) / 86400;
     td_seconds := (m * 60) mod 86400;
     td_microseconds := 0 |}.

Definition total_seconds (d : timedelta) : Q :=
  inject_Z (td_days d * 86400 + td_seconds d) + inject_Z (td_microseconds d) / 1000000.

(** What a signed URL encodes.  The script treats the URL as an opaque string
    and only passes it on; the model keeps the parameters that the storage
    library signs into it instead of the text. *)
Record SignedUrl := {
  url_bucket : string;
  url_blob : string;
  url_version : string;
  url_method : string;
  url_issued : Q;
  url_expiration : timedelta }.

(** [{'pageObjectId': ..., 'size': ..., 'transform': ...}] *)
Record ElementProperties := {
  pageObjectId : string;
  size : Size;
  transform : Transform }.

(** One entry of the [requests] list of a batch update. *)
Inductive Request :=
| deleteObject (objectId : string)
| createImage (objectId : string) (url : SignedUrl) (elementProperties : ElementProperties).

(** An entry of ['pageElements'] in the response of [pages().get()]; only
    ['objectId'] is read by the script. *)
Record PageElement := {
  pe_objectId : string;
  pe_image : option SignedUrl;
  pe_properties : option ElementProperties }.

(** The response of [pages().get()].  ['pageElements'] is an optional key:
    the API leaves it out for a blank slide. *)
Record PageInfo := { pageElements : option (list PageElement) }.

(** ** Exceptions *)

Inductive Exception :=
| FileNotFoundError (path : string)
| NotFound (what : string)
| HttpError (status : Z) (reason : string)
| TransportError
| IndexError.

(** ** Handles of the client libraries *)

(** [service_account.Credentials] *)
Record Credentials := { cred_key_file : string; cred_scopes : list string }.

(** [storage.Client], [Bucket] and [Blob]: handles built locally. *)
Record StorageClient := { sc_credentials : Credentials }.
Record Bucket := { bk_client : StorageClient; bk_name : string }.
Record Blob := { bl_bucket : Bucket; bl_name : string }.

Definition storage_Client (credentials : Credentials) : StorageClient :=
  {| sc_credentials := credentials |}.
Definition Client_bucket (c : StorageClient) (bucket_name : string) : Bucket :=
  {| bk_client := c; bk_name := bucket_name |}.
Definition Bucket_blob (b : Bucket) (blob_name : string) : Blob :=
  {| bl_bucket := b; bl_name := blob_name |}.

(** The resource object returned by [build('slides', 'v1', ...)]. *)
Record Service := { sv_name : string; sv_version : string; sv_credentials : Credentials }.

Definition build (name version : string) (credentials : Credentials) : Service :=
  {| sv_name := name; sv_version := version; sv_credentials := credentials |}.

(** ** The trace of a run *)

(** A call into a client library that touches something outside the process. *)
Inductive Call :=
| LoadCredentials (path : string) (scopes : list string)
| Upload (bucket_name source_file_path blob_name : string)
| SignUrl (bucket_name blob_name version : string) (expiration : timedelta) (method : string)
| PagesGet (presentation_id page_object_id : string)
| BatchUpdate (presentation_id : string) (requests : list Request)
| Delete (bucket_name blob_name : string).

Inductive Event :=
| Called (c : Call) (ok : bool) (invoked returned : Q)
| Printed (line : string)
| TimeRead (t : Q).

(** ** The world *)

(** What the services hold: the local files, the objects of each bucket and
    the pages of each presentation. *)
Record Services := {
  files : gmap string string;
  buckets : gmap string (gmap string string);
  presentations : gmap string (gmap string PageInfo) }.

Definition set_buckets (s : Services) (b : gmap string (gmap string string)) : Services :=
  {| files := files s; buckets := b; presentations := presentations s |}.

Definition set_presentations (s : Services) (p : gmap string (gmap string PageInfo))
    : Services :=
  {| files := files s; buckets := buckets s; presentations := p |}.

(** The services, the wall clock, the number of calls made so far, and two
    oracles indexed by that number: how long the call takes and whether it
    fails for a reason of its own (network, quota, permissions).  A latency
    may be negative: [time.time()] is the wall clock, which can be set back. *)
Record World := {
  w_services : Services;
  w_now : Q;
  w_calls : nat;
  w_latency : nat -> Q;
  w_fault : nat -> bool }.

(** The world when a call returns: the services as the call left them, the
    clock moved by the latency of the call. *)
Definition returned_at (w : World) : Q := w_now w + w_latency w (w_calls w).

Definition after_call (w : World) (s : Services) : World :=
  {| w_services := s; w_now := returned_at w; w_calls := S (w_calls w);
     w_latency := w_latency w; w_fault := w_fault w |}.

(** ** The monad *)

Record Run (A : Type) := mkRun {
  result : Exception + A;
  final : World;
  trace : list Event }.
Arguments mkRun {A}.
Arguments result {A}.
Arguments final {A}.
Arguments trace {A}.

Definition M (A : Type) : Type := World -> Run A.

Definition ret {A} (a : A) : M A := fun w => mkRun (inr a) w [].

Definition raise {A} (e : Exception) : M A := fun w => mkRun (inl e) w [].

Definition bind {A B} (m : M A) (f : A -> M B) : M B :=
  fun w =>
    let r := m w in
    match result r with
    | inl e => mkRun (inl e) (final r) (trace r)
    | inr a =>
        let r' := f a (final r) in
        mkRun (result r') (final r') (trace r ++ trace r')
    end.

Declare Scope py_scope.
Delimit Scope py_scope with py.
Notation "x <- m ;; k" := (bind m (fun x => k))
  (at level 100, m at next level, right associativity) : py_scope.
Notation "m ;;; k" := (bind m (fun _ => k))
  (at level 100, right associativity) : py_scope.
Local Open Scope py_scope.

Definition succeeded {A} (r : Run A) : bool :=
  match result r with inr _ => true | inl _ => false end.

(** A call [c] into a client library.  [sem] is what the service does with
    it at the time and in the state it finds; the fault oracle of the world
    can make any call fail instead, and a failed call changes nothing. *)
Definition external {A} (c : Call) (sem : Q -> Services -> Exception + (A * Services))
    : M A :=
  fun w =>
    let outcome :=
      if w_fault w (w_calls w) then inl TransportError
      else sem (w_now w) (w_services w) in
    match outcome with
    | inl e =>
        mkRun (inl e) (after_call w (w_services w))
          [Called c false (w_now w) (returned_at w)]
    | inr (a, s') =>
        mkRun (inr a) (after_call w s') [Called c true (w_now w) (returned_at w)]
    end.

(** [print(a, b, ...)]: the arguments separated by a blank. *)
Definition print (args : list string) : M unit :=
  fun w => mkRun (inr tt) w [Printed (String.concat " " args)].

(** [time.time()] *)
Definition time_time : M Q :=
  fun w => mkRun (inr (w_now w)) w [TimeRead (w_now w)].

(** ** The services *)

(** *** Local files and credentials *)

(** [service_account.Credentials.from_service_account_file(path, scopes=scopes)] *)
Definition from_service_account_file (path : string) (scopes : list string) : M Credentials :=
  external (LoadCredentials path scopes) (fun _ s =>
    match files s !! path with
    | None => inl (FileNotFoundError path)
    | Some key => inr ({| cred_key_file := key; cred_scopes := scopes |}, s)
    end).

(** *** Cloud Storage *)

(** [blob.upload_from_filename(source_file_path)]: the object is created, or
    replaced when the bucket already holds one of that name. *)
Definition upload_from_filename (b : Blob) (source_file_path : string) : M unit :=
  let bucket_name := bk_name (bl_bucket b) in
  external (Upload bucket_name source_file_path (bl_name b)) (fun _ s =>
    match files s !! source_file_path with
    | None => inl (FileNotFoundError source_file_path)
    | Some data =>
        match buckets s !! bucket_name with
        | None => inl (NotFound bucket_name)
        | Some objects =>
            inr (tt, set_buckets s (<[bucket_name := <[bl_name b := data]> objects]> (buckets s)))
        end
    end).

(** [blob.generate_signed_url(version=..., expiration=..., method=...)] *)
Definition generate_signed_url (b : Blob) (version : string) (expiration : timedelta)
    (method : string) : M SignedUrl :=
  let bucket_name := bk_name (bl_bucket b) in
  external (SignUrl bucket_name (bl_name b) version expiration method) (fun now s =>
    inr ({| url_bucket := bucket_name; url_blob := bl_name b;
            url_version := version; url_method := method;
            url_issued := now; url_expiration := expiration |}, s)).

(** [blob.delete()]: an error when there is no such object. *)
Definition Blob_delete (b : Blob) : M unit :=
  let bucket_name := bk_name (bl_bucket b) in
  external (Delete bucket_name (bl_name b)) (fun _ s =>
    match buckets s !! bucket_name with
    | None => inl (NotFound bucket_name)
    | Some objects =>
        match objects !! bl_name b with
        | None => inl (NotFound (bl_name b))
        | Some _ =>
            inr (tt, set_buckets s (<[bucket_name := delete (bl_name b) objects]> (buckets s)))
        end
    end).

Definition blob_exists (s : Services) (bucket_name blob_name : string) : bool :=
  match buckets s !! bucket_name with
  | Some objects => bool_decide (is_Some (objects !! blob_name))
  | None => false
  end.

(** *** Slides *)

Definition element_ids (page : PageInfo) : list string :=
  match pageElements page with
  | Some els => map pe_objectId els
  | None => []
  end.

(** How many elements of the page carry the identifier. *)
Definition count_id (id : string) (page : PageInfo) : nat :=
  length (filter (fun i => i = id) (element_ids page)).

(** Object identifiers are unique in a presentation: an identifier is taken
    when a page or an element of some page has it. *)
Definition id_in_use (id : string) (pages : gmap string PageInfo) : bool :=
  bool_decide (is_Some (pages !! id))
  || bool_decide (map_Exists (fun _ page => id ∈ element_ids page) pages).

(** The service fetches the image while it applies the request. *)
Definition fetchable (now : Q) (s : Services) (u : SignedUrl) : bool :=
  String.eqb (url_method u) "GET"
  && blob_exists s (url_bucket u) (url_blob u)
  && Qle_bool now (url_issued u + total_seconds (url_expiration u)).

Definition remove_element (id : string) (page : PageInfo) : PageInfo :=
  match pageElements page with
  | None => page
  | Some els =>
      match filter (fun e => pe_objectId e ≠ id) els with
      | [] => {| pageElements := None |}
      | rest => {| pageElements := Some rest |}
      end
  end.

Definition add_element (e : PageElement) (page : PageInfo) : PageInfo :=
  match pageElements page with
  | None => {| pageElements := Some [e] |}
  | Some els => {| pageElements := Some (els ++ [e]) |}
  end.

(** One request of a batch, on the pages of a presentation; [None] when the
    service rejects it. *)
Definition apply_request (now : Q) (s : Services) (pages : gmap string PageInfo) (r : Request)
    : option (gmap string PageInfo) :=
  match r with
  | deleteObject id =>
      if bool_decide (is_Some (pages !! id)) then Some (delete id pages)
      else if id_in_use id pages then Some (remove_element id <$> pages)
      else None
  | createImage id u props =>
      if id_in_use id pages then None
      else
        match pages !! pageObjectId props with
        | None => None
        | Some page =>
            if fetchable now s u then
              Some (<[pageObjectId props :=
                      add_element {| pe_objectId := id; pe_image := Some u;
                                     pe_properties := Some props |} page]> pages)
            else None
        end
  end.

(** The requests of a batch are applied in list order. *)
Fixpoint apply_requests (now : Q) (s : Services) (pages : gmap string PageInfo) (rs : list Request)
    : option (gmap string PageInfo) :=
  match rs with
  | [] => Some pages
  | r :: rs' =>
      match apply_request now s pages r with
      | None => None
      | Some pages' => apply_requests now s pages' rs'
      end
  end.

(** [service.presentations().pages().get(presentationId=..., pageObjectId=...).execute()] *)
Definition pages_get (service : Service) (presentation_id page_object_id : string)
    : M PageInfo :=
  external (PagesGet presentation_id page_object_id) (fun _ s =>
    match presentations s !! presentation_id with
    | None => inl (HttpError 404 "presentation")
    | Some pages =>
        match pages !! page_object_id with
        | None => inl (HttpError 404 "page")
        | Some page => inr (page, s)
        end
    end).

(** [{'requests': requests}] *)
Record Body := { requests : list Request }.

(** [service.presentations().batchUpdate(presentationId=..., body=body).execute()]:
    all requests are applied, or none is. *)
Definition batchUpdate (service : Service) (presentation_id : string) (body : Body)
    : M unit :=
  external (BatchUpdate presentation_id (requests body)) (fun now s =>
    match presentations s !! presentation_id with
    | None => inl (HttpError 404 "presentation")
    | Some pages =>
        match apply_requests now s pages (requests body) with
        | None => inl (HttpError 400 "request")
        | Some pages' =>
            inr (tt, set_presentations s (<[presentation_id := pages']> (presentations s)))
        end
    end).

(** ** Python helpers *)

(** [x in l] on a list of strings. *)
Fixpoint py_in (x : string) (l : list string) : bool :=
  match l with
  | [] => false
  | y :: l' => if String.eqb x y then true else py_in x l'
  end.

(** [for k in range(...)] over the indices [ks], threading the state of the
    loop body. *)
Fixpoint for_in {S : Type} (ks : list nat) (body : nat -> S -> M S) (s : S) : M S :=
  match ks with
  | [] => ret s
  | k :: ks' => s' <- body k s ;; for_in ks' body s'
  end.

Definition range (n : nat) : list nat := seq 0 n.

(** [l[k]] *)
Definition getitem {A} (l : list A) (k : nat) : M A :=
  match l !! k with
  | Some x => ret x
  | None => raise IndexError
  end.

Definition digit (d : Z) : ascii := ascii_of_nat (48 + Z.to_nat d).

Fixpoint digits_fuel (fuel : nat) (n : Z) (acc : string) : string :=
  match fuel with
  | O => acc
  | S fuel' =>
      let acc' := String (digit (n mod 10)) acc in
      if (n <? 10)%Z then acc' else digits_fuel fuel' (n / 10) acc'
  end.

(** The decimal digits of a natural number [n >= 0]. *)
Definition decimal (n : Z) : string :=
  digits_fuel (S (Z.to_nat (Z.log2 n))) n "".

(** Rounding to the nearest integer, ties to the even one. *)
Definition round_half_even (q : Q) : Z :=
  let n := Qnum q in
  let d := Z.pos (Qden q) in
  let fl := (n / d)%Z in
  let r2 := (2 * (n mod d))%Z in
  if (r2 <? d)%Z then fl
  else if (d <? r2)%Z then (fl + 1)%Z
  else if Z.even fl then fl else (fl + 1)%Z.

(** ['{:.4f}'.format(x)]: fixed-point notation with four digits after the
    point.  The float [x] is taken as the rational it denotes. *)
Definition format_4f (x : Q) : string :=
  let n := round_half_even (x * 10000) in
  let sign := if (Qnum x <? 0)%Z then "-" else "" in
  let a := Z.abs n in
  sign ++ decimal (a / 10000) ++ "."
    ++ String (digit (a / 1000 mod 10)) (String (digit (a / 100 mod 10))
        (String (digit (a / 10 mod 10)) (String (digit (a mod 10)) ""))).

(** ** The script *)

(** Lines 38-55. *)
Definition upload_blob (credentials : Credentials)
    (bucket_name source_file_path destination_blob_name : string) : M unit :=
  let storage_client := storage_Client credentials in
  let bucket := Client_bucket storage_client bucket_name in
  let blob := Bucket_blob bucket destination_blob_name in
  upload_from_filename blob source_file_path ;;;
  print ["File uploaded to cloud."].

(** Lines 57-82. *)
Definition generate_download_signed_url_v4 (bucket_name blob_name : string)
    (credentials : Credentials) : M SignedUrl :=
  let storage_client := storage_Client credentials in
  let bucket := Client_bucket storage_client bucket_name in
  let blob := Bucket_blob bucket blob_name in
  url <- generate_signed_url blob "v4" (timedelta_minutes 1) "GET" ;;
  print ["Signed URL generated."] ;;;
  ret url.

(** Lines 86-150. *)
Definition add_image_to_slide (presentation_id : string) (credentials : Credentials)
    (image_url : SignedUrl) (image_name page_object_id : string)
    (scaleX scaleY translateX translateY : number) : M unit :=
  let service := build "slides" "v1" credentials in
  let emu4M := {| magnitude := 4000000; dim_unit := "EMU" |} in
  let requests : list Request := [] in
  page_info <- pages_get service presentation_id page_object_id ;;
  let objects_on_page : list string := [] in
  requests <-
    match pageElements page_info with
    | Some page_elements =>
        objects_on_page <-
          for_in (range (length page_elements))
            (fun k objects_on_page =>
               element <- getitem page_elements k ;;
               ret (objects_on_page ++ [pe_objectId element]))
            objects_on_page ;;
        if py_in image_name objects_on_page then
          let requests := requests ++ [deleteObject image_name] in
          print ["Image already present on slide. Request added to delete the pre-existing copy so that a new one can be added."] ;;;
          ret requests
        else ret requests
    | None => ret requests
    end ;;
  let requests := requests ++ [
    createImage image_name image_url
      {| pageObjectId := page_object_id;
         size := {| height := emu4M; width := emu4M |};
         transform := {| scaleX := scaleX; scaleY := scaleY;
                         translateX := translateX; translateY := translateY;
                         tr_unit := "EMU" |} |} ] in
  let body := {| requests := requests |} in
  batchUpdate service presentation_id body ;;;
  print ["Image added to slide. Pre-existing image deleted if requested."].

(** Lines 152-163. *)
Definition delete_blob (bucket_name blob_name : string) (credentials : Credentials)
    : M unit :=
  let storage_client := storage_Client credentials in
  let bucket := Client_bucket storage_client bucket_name in
  let blob := Bucket_blob bucket blob_name in
  Blob_delete blob ;;;
  print [("Blob " ++ blob_name ++ " deleted.")%string].

(** Lines 166-210. *)
Definition upload_image_and_add_to_slide
    (image_folder_path image_file_name image_file_extension service_account_path : string)
    (scopes : list string) (presentation_id page_object_id bucket_name : string)
    (scaleX scaleY translateX translateY : number) : M unit :=
  let SERVICE_ACCOUNT_FILE := service_account_path in
  credentials <- from_service_account_file SERVICE_ACCOUNT_FILE scopes ;;
  let image_file_path := (image_folder_path ++ image_file_name ++ image_file_extension)%string in
  upload_blob credentials bucket_name image_file_path image_file_name ;;;
  url <- generate_download_signed_url_v4 bucket_name image_file_name credentials ;;
  time_image_becomes_accessible <- time_time ;;
  add_image_to_slide presentation_id credentials url image_file_name page_object_id
    scaleX scaleY translateX translateY ;;;
  delete_blob bucket_name image_file_name credentials ;;;
  time_image_is_no_longer_accessible <- time_time ;;
  let time_image_was_accessible :=
    (time_image_is_no_longer_accessible - time_image_becomes_accessible)%Q in
  print ["Image was accessible for"; format_4f time_image_was_accessible; "second(s)."].

(** ** The batch as a function of the page snapshot *)

(** The [createImage] request of lines 122-141. *)
Definition image_request (image_url : SignedUrl) (image_name page_object_id : string)
    (scaleX scaleY translateX translateY : number) : Request :=
  createImage image_name image_url
    {| pageObjectId := page_object_id;
       size := {| height := {| magnitude := 4000000; dim_unit := "EMU" |};
                  width := {| magnitude := 4000000; dim_unit := "EMU" |} |};
       transform := {| scaleX := scaleX; scaleY := scaleY;
                       translateX := translateX; translateY := translateY;
                       tr_unit := "EMU" |} |}.

(** The batches of a trace, in the order of their submission. *)
Definition batches (tr : list Event) : list (list Request) :=
  omap (fun ev => match ev with
                  | Called (BatchUpdate _ rs) _ _ _ => Some rs
                  | _ => None
                  end) tr.

Definition is_delete (r : Request) : bool :=
  match r with deleteObject _ => true | createImage _ _ _ => false end.

Definition is_create (r : Request) : bool :=
  match r with createImage _ _ _ => true | deleteObject _ => false end.

Definition request_id (r : Request) : string :=
  match r with deleteObject id => id | createImage id _ _ => id end.

(** * Lemmas *)

(** ** The loop of lines 111-112 *)

Lemma for_in_objectIds (els : list PageElement) (n i : nat) (acc : list string) (w : World) :
  i + n = length els ->
  for_in (seq i n)
    (fun k objects_on_page =>
       element <- getitem els k ;;
       ret (objects_on_page ++ [pe_objectId element])) acc w
  = mkRun (inr (acc ++ map pe_objectId (drop i els))) w [].
Proof.
  revert i acc. induction n as [|n IH]; intros i acc Hlen; simpl.
  - rewrite drop_ge by lia. simpl. rewrite app_nil_r. reflexivity.
  - destruct (els !! i) as [e|] eqn:He.
    2:{ apply lookup_ge_None in He. lia. }
    unfold bind at 1. unfold bind at 1, getitem. rewrite He. simpl.
    rewrite IH by lia. simpl.
    rewrite (drop_S els e i He). simpl.
    rewrite <- app_assoc. reflexivity.
Qed.

Lemma objects_on_page_loop (els : list PageElement) (w : World) :
  for_in (range (length els))
    (fun k objects_on_page =>
       element <- getitem els k ;;
       ret (objects_on_page ++ [pe_objectId element])) [] w
  = mkRun (inr (map pe_objectId els)) w [].
Proof. unfold range. rewrite for_in_objectIds by lia. reflexivity. Qed.

Lemma py_in_spec (x : string) (l : list string) : py_in x l = true <-> x ∈ l.
Proof.
  induction l as [|y l IH]; simpl.
  - split; [discriminate | intros H; inversion H].
  - destruct (String.eqb_spec x y) as [->|Hne].
    + split; [intros _; left | reflexivity].
    + rewrite IH. split; [intros H; right; exact H |].
      intros H. inversion H; subst; [contradiction | assumption].
Qed.

(** ** A call into a client library *)

Lemma external_trace {A} (c : Call) (sem : Q -> Services -> Exception + (A * Services))
    (w : World) :
  trace (external c sem w)
  = [Called c (succeeded (external c sem w)) (w_now w) (returned_at w)].
Proof.
  unfold external, succeeded.
  destruct (w_fault w (w_calls w)); [reflexivity |].
  destruct (sem (w_now w) (w_services w)) as [e|[a s']]; reflexivity.
Qed.

Lemma external_final {A} (c : Call) (sem : Q -> Services -> Exception + (A * Services))
    (w : World) :
  exists s', final (external c sem w) = after_call w s'
    /\ (succeeded (external c sem w) = false -> s' = w_services w).
Proof.
  unfold external, succeeded.
  destruct (w_fault w (w_calls w)); [eexists; split; [reflexivity | reflexivity] |].
  destruct (sem (w_now w) (w_services w)) as [e|[a s']]; simpl;
    eexists; (split; [reflexivity |]); [reflexivity | discriminate].
Qed.

(** ** Sequencing *)

Lemma bind_run {A B} (m : M A) (f : A -> M B) (w : World) :
  bind m f w
  = match result (m w) with
    | inl e => mkRun (inl e) (final (m w)) (trace (m w))
    | inr a =>
        mkRun (result (f a (final (m w)))) (final (f a (final (m w))))
          (trace (m w) ++ trace (f a (final (m w))))
    end.
Proof. reflexivity. Qed.

(** Lines 109-116: the page is scanned and the delete request decided; the
    world is not touched. *)
Lemma delete_decision (page_info : PageInfo) (image_name : string) (w : World) :
  match pageElements page_info with
  | Some page_elements =>
      objects_on_page <-
        for_in (range (length page_elements))
          (fun k objects_on_page =>
             element <- getitem page_elements k ;;
             ret (objects_on_page ++ [pe_objectId element]))
          [] ;;
      if py_in image_name objects_on_page then
        print ["Image already present on slide. Request added to delete the pre-existing copy so that a new one can be added."] ;;;
        ret ([] ++ [deleteObject image_name])
      else ret []
  | None => ret []
  end w
  = mkRun
      (inr (if py_in image_name (element_ids page_info)
            then [deleteObject image_name] else []))
      w
      (if py_in image_name (element_ids page_info)
       then [Printed "Image already present on slide. Request added to delete the pre-existing copy so that a new one can be added."]
       else []).
Proof.
  unfold element_ids.
  destruct (pageElements page_info) as [els|]; [| reflexivity].
  rewrite bind_run, objects_on_page_loop. cbn [result final trace].
  destruct (py_in image_name (map pe_objectId els)); reflexivity.
Qed.

(** ** add_image_to_slide, in terms of the page read *)

Definition batch_for (page_info : PageInfo) (image_url : SignedUrl)
    (image_name page_object_id : string) (sx sy tx ty : number) : list Request :=
  (if py_in image_name (element_ids page_info) then [deleteObject image_name] else [])
  ++ [image_request image_url image_name page_object_id sx sy tx ty].

Lemma add_image_to_slide_run (presentation_id : string) (credentials : Credentials)
    (image_url : SignedUrl) (image_name page_object_id : string)
    (sx sy tx ty : number) (w : World) :
  let service := build "slides" "v1" credentials in
  let g := pages_get service presentation_id page_object_id w in
  add_image_to_slide presentation_id credentials image_url image_name page_object_id
    sx sy tx ty w
  = match result g with
    | inl e => mkRun (inl e) (final g) (trace g)
    | inr page_info =>
        let b := batchUpdate service presentation_id
                   {| requests := batch_for page_info image_url image_name
                                    page_object_id sx sy tx ty |} (final g) in
        mkRun (result b) (final b)
          (trace g
           ++ (if py_in image_name (element_ids page_info)
               then [Printed "Image already present on slide. Request added to delete the pre-existing copy so that a new one can be added."]
               else [])
           ++ trace b
           ++ (if succeeded b
               then [Printed "Image added to slide. Pre-existing image deleted if requested."]
               else []))
    end.
Proof.
  intros service g. unfold add_image_to_slide. fold service.
  rewrite bind_run. fold g.
  destruct (result g) as [e|page_info] eqn:Hg; [reflexivity |].
  rewrite bind_run, (delete_decision page_info image_name (final g)).
  cbn [result final trace]. rewrite bind_run.
  unfold batch_for, image_request, succeeded.
  match goal with |- context [batchUpdate ?s ?p ?b ?w] =>
    destruct (result (batchUpdate s p b w)) as [e|[]] eqn:Hb end;
    cbn [print result final trace]; rewrite <- ?app_assoc, ?app_nil_r; reflexivity.
Qed.

(** ** The page read and the batch update *)

(** What the page read answers in world [w], when it answers. *)
Definition page_snapshot (w : World) (presentation_id page_object_id : string)
    : option PageInfo :=
  if w_fault w (w_calls w) then None
  else
    match presentations (w_services w) !! presentation_id with
    | Some pages => pages !! page_object_id
    | None => None
    end.

Lemma pages_get_run (service : Service) (presentation_id page_object_id : string)
    (w : World) :
  let g := pages_get service presentation_id page_object_id w in
  final g = after_call w (w_services w)
  /\ trace g = [Called (PagesGet presentation_id page_object_id) (succeeded g)
                  (w_now w) (returned_at w)]
  /\ match page_snapshot w presentation_id page_object_id with
     | Some page_info => result g = inr page_info
     | None => exists e, result g = inl e
     end.
Proof.
  unfold pages_get, external, page_snapshot, succeeded.
  destruct (w_fault w (w_calls w)); [eauto 6 |].
  destruct (presentations (w_services w) !! presentation_id) as [pages|]; [| eauto 6].
  destruct (pages !! page_object_id); eauto 6.
Qed.

Lemma batchUpdate_run (service : Service) (presentation_id : string) (body : Body)
    (w : World) :
  let b := batchUpdate service presentation_id body w in
  trace b = [Called (BatchUpdate presentation_id (requests body)) (succeeded b)
               (w_now w) (returned_at w)]
  /\ (succeeded b = false -> final b = after_call w (w_services w))
  /\ (succeeded b = true ->
      exists pages pages',
        presentations (w_services w) !! presentation_id = Some pages
        /\ apply_requests (w_now w) (w_services w) pages (requests body) = Some pages'
        /\ final b = after_call w
             (set_presentations (w_services w)
                (<[presentation_id := pages']> (presentations (w_services w))))).
Proof.
  unfold batchUpdate, external, succeeded.
  destruct (w_fault w (w_calls w)); [cbn; intuition discriminate |].
  destruct (presentations (w_services w) !! presentation_id) as [pages|];
    [| cbn; intuition discriminate].
  destruct (apply_requests (w_now w) (w_services w) pages (requests body)) as [pages'|] eqn:Ha;
    cbn; (split; [reflexivity |]); (split; [intros; try discriminate; reflexivity |]);
    intros; try discriminate; eauto.
Qed.

(** The one batch of an invocation is the batch computed from the snapshot;
    there is none when the page read fails. *)
Lemma add_image_to_slide_batches (presentation_id : string) (credentials : Credentials)
    (image_url : SignedUrl) (image_name page_object_id : string)
    (sx sy tx ty : number) (w : World) :
  batches (trace (add_image_to_slide presentation_id credentials image_url image_name
                    page_object_id sx sy tx ty w))
  = match page_snapshot w presentation_id page_object_id with
    | Some page_info =>
        [batch_for page_info image_url image_name page_object_id sx sy tx ty]
    | None => []
    end.
Proof.
  rewrite add_image_to_slide_run.
  destruct (pages_get_run (build "slides" "v1" credentials) presentation_id
              page_object_id w) as (Hf & Ht & Hr).
  destruct (page_snapshot w presentation_id page_object_id) as [page_info|].
  - rewrite Hr. cbn [trace].
    match goal with |- context [batchUpdate ?s ?p ?b ?w'] =>
      destruct (batchUpdate_run s p b w') as (Hb & _) end.
    rewrite Ht, Hb. unfold batches. rewrite !omap_app. cbn.
    destruct (py_in image_name (element_ids page_info)); cbn;
      match goal with |- context [if ?c then _ else _] => destruct c end; reflexivity.
  - destruct Hr as [e ->]. cbn [trace]. rewrite Ht. reflexivity.
Qed.

(** * Placement: the submitted batch *)

(** C2 (deletion ordering).  When the identifier is among the element
    identifiers of the page snapshot, the invocation submits one batch, and in
    it a [deleteObject] for the identifier stands at an earlier position than
    the [createImage] for it; no [createImage] for the identifier comes at or
    before a [deleteObject] for it. *)
Theorem delete_precedes_create (presentation_id : string) (credentials : Credentials)
    (image_url : SignedUrl) (image_name page_object_id : string)
    (sx sy tx ty : number) (w : World) (page_info : PageInfo) :
  page_snapshot w presentation_id page_object_id = Some page_info ->
  image_name ∈ element_ids page_info ->
  exists rs,
    batches (trace (add_image_to_slide presentation_id credentials image_url image_name
                      page_object_id sx sy tx ty w)) = [rs]
    /\ (exists i j,
          rs !! i = Some (deleteObject image_name)
          /\ rs !! j = Some (image_request image_url image_name page_object_id sx sy tx ty)
          /\ i < j)
    /\ (forall i j d c,
          rs !! i = Some d -> is_delete d = true -> request_id d = image_name ->
          rs !! j = Some c -> is_create c = true -> request_id c = image_name ->
          i < j).
Proof.
  intros Hsnap Hin. rewrite add_image_to_slide_batches, Hsnap.
  eexists; split; [reflexivity |].
  unfold batch_for. apply py_in_spec in Hin. rewrite Hin. cbn [app]. split.
  - exists 0, 1. repeat split; lia.
  - intros [|[|i]] [|[|j]] d c Hd Hdel _ Hc Hcre _; cbn in Hd, Hc;
      try discriminate; try lia;
      inversion Hd; inversion Hc; subst; discriminate.
Qed.

(** C3 (empty page).  When the page snapshot has no element, be it that
    ['pageElements'] is an empty list or that the key is missing, the one
    batch submitted holds the [createImage] request and nothing else. *)
Theorem empty_page_only_creates (presentation_id : string) (credentials : Credentials)
    (image_url : SignedUrl) (image_name page_object_id : string)
    (sx sy tx ty : number) (w : World) (page_info : PageInfo) :
  page_snapshot w presentation_id page_object_id = Some page_info ->
  pageElements page_info = None \/ pageElements page_info = Some [] ->
  batches (trace (add_image_to_slide presentation_id credentials image_url image_name
                    page_object_id sx sy tx ty w))
  = [[image_request image_url image_name page_object_id sx sy tx ty]]
  /\ forall rs r,
       rs ∈ batches (trace (add_image_to_slide presentation_id credentials image_url
                              image_name page_object_id sx sy tx ty w)) ->
       r ∈ rs -> is_delete r = false.
Proof.
  intros Hsnap Hempty. rewrite add_image_to_slide_batches, Hsnap.
  assert (Hids : element_ids page_info = []).
  { unfold element_ids. destruct Hempty as [-> | ->]; reflexivity. }
  unfold batch_for. rewrite Hids. cbn [py_in app]. split; [reflexivity |].
  intros rs r Hrs Hr.
  apply list_elem_of_singleton in Hrs. subst rs.
  apply list_elem_of_singleton in Hr. subst r. reflexivity.
Qed.

(** C8 (size and transform).  Every [createImage] request of every batch that
    an invocation submits has height and width 4,000,000 EMU each, and carries
    the four transform numbers of the caller, with unit EMU. *)
Theorem create_image_size_and_transform (presentation_id : string)
    (credentials : Credentials) (image_url : SignedUrl)
    (image_name page_object_id : string) (sx sy tx ty : number) (w : World)
    (rs : list Request) (id : string) (u : SignedUrl) (props : ElementProperties) :
  rs ∈ batches (trace (add_image_to_slide presentation_id credentials image_url
                         image_name page_object_id sx sy tx ty w)) ->
  createImage id u props ∈ rs ->
  height (size props) = {| magnitude := 4000000; dim_unit := "EMU" |}
  /\ width (size props) = {| magnitude := 4000000; dim_unit := "EMU" |}
  /\ transform props = {| scaleX := sx; scaleY := sy; translateX := tx;
                          translateY := ty; tr_unit := "EMU" |}.
Proof.
  rewrite add_image_to_slide_batches.
  destruct (page_snapshot w presentation_id page_object_id) as [page_info|];
    intros Hrs Hr; [| inversion Hrs].
  apply list_elem_of_singleton in Hrs. subst rs.
  unfold batch_for in Hr. apply elem_of_app in Hr. destruct Hr as [Hr | Hr].
  - destruct (py_in image_name (element_ids page_info)); [| inversion Hr].
    apply list_elem_of_singleton in Hr. discriminate.
  - apply list_elem_of_singleton in Hr. unfold image_request in Hr.
    inversion Hr; subst. cbn. auto.
Qed.

(** C10 (shape of the batch).  Whatever the page holds, the batch has exactly
    one [createImage], as its last request, and at most one [deleteObject],
    which is there exactly when the identifier is among the element
    identifiers.  Two snapshots that agree on that membership, however their
    elements are ordered or repeated, lead to the same batch. *)
Theorem batch_shape (presentation_id : string) (credentials : Credentials)
    (image_url : SignedUrl) (image_name page_object_id : string)
    (sx sy tx ty : number) (w w' : World) (page_info page_info' : PageInfo) :
  page_snapshot w presentation_id page_object_id = Some page_info ->
  page_snapshot w' presentation_id page_object_id = Some page_info' ->
  (image_name ∈ element_ids page_info <-> image_name ∈ element_ids page_info') ->
  exists rs,
    batches (trace (add_image_to_slide presentation_id credentials image_url image_name
                      page_object_id sx sy tx ty w)) = [rs]
    /\ batches (trace (add_image_to_slide presentation_id credentials image_url
                         image_name page_object_id sx sy tx ty w')) = [rs]
    /\ length (filter (fun r => is_create r = true) rs) = 1
    /\ last rs = Some (image_request image_url image_name page_object_id sx sy tx ty)
    /\ length (filter (fun r => is_delete r = true) rs) <= 1
    /\ (deleteObject image_name ∈ rs <-> image_name ∈ element_ids page_info).
Proof.
  intros Hsnap Hsnap' Hiff. rewrite !add_image_to_slide_batches, Hsnap, Hsnap'.
  assert (Hsame : py_in image_name (element_ids page_info')
                  = py_in image_name (element_ids page_info)).
  { destruct (py_in image_name (element_ids page_info)) eqn:H1.
    - apply py_in_spec, Hiff, py_in_spec. exact H1.
    - destruct (py_in image_name (element_ids page_info')) eqn:H2; [| reflexivity].
      apply py_in_spec, Hiff, py_in_spec in H2. congruence. }
  eexists; split; [reflexivity |]. unfold batch_for. rewrite Hsame.
  split; [reflexivity |].
  rewrite <- py_in_spec.
  destruct (py_in image_name (element_ids page_info)); cbn [app];
    (split; [reflexivity |]); (split; [reflexivity |]);
    (split; [vm_compute; lia |]); split; try discriminate; intros H.
  - reflexivity.
  - apply list_elem_of_here.
  - apply list_elem_of_singleton in H. discriminate.
Qed.

(** ** What the Slides service does with a batch *)

(** How many elements of the page carry the identifier, when there is such
    a page. *)
Definition elements_named (s : Services) (presentation_id page_object_id id : string)
    : option nat :=
  match presentations s !! presentation_id with
  | Some pages =>
      match pages !! page_object_id with
      | Some page => Some (count_id id page)
      | None => None
      end
  | None => None
  end.

Lemma apply_requests_snoc (now : Q) (s : Services) (rs : list Request) (r : Request)
    (pages : gmap string PageInfo) :
  apply_requests now s pages (rs ++ [r])
  = match apply_requests now s pages rs with
    | Some pages' => apply_request now s pages' r
    | None => None
    end.
Proof.
  revert pages. induction rs as [|r0 rs IH]; intros pages; cbn.
  - destruct (apply_request now s pages r); reflexivity.
  - destruct (apply_request now s pages r0); [apply IH | reflexivity].
Qed.

Lemma element_ids_add_element (e : PageElement) (page : PageInfo) :
  element_ids (add_element e page) = element_ids page ++ [pe_objectId e].
Proof.
  unfold add_element, element_ids.
  destruct (pageElements page) as [els|]; cbn; [| reflexivity].
  rewrite map_app. reflexivity.
Qed.

Lemma count_id_absent (id : string) (page : PageInfo) :
  id ∉ element_ids page -> count_id id page = 0.
Proof.
  unfold count_id. intros Hnot.
  destruct (filter (fun i => i = id) (element_ids page)) as [|i l] eqn:Hf; [reflexivity |].
  assert (Hi : i ∈ filter (fun i => i = id) (element_ids page))
    by (rewrite Hf; apply list_elem_of_here).
  apply list_elem_of_filter in Hi. destruct Hi as [-> Hi]. contradiction.
Qed.

Lemma count_id_present (id : string) (page : PageInfo) :
  0 < count_id id page -> id ∈ element_ids page.
Proof.
  unfold count_id. intros Hpos.
  destruct (filter (fun i => i = id) (element_ids page)) as [|i l] eqn:Hf;
    [cbn in Hpos; lia |].
  assert (Hi : i ∈ filter (fun i => i = id) (element_ids page))
    by (rewrite Hf; apply list_elem_of_here).
  apply list_elem_of_filter in Hi. destruct Hi as [-> Hi]. exact Hi.
Qed.

Lemma free_id_absent (id : string) (pages : gmap string PageInfo) (p : string)
    (page : PageInfo) :
  id_in_use id pages = false -> pages !! p = Some page -> id ∉ element_ids page.
Proof.
  unfold id_in_use. intros Hfree Hp Hin.
  apply orb_false_elim in Hfree. destruct Hfree as [_ Hfree].
  apply bool_decide_eq_false in Hfree. apply Hfree.
  exists p, page. split; assumption.
Qed.

(** An accepted [createImage] leaves exactly one element of that identifier
    on its page: the identifier had to be free, and one element is added. *)
Lemma create_leaves_one (now : Q) (s : Services) (pages pages' : gmap string PageInfo)
    (id : string) (u : SignedUrl) (props : ElementProperties) :
  apply_request now s pages (createImage id u props) = Some pages' ->
  exists page', pages' !! pageObjectId props = Some page' /\ count_id id page' = 1.
Proof.
  cbn. destruct (id_in_use id pages) eqn:Hfree; [discriminate |].
  destruct (pages !! pageObjectId props) as [page|] eqn:Hp; [| discriminate].
  destruct (fetchable now s u); [| discriminate].
  intros H. inversion H; subst pages'; clear H.
  eexists. split; [apply lookup_insert_eq |].
  unfold count_id. rewrite element_ids_add_element, filter_app, length_app.
  fold (count_id id page).
  rewrite (count_id_absent id page (free_id_absent id pages _ page Hfree Hp)).
  cbn. rewrite decide_True by reflexivity. reflexivity.
Qed.

(** A successful invocation read the page and leaves exactly one element of
    the name on it. *)
Lemma add_image_to_slide_success (presentation_id : string) (credentials : Credentials)
    (image_url : SignedUrl) (image_name page_object_id : string)
    (sx sy tx ty : number) (w : World) :
  let r := add_image_to_slide presentation_id credentials image_url image_name
             page_object_id sx sy tx ty w in
  succeeded r = true ->
  (exists page_info, page_snapshot w presentation_id page_object_id = Some page_info)
  /\ elements_named (w_services (final r)) presentation_id page_object_id image_name
     = Some 1.
Proof.
  intros r. subst r. rewrite add_image_to_slide_run.
  destruct (pages_get_run (build "slides" "v1" credentials) presentation_id
              page_object_id w) as (Hf & _ & Hr).
  destruct (page_snapshot w presentation_id page_object_id) as [page_info|].
  2:{ destruct Hr as [e ->]. discriminate. }
  rewrite Hr. cbn [final]. intros Hok. split; [eauto |].
  match goal with |- context [batchUpdate ?sv ?p ?b ?w'] =>
    destruct (batchUpdate_run sv p b w') as (_ & _ & Hb) end.
  destruct (Hb Hok) as (pages & pages' & _ & Happly & ->). clear Hb.
  cbn [requests] in Happly. unfold batch_for in Happly.
  rewrite apply_requests_snoc in Happly.
  match type of Happly with match ?a with _ => _ end = _ =>
    destruct a as [pages0|]; [| discriminate] end.
  apply create_leaves_one in Happly. destruct Happly as (page' & Hp & Hc).
  unfold elements_named. cbn. rewrite lookup_insert_eq. cbn in Hp. rewrite Hp, Hc.
  reflexivity.
Qed.

Lemma snapshot_count (w : World) (presentation_id page_object_id id : string)
    (page_info : PageInfo) (n : nat) :
  page_snapshot w presentation_id page_object_id = Some page_info ->
  elements_named (w_services w) presentation_id page_object_id id = Some n ->
  count_id id page_info = n.
Proof.
  unfold page_snapshot, elements_named.
  destruct (w_fault w (w_calls w)); [discriminate |].
  destruct (presentations (w_services w) !! presentation_id) as [pages|]; [| discriminate].
  intros ->. congruence.
Qed.

(** * Placement twice *)

(** C1 (idempotent placement).  When two invocations for the same name and
    page follow each other and both succeed, the page holds exactly one
    element of that name after the first and after the second, and the batch
    of the second deletes that element before it creates the new one. *)
Theorem placement_idempotent (presentation_id : string)
    (credentials credentials' : Credentials) (image_url image_url' : SignedUrl)
    (image_name page_object_id : string) (sx sy tx ty sx' sy' tx' ty' : number)
    (w : World) :
  let r1 := add_image_to_slide presentation_id credentials image_url image_name
              page_object_id sx sy tx ty w in
  let r2 := add_image_to_slide presentation_id credentials' image_url' image_name
              page_object_id sx' sy' tx' ty' (final r1) in
  succeeded r1 = true ->
  succeeded r2 = true ->
  elements_named (w_services (final r1)) presentation_id page_object_id image_name
  = Some 1
  /\ batches (trace r2)
     = [[deleteObject image_name;
         image_request image_url' image_name page_object_id sx' sy' tx' ty']]
  /\ elements_named (w_services (final r2)) presentation_id page_object_id image_name
     = Some 1.
Proof.
  intros r1 r2 Hok1 Hok2.
  destruct (add_image_to_slide_success _ _ _ _ _ _ _ _ _ _ Hok1) as (_ & Hone).
  destruct (add_image_to_slide_success _ _ _ _ _ _ _ _ _ _ Hok2) as ((page_info & Hsnap) & Hone').
  fold r1 in Hone, Hsnap. fold r2 in Hone'.
  split; [exact Hone |]. split; [| exact Hone'].
  subst r2. rewrite add_image_to_slide_batches, Hsnap.
  pose proof (snapshot_count _ _ _ _ _ _ Hsnap Hone) as Hc.
  assert (Hin : py_in image_name (element_ids page_info) = true).
  { apply py_in_spec, count_id_present. lia. }
  unfold batch_for. rewrite Hin. reflexivity.
Qed.

(** ** The calls of a trace *)

Definition calls (tr : list Event) : list (Call * bool) :=
  omap (fun ev => match ev with
                  | Called c ok _ _ => Some (c, ok)
                  | _ => None
                  end) tr.

Definition time_reads (tr : list Event) : list Q :=
  omap (fun ev => match ev with TimeRead t => Some t | _ => None end) tr.

(** [follows plan l ok]: the calls [l] are the calls of [plan], made one
    after the other for as long as each one succeeds; [ok] tells whether the
    whole plan was carried out. *)
Inductive follows : list Call -> list (Call * bool) -> bool -> Prop :=
| follows_done : follows [] [] true
| follows_fail c plan : follows (c :: plan) [(c, false)] false
| follows_step c plan l ok : follows plan l ok -> follows (c :: plan) ((c, true) :: l) ok.

Lemma follows_one (c : Call) (ok : bool) : follows [c] [(c, ok)] ok.
Proof. destruct ok; repeat constructor. Qed.

Lemma follows_single (c : Call) (l : list (Call * bool)) (ok : bool) :
  follows [c] l ok -> l = [(c, ok)].
Proof.
  intros H. inversion H as [| |? ? l' ? H']; subst; [reflexivity |].
  inversion H'; subst. reflexivity.
Qed.

Lemma follows_app (p1 p2 : list Call) (l1 l2 : list (Call * bool)) (ok : bool) :
  follows p1 l1 true -> follows p2 l2 ok -> follows (p1 ++ p2) (l1 ++ l2) ok.
Proof.
  intros H1. remember true as b eqn:Hb. revert Hb.
  induction H1; intros Hb H2; try discriminate; cbn; [assumption |].
  constructor. apply IHfollows; assumption.
Qed.

Lemma follows_stop (p1 p2 : list Call) (l1 : list (Call * bool)) :
  follows p1 l1 false -> follows (p1 ++ p2) l1 false.
Proof.
  intros H1. remember false as b eqn:Hb. revert Hb.
  induction H1; intros Hb; try discriminate; cbn; constructor; auto.
Qed.

Lemma follows_lookup (plan : list Call) (l : list (Call * bool)) (ok : bool) :
  follows plan l ok ->
  forall i c b, l !! i = Some (c, b) ->
    plan !! i = Some c
    /\ (b = false -> length l = S i /\ ok = false)
    /\ (forall j, j < i -> exists c', l !! j = Some (c', true)).
Proof.
  induction 1 as [|c0 plan|c0 plan l ok H IH]; intros i c b Hi.
  - destruct i; discriminate.
  - destruct i as [|i]; [| destruct i; discriminate].
    inversion Hi; subst. repeat split; intros; lia.
  - destruct i as [|i]; cbn in Hi.
    + inversion Hi; subst. repeat split; intros; try discriminate; lia.
    + destruct (IH i c b Hi) as (Hp & Hf & Hb). split; [exact Hp |]. split.
      * intros Hfalse. destruct (Hf Hfalse) as [Hlen ->]. cbn. split; [lia | reflexivity].
      * intros [|j] Hj; [eexists; reflexivity |]. apply Hb. lia.
Qed.

Lemma follows_success (plan : list Call) (l : list (Call * bool)) :
  follows plan l true -> l = map (fun c => (c, true)) plan.
Proof.
  intros H. remember true as b eqn:Hb. revert Hb.
  induction H as [|c plan|c plan l ok H IH]; intros Hb; try discriminate; cbn.
  - reflexivity.
  - subst ok. rewrite (IH eq_refl) at 1. reflexivity.
Qed.

Lemma follows_prefix (plan : list Call) (l : list (Call * bool)) (ok : bool) :
  follows plan l ok -> map fst l `prefix_of` plan.
Proof.
  induction 1 as [|c plan|c plan l ok H IH]; cbn.
  - apply prefix_nil.
  - apply prefix_cons, prefix_nil.
  - apply prefix_cons, IH.
Qed.

Lemma follows_failure (plan : list Call) (l : list (Call * bool)) :
  follows plan l false -> exists c, last l = Some (c, false).
Proof.
  intros H. remember false as b eqn:Hb. revert Hb.
  induction H as [|c plan|c plan l ok H IH]; intros Hb; try discriminate.
  - exists c. reflexivity.
  - destruct (IH Hb) as [c' Hc']. exists c'.
    destruct l; [discriminate |]. exact Hc'.
Qed.

(** ** The stages, one by one *)

Lemma from_service_account_file_run (path : string) (scopes : list string) (w : World) :
  let r := from_service_account_file path scopes w in
  trace r = [Called (LoadCredentials path scopes) (succeeded r) (w_now w) (returned_at w)]
  /\ final r = after_call w (w_services w).
Proof.
  unfold from_service_account_file, external, succeeded.
  destruct (w_fault w (w_calls w)); [cbn; auto |].
  destruct (files (w_services w) !! path); cbn; auto.
Qed.

Lemma upload_blob_run (credentials : Credentials)
    (bucket_name source_file_path destination_blob_name : string) (w : World) :
  let r := upload_blob credentials bucket_name source_file_path destination_blob_name w in
  trace r
  = Called (Upload bucket_name source_file_path destination_blob_name) (succeeded r)
      (w_now w) (returned_at w)
    :: (if succeeded r then [Printed "File uploaded to cloud."] else [])
  /\ exists s',
       final r = after_call w s'
       /\ (succeeded r = false -> s' = w_services w)
       /\ (succeeded r = true ->
           blob_exists s' bucket_name destination_blob_name = true
           /\ exists objects,
                buckets s' !! bucket_name = Some objects
                /\ objects !! destination_blob_name
                   = files (w_services w) !! source_file_path).
Proof.
  unfold upload_blob. cbv zeta. rewrite bind_run.
  unfold upload_from_filename, external, succeeded, blob_exists. cbn [bl_name bl_bucket bk_name
    Bucket_blob Client_bucket].
  destruct (w_fault w (w_calls w)).
  { cbn. split; [reflexivity |]. eexists. split; [reflexivity |].
    split; [reflexivity | discriminate]. }
  destruct (files (w_services w) !! source_file_path) as [data|].
  2:{ cbn. split; [reflexivity |]. eexists. split; [reflexivity |].
      split; [reflexivity | discriminate]. }
  destruct (buckets (w_services w) !! bucket_name) as [objects|].
  2:{ cbn. split; [reflexivity |]. eexists. split; [reflexivity |].
      split; [reflexivity | discriminate]. }
  cbn. split; [reflexivity |]. eexists. split; [reflexivity |].
  split; [discriminate |]. intros _. cbn [buckets set_buckets].
  rewrite !lookup_insert_eq. split.
  - apply bool_decide_eq_true. eauto.
  - eexists. split; [reflexivity |]. apply lookup_insert_eq.
Qed.

Lemma generate_download_signed_url_v4_run (bucket_name blob_name : string)
    (credentials : Credentials) (w : World) :
  let r := generate_download_signed_url_v4 bucket_name blob_name credentials w in
  trace r
  = Called (SignUrl bucket_name blob_name "v4" (timedelta_minutes 1) "GET") (succeeded r)
      (w_now w) (returned_at w)
    :: (if succeeded r then [Printed "Signed URL generated."] else [])
  /\ final r = after_call w (w_services w)
  /\ (forall u, result r = inr u ->
        u = {| url_bucket := bucket_name; url_blob := blob_name; url_version := "v4";
               url_method := "GET"; url_issued := w_now w;
               url_expiration := timedelta_minutes 1 |}).
Proof.
  unfold generate_download_signed_url_v4. cbv zeta. rewrite bind_run.
  unfold generate_signed_url, external, succeeded. cbn [bl_name bl_bucket bk_name
    Bucket_blob Client_bucket].
  destruct (w_fault w (w_calls w)); cbn.
  - repeat split. intros u Hu. discriminate.
  - repeat split. intros u Hu. inversion Hu. reflexivity.
Qed.

Lemma delete_blob_run (bucket_name blob_name : string) (credentials : Credentials)
    (w : World) :
  let r := delete_blob bucket_name blob_name credentials w in
  trace r
  = Called (Delete bucket_name blob_name) (succeeded r) (w_now w) (returned_at w)
    :: (if succeeded r then [Printed ("Blob " ++ blob_name ++ " deleted.")%string] else [])
  /\ exists s',
       final r = after_call w s'
       /\ (succeeded r = false -> s' = w_services w)
       /\ (succeeded r = true ->
           blob_exists (w_services w) bucket_name blob_name = true
           /\ blob_exists s' bucket_name blob_name = false).
Proof.
  unfold delete_blob. cbv zeta. rewrite bind_run.
  unfold Blob_delete, external, succeeded, blob_exists. cbn [bl_name bl_bucket bk_name
    Bucket_blob Client_bucket].
  destruct (w_fault w (w_calls w)).
  { cbn. split; [reflexivity |]. eexists. split; [reflexivity |].
    split; [reflexivity | discriminate]. }
  destruct (buckets (w_services w) !! bucket_name) as [objects|] eqn:Hb.
  2:{ cbn. split; [reflexivity |]. eexists. split; [reflexivity |].
      split; [reflexivity | discriminate]. }
  destruct (objects !! blob_name) as [data|] eqn:Ho.
  2:{ cbn. split; [reflexivity |]. eexists. split; [reflexivity |].
      split; [reflexivity | discriminate]. }
  cbn. split; [reflexivity |]. eexists. split; [reflexivity |].
  split; [discriminate |]. intros _. cbn [buckets set_buckets].
  rewrite lookup_insert_eq. split.
  - reflexivity.
  - apply bool_decide_eq_false. rewrite lookup_delete_eq. intros [x Hx]. discriminate.
Qed.

(** Placement makes the page read and, when that succeeds, the batch update;
    it leaves the buckets alone. *)
Lemma add_image_to_slide_stage (presentation_id : string) (credentials : Credentials)
    (image_url : SignedUrl) (image_name page_object_id : string)
    (sx sy tx ty : number) (w : World) :
  let r := add_image_to_slide presentation_id credentials image_url image_name
             page_object_id sx sy tx ty w in
  (exists rs,
     Forall (fun q => request_id q = image_name) rs
     /\ follows [PagesGet presentation_id page_object_id; BatchUpdate presentation_id rs]
          (calls (trace r)) (succeeded r))
  /\ time_reads (trace r) = []
  /\ buckets (w_services (final r)) = buckets (w_services w)
  /\ w_latency (final r) = w_latency w
  /\ (succeeded r = true ->
      w_calls (final r) = S (S (w_calls w))
      /\ w_now (final r)
         = (w_now w + w_latency w (w_calls w) + w_latency w (S (w_calls w)))%Q).
Proof.
  intros r. subst r. rewrite add_image_to_slide_run.
  destruct (pages_get_run (build "slides" "v1" credentials) presentation_id
              page_object_id w) as (Hf & Ht & Hr).
  destruct (page_snapshot w presentation_id page_object_id) as [page_info|].
  - rewrite Hr. cbn [final trace].
    match goal with |- context [batchUpdate ?sv ?p ?b ?w'] =>
      destruct (batchUpdate_run sv p b w') as (Hbt & Hbf & Hbs);
      set (b' := batchUpdate sv p b w') in * end.
    assert (Hg : succeeded (pages_get (build "slides" "v1" credentials) presentation_id
                              page_object_id w) = true)
      by (unfold succeeded; rewrite Hr; reflexivity).
    rewrite Hg in Ht. rewrite Ht, Hbt. cbn [requests].
    assert (Hsucc : succeeded (mkRun (result b') (final b')
                      ([Called (PagesGet presentation_id page_object_id) true (w_now w)
                          (returned_at w)]
                       ++ (if py_in image_name (element_ids page_info)
                           then [Printed "Image already present on slide. Request added to delete the pre-existing copy so that a new one can be added."]
                           else [])
                       ++ [Called (BatchUpdate presentation_id
                                     (batch_for page_info image_url image_name
                                        page_object_id sx sy tx ty))
                             (succeeded b') (w_now (final (pages_get
                                (build "slides" "v1" credentials) presentation_id
                                page_object_id w)))
                             (returned_at (final (pages_get
                                (build "slides" "v1" credentials) presentation_id
                                page_object_id w)))]
                       ++ (if succeeded b'
                           then [Printed "Image added to slide. Pre-existing image deleted if requested."]
                           else [])))
                    = succeeded b') by reflexivity.
    rewrite Hsucc. clear Hsucc.
    split; [| split; [| split; [| split]]].
    + exists (batch_for page_info image_url image_name page_object_id sx sy tx ty).
      split.
      * unfold batch_for, image_request.
        destruct (py_in image_name (element_ids page_info)); repeat constructor.
      * unfold calls. rewrite !omap_app.
        destruct (py_in image_name (element_ids page_info)), (succeeded b'); cbn;
          repeat constructor.
    + unfold time_reads. rewrite !omap_app.
      destruct (py_in image_name (element_ids page_info)), (succeeded b'); reflexivity.
    + destruct (succeeded b') eqn:Hok.
      * destruct (Hbs eq_refl) as (pages & pages' & _ & _ & ->). rewrite Hf. reflexivity.
      * rewrite (Hbf eq_refl), Hf. reflexivity.
    + destruct (succeeded b') eqn:Hok.
      * destruct (Hbs eq_refl) as (pages & pages' & _ & _ & ->). rewrite Hf. reflexivity.
      * rewrite (Hbf eq_refl), Hf. reflexivity.
    + intros Hok. destruct (Hbs Hok) as (pages & pages' & _ & _ & ->). rewrite Hf.
      split; reflexivity.
  - destruct Hr as [e He]. rewrite He. cbn [final trace].
    assert (Hg : succeeded (pages_get (build "slides" "v1" credentials) presentation_id
                              page_object_id w) = false)
      by (unfold succeeded; rewrite He; reflexivity).
    rewrite Hg in Ht. rewrite Ht, Hf. unfold succeeded. cbn.
    split; [| split; [| split; [| split]]]; try reflexivity; try discriminate.
    exists []. split; repeat constructor.
Qed.

Lemma succeeded_inr {A} (r : Run A) (a : A) : result r = inr a -> succeeded r = true.
Proof. unfold succeeded. intros ->. reflexivity. Qed.

Lemma succeeded_inl {A} (r : Run A) (e : Exception) : result r = inl e -> succeeded r = false.
Proof. unfold succeeded. intros ->. reflexivity. Qed.

Lemma calls_of_stage (c : Call) (ok : bool) (t t' : Q) (line : string) :
  calls (Called c ok t t' :: (if ok then [Printed line] else [])) = [(c, ok)].
Proof. destruct ok; reflexivity. Qed.

Lemma time_reads_of_stage (c : Call) (ok : bool) (t t' : Q) (line : string) :
  time_reads (Called c ok t t' :: (if ok then [Printed line] else [])) = [].
Proof. destruct ok; reflexivity. Qed.

(** * The orchestrator *)

(** Five stages in a row, with the two clock readings and the report of
    lines 201 and 208-210: each stage starts in the world the previous one
    left, and the first exception ends the run. *)
Lemma five_stages {C U : Type} (load : M C) (upload : C -> M unit) (sign : C -> M U)
    (place : C -> U -> M unit) (remove : C -> M unit) (w : World) :
  let r0 := load w in
  (credentials <- load ;;
   upload credentials ;;;
   url <- sign credentials ;;
   time_image_becomes_accessible <- time_time ;;
   place credentials url ;;;
   remove credentials ;;;
   time_image_is_no_longer_accessible <- time_time ;;
   let time_image_was_accessible :=
     (time_image_is_no_longer_accessible - time_image_becomes_accessible)%Q in
   print ["Image was accessible for"; format_4f time_image_was_accessible; "second(s)."]) w
  = match result r0 with
    | inl e => mkRun (inl e) (final r0) (trace r0)
    | inr credentials =>
    let r1 := upload credentials (final r0) in
    match result r1 with
    | inl e => mkRun (inl e) (final r1) (trace r0 ++ trace r1)
    | inr _ =>
    let r2 := sign credentials (final r1) in
    match result r2 with
    | inl e => mkRun (inl e) (final r2) (trace r0 ++ trace r1 ++ trace r2)
    | inr url =>
    let t0 := w_now (final r2) in
    let r3 := place credentials url (final r2) in
    match result r3 with
    | inl e =>
        mkRun (inl e) (final r3)
          (trace r0 ++ trace r1 ++ trace r2 ++ [TimeRead t0] ++ trace r3)
    | inr _ =>
    let r4 := remove credentials (final r3) in
    match result r4 with
    | inl e =>
        mkRun (inl e) (final r4)
          (trace r0 ++ trace r1 ++ trace r2 ++ [TimeRead t0] ++ trace r3 ++ trace r4)
    | inr _ =>
        let t1 := w_now (final r4) in
        mkRun (inr tt) (final r4)
          (trace r0 ++ trace r1 ++ trace r2 ++ [TimeRead t0] ++ trace r3 ++ trace r4
           ++ [TimeRead t1;
               Printed (String.concat " "
                          ["Image was accessible for"; format_4f (t1 - t0);
                           "second(s)."])])
    end end end end end.
Proof.
  cbv zeta. rewrite bind_run.
  destruct (result (load w)) as [e|credentials]; [reflexivity |].
  rewrite bind_run.
  destruct (result (upload credentials _)) as [e|[]]; [reflexivity |].
  cbn [result final trace]. rewrite bind_run.
  destruct (result (sign credentials _)) as [e|url]; [reflexivity |].
  cbn [result final trace]. rewrite bind_run.
  cbn [time_time result final trace]. rewrite bind_run.
  destruct (result (place credentials url _)) as [e|[]]; [reflexivity |].
  cbn [result final trace]. rewrite bind_run.
  destruct (result (remove credentials _)) as [e|[]]; [reflexivity |].
  reflexivity.
Qed.



(** ** What follows from the stages alone

    The run of the orchestrator is analysed once, for stages that are only
    known through what they promise; the stages of the script are put in
    afterwards. *)

Lemma calls_app (l1 l2 : list Event) : calls (l1 ++ l2) = calls l1 ++ calls l2.
Proof. apply omap_app. Qed.

Lemma calls_time_read (t : Q) (l : list Event) : calls (TimeRead t :: l) = calls l.
Proof. reflexivity. Qed.

Lemma calls_printed (line : string) (l : list Event) : calls (Printed line :: l) = calls l.
Proof. reflexivity. Qed.

Section FiveStages.

Context {C U : Type}.
Variable load : M C.
Variable upload : C -> M unit.
Variable sign : C -> M U.
Variable place : C -> U -> M unit.
Variable remove : C -> M unit.

Definition script : M unit :=
    credentials <- load ;;
    upload credentials ;;;
    url <- sign credentials ;;
    time_image_becomes_accessible <- time_time ;;
    place credentials url ;;;
    remove credentials ;;;
    time_image_is_no_longer_accessible <- time_time ;;
    let time_image_was_accessible :=
      (time_image_is_no_longer_accessible - time_image_becomes_accessible)%Q in
    print ["Image was accessible for"; format_4f time_image_was_accessible; "second(s)."].

  (** A successful run is the five stages, each one successful. *)
Lemma script_success (w : World) :
    succeeded (script w) = true ->
    exists credentials url,
      let r0 := load w in
      let r1 := upload credentials (final r0) in
      let r2 := sign credentials (final r1) in
      let r3 := place credentials url (final r2) in
      let r4 := remove credentials (final r3) in
      result r0 = inr credentials /\ result r1 = inr tt /\ result r2 = inr url
      /\ result r3 = inr tt /\ result r4 = inr tt
      /\ final (script w) = final r4
      /\ trace (script w)
         = trace r0 ++ trace r1 ++ trace r2 ++ [TimeRead (w_now (final r2))]
           ++ trace r3 ++ trace r4
           ++ [TimeRead (w_now (final r4));
               Printed (String.concat " "
                          ["Image was accessible for";
                           format_4f (w_now (final r4) - w_now (final r2));
                           "second(s)."])].
Proof.
    unfold script. rewrite five_stages. cbv zeta.
    destruct (result (load w)) as [e|credentials] eqn:R0; [discriminate |].
    destruct (result (upload credentials _)) as [e|[]] eqn:R1; [discriminate |].
    destruct (result (sign credentials _)) as [e|url] eqn:R2; [discriminate |].
    destruct (result (place credentials url _)) as [e|[]] eqn:R3; [discriminate |].
    destruct (result (remove credentials _)) as [e|[]] eqn:R4; [discriminate |].
    intros _. exists credentials, url. cbn [final trace]. auto 10.
Qed.

  (** *** The calls *)

Section Calls.

Variables c0 c1 c2 c3 c5 : Call.
Variable c4 : list Request -> Call.
Variable P : list Request -> Prop.
Hypothesis P_nil : P [].
Hypothesis load_calls :
      forall w, follows [c0] (calls (trace (load w))) (succeeded (load w)).
Hypothesis upload_calls :
      forall c w, follows [c1] (calls (trace (upload c w))) (succeeded (upload c w)).
Hypothesis sign_calls :
      forall c w, follows [c2] (calls (trace (sign c w))) (succeeded (sign c w)).
Hypothesis place_calls :
      forall c u w, exists rs,
        P rs /\ follows [c3; c4 rs] (calls (trace (place c u w))) (succeeded (place c u w)).
Hypothesis remove_calls :
      forall c w, follows [c5] (calls (trace (remove c w))) (succeeded (remove c w)).

Lemma script_calls (w : World) :
      exists rs,
        P rs
        /\ follows [c0; c1; c2; c3; c4 rs; c5] (calls (trace (script w)))
             (succeeded (script w)).
Proof.
      unfold script. rewrite five_stages. cbv zeta.
      pose proof (load_calls w) as F0.
      destruct (result (load w)) as [e|c] eqn:R0.
      { exists []. split; [exact P_nil |]. cbn [trace].
        rewrite (succeeded_inl _ _ R0) in F0.
        apply (follows_stop [c0] [c1; c2; c3; c4 []; c5] _ F0). }
      rewrite (succeeded_inr _ _ R0) in F0.
      pose proof (upload_calls c (final (load w))) as F1.
      destruct (result (upload c (final (load w)))) as [e|[]] eqn:R1.
      { exists []. split; [exact P_nil |]. cbn [trace]. rewrite calls_app.
        rewrite (succeeded_inl _ _ R1) in F1.
        apply (follows_app [c0] [c1; c2; c3; c4 []; c5] _ _ _ F0).
        apply (follows_stop [c1] [c2; c3; c4 []; c5] _ F1). }
      rewrite (succeeded_inr _ _ R1) in F1.
      pose proof (sign_calls c (final (upload c (final (load w))))) as F2.
      destruct (result (sign c (final (upload c (final (load w)))))) as [e|u] eqn:R2.
      { exists []. split; [exact P_nil |]. cbn [trace]. rewrite !calls_app.
        rewrite (succeeded_inl _ _ R2) in F2.
        apply (follows_app [c0] [c1; c2; c3; c4 []; c5] _ _ _ F0).
        apply (follows_app [c1] [c2; c3; c4 []; c5] _ _ _ F1).
        apply (follows_stop [c2] [c3; c4 []; c5] _ F2). }
      rewrite (succeeded_inr _ _ R2) in F2.
      destruct (place_calls c u (final (sign c (final (upload c (final (load w)))))))
        as (rs & Hrs & F3).
      exists rs. split; [exact Hrs |].
      destruct (result (place c u (final (sign c (final (upload c (final (load w))))))))
        as [e|[]] eqn:R3.
      { cbn [trace]. rewrite !calls_app, calls_time_read. cbn [calls omap app].
        rewrite (succeeded_inl _ _ R3) in F3.
        apply (follows_app [c0] [c1; c2; c3; c4 rs; c5] _ _ _ F0).
        apply (follows_app [c1] [c2; c3; c4 rs; c5] _ _ _ F1).
        apply (follows_app [c2] [c3; c4 rs; c5] _ _ _ F2).
        apply (follows_stop [c3; c4 rs] [c5] _ F3). }
      rewrite (succeeded_inr _ _ R3) in F3.
      pose proof (remove_calls c
                    (final (place c u (final (sign c (final (upload c (final (load w))))))))
                 ) as F4.
      match type of F4 with follows _ _ (succeeded ?r4) =>
        assert (E : exists b, succeeded r4 = b) by eauto; destruct E as [b E];
        rewrite E in F4;
        destruct (result r4) as [e|[]] eqn:R4
      end.
      - rewrite (succeeded_inl _ _ R4) in E. subst b.
        cbn [trace]. rewrite !calls_app, calls_time_read. cbn [calls omap app].
        apply (follows_app [c0] [c1; c2; c3; c4 rs; c5] _ _ _ F0).
        apply (follows_app [c1] [c2; c3; c4 rs; c5] _ _ _ F1).
        apply (follows_app [c2] [c3; c4 rs; c5] _ _ _ F2).
        apply (follows_app [c3; c4 rs] [c5] _ _ _ F3). exact F4.
      - rewrite (succeeded_inr _ _ R4) in E. subst b.
        cbn [trace]. rewrite !calls_app, calls_time_read. cbn [calls omap app].
        rewrite app_nil_r.
        apply (follows_app [c0] [c1; c2; c3; c4 rs; c5] _ _ _ F0).
        apply (follows_app [c1] [c2; c3; c4 rs; c5] _ _ _ F1).
        apply (follows_app [c2] [c3; c4 rs; c5] _ _ _ F2).
        apply (follows_app [c3; c4 rs] [c5] _ _ _ F3). exact F4.
Qed.


    (** *** What a failed run leaves behind *)

Variable Obj : World -> Prop.
Hypothesis c0_c1 : c0 <> c1.
Hypothesis upload_puts :
      forall c w, succeeded (upload c w) = true -> Obj (final (upload c w)).
Hypothesis sign_keeps : forall c w, Obj w -> Obj (final (sign c w)).
Hypothesis place_keeps : forall c u w, Obj w -> Obj (final (place c u w)).
Hypothesis failed_remove_keeps :
      forall c w, succeeded (remove c w) = false -> Obj w -> Obj (final (remove c w)).

Lemma script_leaves (w : World) :
      succeeded (script w) = false ->
      (c1, true) ∈ calls (trace (script w)) ->
      Obj (final (script w)).
Proof.
      unfold script. rewrite five_stages. cbv zeta.
      pose proof (load_calls w) as F0. apply follows_single in F0.
      destruct (result (load w)) as [e|c] eqn:R0.
      { intros _ Hin. cbn [trace] in Hin. rewrite F0 in Hin.
        apply list_elem_of_singleton in Hin. inversion Hin. congruence. }
      pose proof (upload_calls c (final (load w))) as F1. apply follows_single in F1.
      pose proof (upload_puts c (final (load w))) as O1.
      destruct (result (upload c (final (load w)))) as [e|[]] eqn:R1.
      { intros _ Hin. cbn [trace] in Hin. rewrite calls_app, F0, F1 in Hin.
        rewrite (succeeded_inl _ _ R1) in Hin. cbn [app] in Hin.
        apply elem_of_cons in Hin. destruct Hin as [Hin|Hin].
        - inversion Hin. congruence.
        - apply list_elem_of_singleton in Hin. discriminate. }
      specialize (O1 (succeeded_inr _ _ R1)).
      pose proof (sign_keeps c _ O1) as O2.
      destruct (result (sign c (final (upload c (final (load w)))))) as [e|u] eqn:R2;
        [intros _ _; exact O2 |].
      pose proof (place_keeps c u _ O2) as O3.
      destruct (result (place c u (final (sign c (final (upload c (final (load w))))))))
        as [e|[]] eqn:R3; [intros _ _; exact O3 |].
      pose proof (failed_remove_keeps c
                    (final (place c u (final (sign c (final (upload c (final (load w))))))))
                 ) as O4.
      match type of O4 with succeeded ?r4 = false -> _ =>
        destruct (result r4) as [e|[]] eqn:R4
      end; [| discriminate].
      intros _ _. cbn [final]. apply O4; [| exact O3].
      apply (succeeded_inl _ _ R4).
Qed.

End Calls.

End FiveStages.

(** ** The stages of the script *)

Lemma from_service_account_file_calls (path : string) (scopes : list string) (w : World) :
  follows [LoadCredentials path scopes]
    (calls (trace (from_service_account_file path scopes w)))
    (succeeded (from_service_account_file path scopes w)).
Proof.
  destruct (from_service_account_file_run path scopes w) as (T & _).
  rewrite T. apply follows_one.
Qed.

Lemma upload_blob_calls (credentials : Credentials)
    (bucket_name source_file_path destination_blob_name : string) (w : World) :
  follows [Upload bucket_name source_file_path destination_blob_name]
    (calls (trace (upload_blob credentials bucket_name source_file_path
                     destination_blob_name w)))
    (succeeded (upload_blob credentials bucket_name source_file_path
                  destination_blob_name w)).
Proof.
  destruct (upload_blob_run credentials bucket_name source_file_path
              destination_blob_name w) as (T & _).
  rewrite T, calls_of_stage. apply follows_one.
Qed.

Lemma generate_download_signed_url_v4_calls (bucket_name blob_name : string)
    (credentials : Credentials) (w : World) :
  follows [SignUrl bucket_name blob_name "v4" (timedelta_minutes 1) "GET"]
    (calls (trace (generate_download_signed_url_v4 bucket_name blob_name credentials w)))
    (succeeded (generate_download_signed_url_v4 bucket_name blob_name credentials w)).
Proof.
  destruct (generate_download_signed_url_v4_run bucket_name blob_name credentials w)
    as (T & _).
  rewrite T, calls_of_stage. apply follows_one.
Qed.

Lemma delete_blob_calls (bucket_name blob_name : string) (credentials : Credentials)
    (w : World) :
  follows [Delete bucket_name blob_name]
    (calls (trace (delete_blob bucket_name blob_name credentials w)))
    (succeeded (delete_blob bucket_name blob_name credentials w)).
Proof.
  destruct (delete_blob_run bucket_name blob_name credentials w) as (T & _).
  rewrite T, calls_of_stage. apply follows_one.
Qed.

Lemma add_image_to_slide_calls (presentation_id : string) (credentials : Credentials)
    (image_url : SignedUrl) (image_name page_object_id : string)
    (sx sy tx ty : number) (w : World) :
  exists rs,
    Forall (fun q => request_id q = image_name) rs
    /\ follows [PagesGet presentation_id page_object_id; BatchUpdate presentation_id rs]
         (calls (trace (add_image_to_slide presentation_id credentials image_url
                          image_name page_object_id sx sy tx ty w)))
         (succeeded (add_image_to_slide presentation_id credentials image_url
                       image_name page_object_id sx sy tx ty w)).
Proof.
  apply (add_image_to_slide_stage presentation_id credentials image_url image_name
           page_object_id sx sy tx ty w).
Qed.

Lemma blob_exists_buckets (s s' : Services) (bucket_name blob_name : string) :
  buckets s' = buckets s ->
  blob_exists s' bucket_name blob_name = blob_exists s bucket_name blob_name.
Proof. unfold blob_exists. intros ->. reflexivity. Qed.

(** The calls of the script, in program order, for the batch [rs]. *)
Definition pipeline
    (image_folder_path image_file_name image_file_extension service_account_path : string)
    (scopes : list string) (presentation_id page_object_id bucket_name : string)
    (rs : list Request) : list Call :=
  [ LoadCredentials service_account_path scopes;
    Upload bucket_name
      (image_folder_path ++ image_file_name ++ image_file_extension)%string
      image_file_name;
    SignUrl bucket_name image_file_name "v4" (timedelta_minutes 1) "GET";
    PagesGet presentation_id page_object_id;
    BatchUpdate presentation_id rs;
    Delete bucket_name image_file_name ].

Section OrchestratorFacts.

Variables image_folder_path image_file_name image_file_extension : string.
Variables service_account_path : string.
Variable scopes : list string.
Variables presentation_id page_object_id bucket_name : string.
Variables sx sy tx ty : number.

Let path := (image_folder_path ++ image_file_name ++ image_file_extension)%string.
Let load := from_service_account_file service_account_path scopes.
Let upload := fun credentials : Credentials =>
    upload_blob credentials bucket_name path image_file_name.
Let sign := fun credentials : Credentials =>
    generate_download_signed_url_v4 bucket_name image_file_name credentials.
Let place := fun (credentials : Credentials) (url : SignedUrl) =>
    add_image_to_slide presentation_id credentials url image_file_name page_object_id
      sx sy tx ty.
Let remove := fun credentials : Credentials =>
    delete_blob bucket_name image_file_name credentials.

Lemma orchestrator_is_script (w : World) :
    upload_image_and_add_to_slide image_folder_path image_file_name image_file_extension
      service_account_path scopes presentation_id page_object_id bucket_name
      sx sy tx ty w
    = script load upload sign place remove w.
Proof. reflexivity. Qed.

Lemma orchestrator_calls (w : World) :
    let r := upload_image_and_add_to_slide image_folder_path image_file_name
               image_file_extension service_account_path scopes presentation_id
               page_object_id bucket_name sx sy tx ty w in
    exists rs,
      Forall (fun q => request_id q = image_file_name) rs
      /\ follows (pipeline image_folder_path image_file_name image_file_extension
                    service_account_path scopes presentation_id page_object_id
                    bucket_name rs)
           (calls (trace r)) (succeeded r).
Proof.
    cbv zeta. rewrite orchestrator_is_script.
    apply (script_calls load upload sign place remove
             (LoadCredentials service_account_path scopes)
             (Upload bucket_name path image_file_name)
             (SignUrl bucket_name image_file_name "v4" (timedelta_minutes 1) "GET")
             (PagesGet presentation_id page_object_id)
             (Delete bucket_name image_file_name)
             (BatchUpdate presentation_id)
             (Forall (fun q => request_id q = image_file_name))).
    - constructor.
    - intros w'.
      exact (from_service_account_file_calls service_account_path scopes w').
    - intros c w'. exact (upload_blob_calls c bucket_name path image_file_name w').
    - intros c w'.
      exact (generate_download_signed_url_v4_calls bucket_name image_file_name c w').
    - intros c u w'.
      exact (add_image_to_slide_calls presentation_id c u image_file_name
               page_object_id sx sy tx ty w').
    - intros c w'. exact (delete_blob_calls bucket_name image_file_name c w').
Qed.

Lemma orchestrator_success (w : World) :
    let r := upload_image_and_add_to_slide image_folder_path image_file_name
               image_file_extension service_account_path scopes presentation_id
               page_object_id bucket_name sx sy tx ty w in
    succeeded r = true ->
    exists credentials url,
      let r0 := from_service_account_file service_account_path scopes w in
      let r1 := upload_blob credentials bucket_name
                  (image_folder_path ++ image_file_name ++ image_file_extension)%string
                  image_file_name (final r0) in
      let r2 := generate_download_signed_url_v4 bucket_name image_file_name credentials
                  (final r1) in
      let r3 := add_image_to_slide presentation_id credentials url image_file_name
                  page_object_id sx sy tx ty (final r2) in
      let r4 := delete_blob bucket_name image_file_name credentials (final r3) in
      result r0 = inr credentials /\ result r1 = inr tt /\ result r2 = inr url
      /\ result r3 = inr tt /\ result r4 = inr tt
      /\ final r = final r4
      /\ trace r
         = trace r0 ++ trace r1 ++ trace r2 ++ [TimeRead (w_now (final r2))]
           ++ trace r3 ++ trace r4
           ++ [TimeRead (w_now (final r4));
               Printed (String.concat " "
                          ["Image was accessible for";
                           format_4f (w_now (final r4) - w_now (final r2));
                           "second(s)."])].
Proof.
    cbv zeta. rewrite orchestrator_is_script.
    apply (script_success load upload sign place remove w).
Qed.

  (** A run that fails after the upload went through leaves the object in the
      bucket. *)
Lemma object_left_behind (w : World) :
    let r := upload_image_and_add_to_slide image_folder_path image_file_name
               image_file_extension service_account_path scopes presentation_id
               page_object_id bucket_name sx sy tx ty w in
    succeeded r = false ->
    (Upload bucket_name
       (image_folder_path ++ image_file_name ++ image_file_extension)%string
       image_file_name, true) ∈ calls (trace r) ->
    blob_exists (w_services (final r)) bucket_name image_file_name = true.
Proof.
    cbv zeta. rewrite orchestrator_is_script.
    apply script_leaves with
      (c0 := LoadCredentials service_account_path scopes)
      (Obj := fun w' => blob_exists (w_services w') bucket_name image_file_name = true).
    - intros w'.
      exact (from_service_account_file_calls service_account_path scopes w').
    - intros c w'. exact (upload_blob_calls c bucket_name path image_file_name w').
    - discriminate.
    - intros c w' Hok.
      destruct (upload_blob_run c bucket_name path image_file_name w')
        as (_ & s' & F & _ & S).
      unfold upload in *. rewrite F. apply (S Hok).
    - intros c w' H.
      destruct (generate_download_signed_url_v4_run bucket_name image_file_name c w')
        as (_ & F & _).
      unfold sign. rewrite F. exact H.
    - intros c u w' H.
      destruct (add_image_to_slide_stage presentation_id c u image_file_name
                  page_object_id sx sy tx ty w') as (_ & _ & B & _).
      unfold place. rewrite (blob_exists_buckets _ _ _ _ B). exact H.
    - intros c w' Hfail H.
      destruct (delete_blob_run bucket_name image_file_name c w')
        as (_ & s' & F & N & _).
      unfold remove in *. rewrite F, (N Hfail). exact H.
Qed.

End OrchestratorFacts.

(** * The signed URL *)

(** C7 (signed URL request).  Every invocation makes one request for a signed
    URL: version v4, an expiration of one minute (60 seconds), method GET; what
    the library hands back is returned to the caller unchanged, and a URL that
    is returned is a v4 URL for GET on the named object, valid for 60 seconds. *)
Theorem signed_url_v4_one_minute_get (bucket_name blob_name : string)
    (credentials : Credentials) (w : World) :
  let r := generate_download_signed_url_v4 bucket_name blob_name credentials w in
  calls (trace r)
  = [(SignUrl bucket_name blob_name "v4" (timedelta_minutes 1) "GET", succeeded r)]
  /\ (total_seconds (timedelta_minutes 1) == 60)%Q
  /\ result r
     = result (generate_signed_url
                 (Bucket_blob (Client_bucket (storage_Client credentials) bucket_name)
                    blob_name)
                 "v4" (timedelta_minutes 1) "GET" w)
  /\ (forall u, result r = inr u ->
        url_version u = "v4" /\ url_method u = "GET"
        /\ (total_seconds (url_expiration u) == 60)%Q
        /\ url_bucket u = bucket_name /\ url_blob u = blob_name).
Proof.
  intros r.
  destruct (generate_download_signed_url_v4_run bucket_name blob_name credentials w)
    as (Ht & _ & Hu).
  fold r in Ht, Hu.
  split; [rewrite Ht; apply calls_of_stage |].
  split; [reflexivity |].
  split.
  - subst r. unfold generate_download_signed_url_v4. cbv zeta. rewrite bind_run.
    match goal with |- context [generate_signed_url ?b ?v ?e ?m ?w'] =>
      destruct (result (generate_signed_url b v e m w')) end; reflexivity.
  - intros u Hr. rewrite (Hu u Hr). cbn. repeat split; reflexivity.
Qed.

(** * The orchestrator: names, order, failure *)

Lemma pipeline_lookup (image_folder_path image_file_name image_file_extension
    service_account_path : string) (scopes : list string)
    (presentation_id page_object_id bucket_name : string) (rs : list Request)
    (i : nat) (c : Call) :
  pipeline image_folder_path image_file_name image_file_extension service_account_path
    scopes presentation_id page_object_id bucket_name rs !! i = Some c ->
  (i = 0 /\ c = LoadCredentials service_account_path scopes)
  \/ (i = 1 /\ c = Upload bucket_name
                     (image_folder_path ++ image_file_name ++ image_file_extension)%string
                     image_file_name)
  \/ (i = 2 /\ c = SignUrl bucket_name image_file_name "v4" (timedelta_minutes 1) "GET")
  \/ (i = 3 /\ c = PagesGet presentation_id page_object_id)
  \/ (i = 4 /\ c = BatchUpdate presentation_id rs)
  \/ (i = 5 /\ c = Delete bucket_name image_file_name).
Proof.
  unfold pipeline.
  destruct i as [|[|[|[|[|[|i]]]]]]; cbn; intros H; inversion H; auto 10.
Qed.

(** C9 (one name throughout).  Every call the orchestrator makes uses the
    file name without extension as it was given: as the object key of the
    upload, of the URL request and of the delete, and as the identifier of
    every request of the batch.  The file that is uploaded is folder path,
    file name and extension put together.  A successful run makes all of
    these calls. *)
Theorem file_name_used_uniformly
    (image_folder_path image_file_name image_file_extension service_account_path : string)
    (scopes : list string) (presentation_id page_object_id bucket_name : string)
    (sx sy tx ty : number) (w : World) :
  let r := upload_image_and_add_to_slide image_folder_path image_file_name
             image_file_extension service_account_path scopes presentation_id
             page_object_id bucket_name sx sy tx ty w in
  (forall c ok, (c, ok) ∈ calls (trace r) ->
     match c with
     | Upload b p k =>
         b = bucket_name
         /\ p = (image_folder_path ++ image_file_name ++ image_file_extension)%string
         /\ k = image_file_name
     | SignUrl b k _ _ _ => b = bucket_name /\ k = image_file_name
     | Delete b k => b = bucket_name /\ k = image_file_name
     | BatchUpdate p rs =>
         p = presentation_id /\ Forall (fun q => request_id q = image_file_name) rs
     | PagesGet p g => p = presentation_id /\ g = page_object_id
     | LoadCredentials p s => p = service_account_path /\ s = scopes
     end)
  /\ (succeeded r = true ->
      exists rs,
        map fst (calls (trace r))
        = [ LoadCredentials service_account_path scopes;
            Upload bucket_name
              (image_folder_path ++ image_file_name ++ image_file_extension)%string
              image_file_name;
            SignUrl bucket_name image_file_name "v4" (timedelta_minutes 1) "GET";
            PagesGet presentation_id page_object_id;
            BatchUpdate presentation_id rs;
            Delete bucket_name image_file_name ]).
Proof.
  intros r.
  destruct (orchestrator_calls image_folder_path image_file_name image_file_extension
              service_account_path scopes presentation_id page_object_id bucket_name
              sx sy tx ty w) as (rs & Hrs & Hf).
  fold r in Hf. split.
  - intros c ok Hin. apply list_elem_of_lookup in Hin. destruct Hin as [i Hi].
    destruct (follows_lookup _ _ _ Hf i c ok Hi) as (Hp & _).
    apply pipeline_lookup in Hp.
    destruct Hp as [[_ ->]|[[_ ->]|[[_ ->]|[[_ ->]|[[_ ->]|[_ ->]]]]]]; auto.
  - intros Hok. rewrite Hok in Hf. exists rs.
    rewrite (follows_success _ _ Hf). reflexivity.
Qed.

(** The seven ways in which a plan of six calls can be followed. *)
Lemma follows_six (c0 c1 c2 c3 c4 c5 : Call) (l : list (Call * bool)) (ok : bool) :
  follows [c0; c1; c2; c3; c4; c5] l ok ->
  (ok = false /\ l = [(c0, false)])
  \/ (ok = false /\ l = [(c0, true); (c1, false)])
  \/ (ok = false /\ l = [(c0, true); (c1, true); (c2, false)])
  \/ (ok = false /\ l = [(c0, true); (c1, true); (c2, true); (c3, false)])
  \/ (ok = false /\ l = [(c0, true); (c1, true); (c2, true); (c3, true); (c4, false)])
  \/ (ok = false
      /\ l = [(c0, true); (c1, true); (c2, true); (c3, true); (c4, true); (c5, false)])
  \/ (ok = true
      /\ l = [(c0, true); (c1, true); (c2, true); (c3, true); (c4, true); (c5, true)]).
Proof.
  intros H.
  inversion H as [| |? ? l1 ? H1]; subst; [auto |].
  inversion H1 as [| |? ? l2 ? H2]; subst; [auto |].
  inversion H2 as [| |? ? l3 ? H3]; subst; [auto 6 |].
  inversion H3 as [| |? ? l4 ? H4]; subst; [auto 8 |].
  inversion H4 as [| |? ? l5 ? H5]; subst; [auto 10 |].
  inversion H5 as [| |? ? l6 ? H6]; subst; [auto 12 |].
  inversion H6; subst. auto 14.
Qed.

(** C4 (no cleanup after a failure).  A call that raises is the last call of
    the run, and the run raises; a run raises only because a call did.  In
    particular, when a call before the delete raises (the batch update, the
    page read, ...), the delete is never invoked, and when the upload had
    gone through, the object is still in the bucket at the end. *)
Theorem failure_skips_remaining_steps
    (image_folder_path image_file_name image_file_extension service_account_path : string)
    (scopes : list string) (presentation_id page_object_id bucket_name : string)
    (sx sy tx ty : number) (w : World) :
  let r := upload_image_and_add_to_slide image_folder_path image_file_name
             image_file_extension service_account_path scopes presentation_id
             page_object_id bucket_name sx sy tx ty w in
  (forall i c, calls (trace r) !! i = Some (c, false) ->
     length (calls (trace r)) = S i /\ succeeded r = false)
  /\ (succeeded r = false -> exists c, last (calls (trace r)) = Some (c, false))
  /\ (forall c, (c, false) ∈ calls (trace r) -> (forall b k, c <> Delete b k) ->
      forall b k ok, (Delete b k, ok) ∉ calls (trace r))
  /\ (succeeded r = false ->
      (exists b p k, (Upload b p k, true) ∈ calls (trace r)) ->
      blob_exists (w_services (final r)) bucket_name image_file_name = true).
Proof.
  intros r.
  destruct (orchestrator_calls image_folder_path image_file_name image_file_extension
              service_account_path scopes presentation_id page_object_id bucket_name
              sx sy tx ty w) as (rs & _ & Hf).
  fold r in Hf.
  split; [| split; [| split]].
  - intros i c Hi. apply (follows_lookup _ _ _ Hf i c false Hi). reflexivity.
  - intros Hfail. rewrite Hfail in Hf. apply (follows_failure _ _ Hf).
  - intros c Hc Hnd b k ok Hd.
    apply list_elem_of_lookup in Hc. destruct Hc as [i Hi].
    apply list_elem_of_lookup in Hd. destruct Hd as [j Hj].
    destruct (follows_lookup _ _ _ Hf i c false Hi) as (Hpi & Hlast & _).
    destruct (Hlast eq_refl) as (Hlen & _).
    destruct (follows_lookup _ _ _ Hf j _ ok Hj) as (Hpj & _).
    apply lookup_lt_Some in Hj.
    apply pipeline_lookup in Hpj.
    destruct Hpj as [[_ Hpj]|[[_ Hpj]|[[_ Hpj]|[[_ Hpj]|[[_ Hpj]|[Hj5 _]]]]]];
      try discriminate.
    apply pipeline_lookup in Hpi.
    destruct Hpi as [[Hi0 _]|[[Hi0 _]|[[Hi0 _]|[[Hi0 _]|[[Hi0 _]|[_ Hpi]]]]]]; try lia.
    apply (Hnd _ _ Hpi).
  - intros Hfail (b & p & k & Hin). apply object_left_behind; [exact Hfail |].
    fold r.
    assert (Hin' := Hin). apply list_elem_of_lookup in Hin'. destruct Hin' as [i Hi].
    destruct (follows_lookup _ _ _ Hf i _ true Hi) as (Hp & _).
    apply pipeline_lookup in Hp.
    destruct Hp as [[_ Hp]|[[_ Hp]|[[_ Hp]|[[_ Hp]|[[_ Hp]|[_ Hp]]]]]];
      try discriminate.
    rewrite <- Hp. exact Hin.
Qed.

(** C5 (order of the calls, and the life of the object).  The calls of every
    run follow the fixed sequence: credentials, upload, URL request, page
    read, batch update, delete, each one made only when the one before it
    succeeded.  The delete is therefore invoked at most once, as the sixth
    call and after a batch update that succeeded, and it is invoked whenever
    the batch update succeeded.  In a successful run the services are as they
    were found until the upload, the object is in the bucket after the
    upload, after the URL request and after the placement, and it is gone
    after the delete, which is the last call. *)
Theorem pipeline_order_and_object_window
    (image_folder_path image_file_name image_file_extension service_account_path : string)
    (scopes : list string) (presentation_id page_object_id bucket_name : string)
    (sx sy tx ty : number) (w : World) :
  let r := upload_image_and_add_to_slide image_folder_path image_file_name
             image_file_extension service_account_path scopes presentation_id
             page_object_id bucket_name sx sy tx ty w in
  let path := (image_folder_path ++ image_file_name ++ image_file_extension)%string in
  exists rs,
    follows
      [ LoadCredentials service_account_path scopes;
        Upload bucket_name path image_file_name;
        SignUrl bucket_name image_file_name "v4" (timedelta_minutes 1) "GET";
        PagesGet presentation_id page_object_id;
        BatchUpdate presentation_id rs;
        Delete bucket_name image_file_name ]
      (calls (trace r)) (succeeded r)
    /\ (forall i b k ok, calls (trace r) !! i = Some (Delete b k, ok) ->
          i = 5 /\ calls (trace r) !! 4 = Some (BatchUpdate presentation_id rs, true))
    /\ (forall p q, (BatchUpdate p q, true) ∈ calls (trace r) ->
          exists ok, calls (trace r) !! 5 = Some (Delete bucket_name image_file_name, ok))
    /\ (succeeded r = true ->
          last (calls (trace r)) = Some (Delete bucket_name image_file_name, true)
          /\ length (calls (trace r)) = 6)
    /\ (succeeded r = true ->
          exists credentials url,
            let r0 := from_service_account_file service_account_path scopes w in
            let r1 := upload_blob credentials bucket_name path image_file_name
                        (final r0) in
            let r2 := generate_download_signed_url_v4 bucket_name image_file_name
                        credentials (final r1) in
            let r3 := add_image_to_slide presentation_id credentials url image_file_name
                        page_object_id sx sy tx ty (final r2) in
            let r4 := delete_blob bucket_name image_file_name credentials (final r3) in
            result r0 = inr credentials /\ result r2 = inr url
            /\ w_services (final r0) = w_services w
            /\ blob_exists (w_services (final r1)) bucket_name image_file_name = true
            /\ blob_exists (w_services (final r2)) bucket_name image_file_name = true
            /\ blob_exists (w_services (final r3)) bucket_name image_file_name = true
            /\ blob_exists (w_services (final r4)) bucket_name image_file_name = false
            /\ final r = final r4).
Proof.
  intros r path.
  destruct (orchestrator_calls image_folder_path image_file_name image_file_extension
              service_account_path scopes presentation_id page_object_id bucket_name
              sx sy tx ty w) as (rs & _ & Hf).
  fold r in Hf. unfold pipeline in Hf. fold path in Hf.
  exists rs. split; [exact Hf |].
  split; [| split; [| split]].
  - intros i b k ok Hi.
    apply follows_six in Hf.
    destruct Hf as [[_ E]|[[_ E]|[[_ E]|[[_ E]|[[_ E]|[[_ E]|[_ E]]]]]]];
      rewrite E in Hi |- *;
      destruct i as [|[|[|[|[|[|i]]]]]]; cbn in Hi; try discriminate;
      split; reflexivity.
  - intros p q Hin.
    apply follows_six in Hf.
    destruct Hf as [[_ E]|[[_ E]|[[_ E]|[[_ E]|[[_ E]|[[_ E]|[_ E]]]]]]];
      rewrite E in Hin |- *; try (eexists; reflexivity);
      repeat (apply elem_of_cons in Hin; destruct Hin as [Hin|Hin]; [discriminate |]);
      inversion Hin.
  - intros Hok. rewrite Hok in Hf. rewrite (follows_success _ _ Hf).
    split; reflexivity.
  - intros Hok.
    destruct (orchestrator_success image_folder_path image_file_name image_file_extension
                service_account_path scopes presentation_id page_object_id bucket_name
                sx sy tx ty w Hok)
      as (credentials & url & R0 & R1 & R2 & R3 & R4 & Hfin & _).
    fold r in Hfin. fold path in R1, R2, R3, R4, Hfin.
    exists credentials, url. cbv zeta.
    destruct (from_service_account_file_run service_account_path scopes w) as (_ & F0).
    destruct (upload_blob_run credentials bucket_name path image_file_name
                (final (from_service_account_file service_account_path scopes w)))
      as (_ & s1 & F1 & _ & S1).
    destruct (S1 (succeeded_inr _ _ R1)) as (Hex & _).
    destruct (generate_download_signed_url_v4_run bucket_name image_file_name credentials
                (final (upload_blob credentials bucket_name path image_file_name
                   (final (from_service_account_file service_account_path scopes w)))))
      as (_ & F2 & _).
    match type of R3 with result (add_image_to_slide ?a1 ?a2 ?a3 ?a4 ?a5 ?a6 ?a7 ?a8 ?a9 ?w') = _ =>
      destruct (add_image_to_slide_stage a1 a2 a3 a4 a5 a6 a7 a8 a9 w') as (_ & _ & B3 & _) end.
    match type of R4 with result (delete_blob ?a1 ?a2 ?a3 ?w') = _ =>
      destruct (delete_blob_run a1 a2 a3 w') as (_ & s4 & F4 & _ & S4) end.
    destruct (S4 (succeeded_inr _ _ R4)) as (_ & Hgone).
    split; [exact R0 |]. split; [exact R2 |].
    split; [rewrite F0; reflexivity |].
    assert (H1 : blob_exists (w_services (final (upload_blob credentials bucket_name path
                   image_file_name (final (from_service_account_file
                      service_account_path scopes w))))) bucket_name image_file_name
                 = true) by (rewrite F1; exact Hex).
    split; [exact H1 |].
    assert (H2 : blob_exists (w_services (final (generate_download_signed_url_v4
                   bucket_name image_file_name credentials (final (upload_blob credentials
                   bucket_name path image_file_name (final (from_service_account_file
                      service_account_path scopes w))))))) bucket_name image_file_name
                 = true) by (rewrite F2; exact H1).
    split; [exact H2 |].
    split; [rewrite (blob_exists_buckets _ _ _ _ B3); exact H2 |].
    split; [rewrite F4; exact Hgone | exact Hfin].
Qed.


(** * The accessible duration *)

Definition is_digit (c : ascii) : bool :=
  Nat.leb 48 (nat_of_ascii c) && Nat.leb (nat_of_ascii c) 57.

Lemma digit_is_digit (d : Z) : (0 <= d < 10)%Z -> is_digit (digit d) = true.
Proof.
  intros H.
  assert (Hd : d = 0%Z \/ d = 1%Z \/ d = 2%Z \/ d = 3%Z \/ d = 4%Z \/ d = 5%Z
               \/ d = 6%Z \/ d = 7%Z \/ d = 8%Z \/ d = 9%Z) by lia.
  destruct Hd as [->|[->|[->|[->|[->|[->|[->|[->|[->| ->]]]]]]]]]; reflexivity.
Qed.

(** The result of ['{:.4f}'.format(x)] ends in a point and four digits. *)
Lemma format_4f_shape (x : Q) :
  exists ip d1 d2 d3 d4,
    format_4f x = (ip ++ "." ++ String d1 (String d2 (String d3 (String d4 ""))))%string
    /\ is_digit d1 = true /\ is_digit d2 = true
    /\ is_digit d3 = true /\ is_digit d4 = true.
Proof.
  unfold format_4f.
  set (a := Z.abs (round_half_even (x * 10000))).
  exists ((if (Qnum x <? 0)%Z then "-" else "") ++ decimal (a / 10000))%string.
  exists (digit (a / 1000 mod 10)), (digit (a / 100 mod 10)),
         (digit (a / 10 mod 10)), (digit (a mod 10)).
  split.
  - destruct (Qnum x <? 0)%Z; reflexivity.
  - repeat split; apply digit_is_digit, Z.mod_pos_bound; lia.
Qed.

(** [print] of the three parts of the last line. *)
Lemma report_line (shown : string) :
  String.concat " " ["Image was accessible for"; shown; "second(s)."]
  = ("Image was accessible for " ++ shown ++ " second(s).")%string.
Proof. reflexivity. Qed.

(** The times at which the delete was invoked. *)
Definition delete_invoked_at (tr : list Event) : list Q :=
  omap (fun ev => match ev with
                  | Called (Delete _ _) _ t _ => Some t
                  | _ => None
                  end) tr.

(** C6 (accessible duration), as the code has it.  In a successful run the
    clock is read twice: right after the URL request has returned and its
    message is printed, and right after the delete call has returned and its
    message is printed.  The difference of the two readings is what the last
    line of the output reports, with four digits after the point.  It spans
    the page read, the batch update and the delete call itself, and neither
    the upload nor the URL request; it is non-negative when the clock did not
    go backwards during these three calls. *)
Theorem accessible_duration
    (image_folder_path image_file_name image_file_extension service_account_path : string)
    (scopes : list string) (presentation_id page_object_id bucket_name : string)
    (sx sy tx ty : number) (w : World) :
  let r := upload_image_and_add_to_slide image_folder_path image_file_name
             image_file_extension service_account_path scopes presentation_id
             page_object_id bucket_name sx sy tx ty w in
  let path := (image_folder_path ++ image_file_name ++ image_file_extension)%string in
  succeeded r = true ->
  exists rs a1 a2 t0 mid td t1,
    trace r
    = [ Called (LoadCredentials service_account_path scopes) true (w_now w) a1;
        Called (Upload bucket_name path image_file_name) true a1 a2;
        Printed "File uploaded to cloud.";
        Called (SignUrl bucket_name image_file_name "v4" (timedelta_minutes 1) "GET")
          true a2 t0;
        Printed "Signed URL generated.";
        TimeRead t0 ]
      ++ mid
      ++ [ Called (Delete bucket_name image_file_name) true td t1;
           Printed ("Blob " ++ image_file_name ++ " deleted.")%string;
           TimeRead t1;
           Printed ("Image was accessible for " ++ format_4f (t1 - t0)
                    ++ " second(s).")%string ]
    /\ calls mid = [ (PagesGet presentation_id page_object_id, true);
                     (BatchUpdate presentation_id rs, true) ]
    /\ time_reads mid = []
    /\ (t1 - t0 == w_latency w (3 + w_calls w) + w_latency w (4 + w_calls w)
                   + w_latency w (5 + w_calls w))%Q
    /\ ((0 <= w_latency w (3 + w_calls w))%Q -> (0 <= w_latency w (4 + w_calls w))%Q ->
        (0 <= w_latency w (5 + w_calls w))%Q -> (0 <= t1 - t0)%Q)
    /\ (exists ip d1 d2 d3 d4,
          format_4f (t1 - t0)
          = (ip ++ "." ++ String d1 (String d2 (String d3 (String d4 ""))))%string
          /\ is_digit d1 = true /\ is_digit d2 = true
          /\ is_digit d3 = true /\ is_digit d4 = true).
Proof.
  intros r path Hok.
  destruct (orchestrator_success image_folder_path image_file_name image_file_extension
              service_account_path scopes presentation_id page_object_id bucket_name
              sx sy tx ty w Hok)
    as (credentials & url & R0 & R1 & R2 & R3 & R4 & _ & Htr).
  fold r in Htr. fold path in R1, R2, R3, R4, Htr.
  destruct (from_service_account_file_run service_account_path scopes w) as (T0 & F0).
  remember (from_service_account_file service_account_path scopes w) as r0 eqn:E0.
  clear E0.
  destruct (upload_blob_run credentials bucket_name path image_file_name (final r0))
    as (T1 & s1 & F1 & _).
  remember (upload_blob credentials bucket_name path image_file_name (final r0))
    as r1 eqn:E1.
  clear E1.
  destruct (generate_download_signed_url_v4_run bucket_name image_file_name credentials
              (final r1)) as (T2 & F2 & _).
  remember (generate_download_signed_url_v4 bucket_name image_file_name credentials
              (final r1)) as r2 eqn:E2.
  clear E2.
  destruct (add_image_to_slide_stage presentation_id credentials url image_file_name
              page_object_id sx sy tx ty (final r2))
    as ((rs & _ & C3) & N3 & _ & L3 & S3).
  remember (add_image_to_slide presentation_id credentials url image_file_name
              page_object_id sx sy tx ty (final r2)) as r3 eqn:E3.
  clear E3.
  destruct (delete_blob_run bucket_name image_file_name credentials (final r3))
    as (T4 & s4 & F4 & _).
  remember (delete_blob bucket_name image_file_name credentials (final r3)) as r4 eqn:E4.
  clear E4.
  rewrite (succeeded_inr _ _ R0) in T0. rewrite (succeeded_inr _ _ R1) in T1.
  rewrite (succeeded_inr _ _ R2) in T2. rewrite (succeeded_inr _ _ R4) in T4.
  rewrite (succeeded_inr _ _ R3) in C3.
  destruct (S3 (succeeded_inr _ _ R3)) as (K3 & W3). clear S3.
  exists rs, (returned_at w), (returned_at (final r0)), (w_now (final r2)), (trace r3),
         (w_now (final r3)), (w_now (final r4)).
  split; [| split; [| split; [| split; [| split]]]].
  - assert (N0 : w_now (final r0) = returned_at w) by (rewrite F0; reflexivity).
    assert (N1 : w_now (final r1) = returned_at (final r0)) by (rewrite F1; reflexivity).
    assert (N2 : w_now (final r2) = returned_at (final r1)) by (rewrite F2; reflexivity).
    assert (N4 : w_now (final r4) = returned_at (final r3)) by (rewrite F4; reflexivity).
    rewrite Htr, T0, T1, T2, T4, N0, N1, <- N2, <- N4. cbn [app].
    rewrite report_line. reflexivity.
  - apply (follows_success _ _ C3).
  - exact N3.
  - rewrite F4. cbn [w_now after_call]. unfold returned_at.
    rewrite W3, L3, K3, F2, F1, F0. cbn [w_now w_calls w_latency after_call].
    unfold returned_at. cbn [w_now w_calls w_latency after_call Nat.add]. ring.
  - intros H3 H4 H5.
    rewrite F4. cbn [w_now after_call]. unfold returned_at.
    rewrite W3, L3, K3, F2, F1, F0. cbn [w_now w_calls w_latency after_call].
    unfold returned_at. cbn [w_now w_calls w_latency after_call Nat.add].
    cbn [Nat.add] in H3, H4, H5. lra.
  - apply format_4f_shape.
Qed.

(** * Concrete runs *)

(** A service-account key and a picture on disk, one bucket, one presentation
    with one page; [objects] are the objects of the bucket and [elements] is
    the ['pageElements'] entry of the page. *)
Definition demo_services (objects : gmap string string)
    (elements : option (list PageElement)) : Services :=
  {| files := {[ "key.json" := "service-account"; "pics/cat.png" := "PNG" ]};
     buckets := {[ "bkt" := objects ]};
     presentations := {[ "pres" := {[ "p1" := {| pageElements := elements |} ]} ]} |}.

Definition demo_world (objects : gmap string string)
    (elements : option (list PageElement)) (latency : nat -> Q) (fault : nat -> bool)
    : World :=
  {| w_services := demo_services objects elements;
     w_now := 100; w_calls := 0; w_latency := latency; w_fault := fault |}.

Definition every_call_takes_a_second : nat -> Q := fun _ => 1%Q.

(** The clock is set back by ten seconds while call number 4, the batch
    update of the orchestrator, is under way. *)
Definition clock_set_back : nat -> Q :=
  fun n => if Nat.eqb n 4 then (-10)%Q else 1%Q.

Definition no_fault : nat -> bool := fun _ => false.

Definition fault_at (k : nat) : nat -> bool := fun n => Nat.eqb n k.

Definition demo_credentials : Credentials :=
  {| cred_key_file := "service-account"; cred_scopes := [] |}.

Definition demo_url : SignedUrl :=
  {| url_bucket := "bkt"; url_blob := "cat"; url_version := "v4"; url_method := "GET";
     url_issued := 100; url_expiration := timedelta_minutes 1 |}.

Definition shape (id : string) : PageElement :=
  {| pe_objectId := id; pe_image := None; pe_properties := None |}.

(** The bucket holds the picture; the page is as given. *)
Definition placement_world (elements : option (list PageElement)) : World :=
  demo_world {[ "cat" := "PNG" ]} elements every_call_takes_a_second no_fault.

(** The bucket is empty and the page is blank, as before a first run. *)
Definition fresh_world (latency : nat -> Q) (fault : nat -> bool) : World :=
  demo_world ∅ None latency fault.

Definition demo_run (w : World) : Run unit :=
  upload_image_and_add_to_slide "pics/" "cat" ".png" "key.json" [] "pres" "p1" "bkt"
    (Float 1.8) (Float 1.8) (Int 1100000) (Int (-500000)) w.

(** The end-to-end scenario: the calls of a first run on a blank page. *)
Example demo_run_calls :
  map fst (calls (trace (demo_run (fresh_world every_call_takes_a_second no_fault))))
  = [ LoadCredentials "key.json" [];
      Upload "bkt" "pics/cat.png" "cat";
      SignUrl "bkt" "cat" "v4" (timedelta_minutes 1) "GET";
      PagesGet "pres" "p1";
      BatchUpdate "pres"
        [image_request
           {| url_bucket := "bkt"; url_blob := "cat"; url_version := "v4";
              url_method := "GET"; url_issued := 102;
              url_expiration := timedelta_minutes 1 |}
           "cat" "p1" (Float 1.8) (Float 1.8) (Int 1100000) (Int (-500000))];
      Delete "bkt" "cat" ].
Proof. vm_compute. reflexivity. Qed.

Example format_4f_examples :
  format_4f 3 = "3.0000" /\ format_4f 2.3712 = "2.3712" /\ format_4f 0.00015 = "0.0002"
  /\ format_4f 0.00025 = "0.0002" /\ format_4f (-8) = "-8.0000".
Proof. vm_compute. repeat split. Qed.

(** Placement of the picture on the demo page, with the default transform. *)
Definition demo_place (u : SignedUrl) (w : World) : Run unit :=
  add_image_to_slide "pres" demo_credentials u "cat" "p1"
    (Float 1.8) (Float 1.8) (Int 1100000) (Int (-500000)) w.

(** ** Witnesses *)

Lemma placement_idempotent_witness :
  let r1 := demo_place demo_url (placement_world None) in
  let r2 := demo_place demo_url (final r1) in
  succeeded r1 = true /\ succeeded r2 = true
  /\ elements_named (w_services (final r1)) "pres" "p1" "cat" = Some 1
  /\ batches (trace r2)
     = [[deleteObject "cat";
         image_request demo_url "cat" "p1" (Float 1.8) (Float 1.8) (Int 1100000)
           (Int (-500000))]]
  /\ elements_named (w_services (final r2)) "pres" "p1" "cat" = Some 1.
Proof.
  intros r1 r2.
  assert (H1 : succeeded r1 = true) by (vm_compute; reflexivity).
  assert (H2 : succeeded r2 = true) by (vm_compute; reflexivity).
  split; [exact H1 |]. split; [exact H2 |].
  exact (placement_idempotent "pres" demo_credentials demo_credentials demo_url demo_url
           "cat" "p1" (Float 1.8) (Float 1.8) (Int 1100000) (Int (-500000))
           (Float 1.8) (Float 1.8) (Int 1100000) (Int (-500000))
           (placement_world None) H1 H2).
Defined.

Lemma delete_precedes_create_witness :
  let page_info := {| pageElements := Some [shape "title"; shape "cat"] |} in
  let w := placement_world (Some [shape "title"; shape "cat"]) in
  page_snapshot w "pres" "p1" = Some page_info
  /\ "cat" ∈ element_ids page_info
  /\ exists rs,
       batches (trace (demo_place demo_url w)) = [rs]
       /\ (exists i j,
             rs !! i = Some (deleteObject "cat")
             /\ rs !! j = Some (image_request demo_url "cat" "p1" (Float 1.8) (Float 1.8)
                                  (Int 1100000) (Int (-500000)))
             /\ i < j)
       /\ (forall i j d c,
             rs !! i = Some d -> is_delete d = true -> request_id d = "cat" ->
             rs !! j = Some c -> is_create c = true -> request_id c = "cat" ->
             i < j).
Proof.
  intros page_info w.
  assert (H1 : page_snapshot w "pres" "p1" = Some page_info) by (vm_compute; reflexivity).
  assert (H2 : "cat" ∈ element_ids page_info) by (apply py_in_spec; reflexivity).
  split; [exact H1 |]. split; [exact H2 |].
  exact (delete_precedes_create "pres" demo_credentials demo_url "cat" "p1"
           (Float 1.8) (Float 1.8) (Int 1100000) (Int (-500000)) w page_info H1 H2).
Defined.

Lemma empty_page_only_creates_witness :
  let page_info := {| pageElements := None |} in
  let w := placement_world None in
  page_snapshot w "pres" "p1" = Some page_info
  /\ batches (trace (demo_place demo_url w))
     = [[image_request demo_url "cat" "p1" (Float 1.8) (Float 1.8) (Int 1100000)
           (Int (-500000))]]
  /\ forall rs r,
       rs ∈ batches (trace (demo_place demo_url w)) -> r ∈ rs -> is_delete r = false.
Proof.
  intros page_info w.
  assert (H1 : page_snapshot w "pres" "p1" = Some page_info) by (vm_compute; reflexivity).
  split; [exact H1 |].
  exact (empty_page_only_creates "pres" demo_credentials demo_url "cat" "p1"
           (Float 1.8) (Float 1.8) (Int 1100000) (Int (-500000)) w page_info H1
           (or_introl eq_refl)).
Defined.

(** The same with an empty ['pageElements'] list in the response. *)
Example empty_list_only_creates :
  batches (trace (demo_place demo_url (placement_world (Some []))))
  = [[image_request demo_url "cat" "p1" (Float 1.8) (Float 1.8) (Int 1100000)
        (Int (-500000))]].
Proof. vm_compute. reflexivity. Qed.

Lemma create_image_size_and_transform_witness :
  let w := placement_world (Some [shape "cat"]) in
  let props :=
    {| pageObjectId := "p1";
       size := {| height := {| magnitude := 4000000; dim_unit := "EMU" |};
                  width := {| magnitude := 4000000; dim_unit := "EMU" |} |};
       transform := {| scaleX := Float 1.8; scaleY := Float 1.8;
                       translateX := Int 1100000; translateY := Int (-500000);
                       tr_unit := "EMU" |} |} in
  let rs := [deleteObject "cat"; createImage "cat" demo_url props] in
  rs ∈ batches (trace (demo_place demo_url w))
  /\ createImage "cat" demo_url props ∈ rs
  /\ height (size props) = {| magnitude := 4000000; dim_unit := "EMU" |}
  /\ width (size props) = {| magnitude := 4000000; dim_unit := "EMU" |}
  /\ transform props = {| scaleX := Float 1.8; scaleY := Float 1.8;
                          translateX := Int 1100000; translateY := Int (-500000);
                          tr_unit := "EMU" |}.
Proof.
  intros w props rs.
  assert (E : batches (trace (demo_place demo_url w)) = [rs]) by (vm_compute; reflexivity).
  assert (H1 : rs ∈ batches (trace (demo_place demo_url w)))
    by (rewrite E; apply list_elem_of_here).
  assert (H2 : createImage "cat" demo_url props ∈ rs)
    by (apply list_elem_of_further, list_elem_of_here).
  split; [exact H1 |]. split; [exact H2 |].
  exact (create_image_size_and_transform "pres" demo_credentials demo_url "cat" "p1"
           (Float 1.8) (Float 1.8) (Int 1100000) (Int (-500000)) w rs "cat" demo_url
           props H1 H2).
Defined.

Lemma batch_shape_witness :
  let page_info := {| pageElements := Some [shape "cat"; shape "cat"; shape "dog"] |} in
  let page_info' := {| pageElements := Some [shape "dog"; shape "cat"] |} in
  let w := placement_world (pageElements page_info) in
  let w' := placement_world (pageElements page_info') in
  page_snapshot w "pres" "p1" = Some page_info
  /\ page_snapshot w' "pres" "p1" = Some page_info'
  /\ ("cat" ∈ element_ids page_info <-> "cat" ∈ element_ids page_info')
  /\ exists rs,
       batches (trace (demo_place demo_url w)) = [rs]
       /\ batches (trace (demo_place demo_url w')) = [rs]
       /\ length (filter (fun r => is_create r = true) rs) = 1
       /\ last rs = Some (image_request demo_url "cat" "p1" (Float 1.8) (Float 1.8)
                            (Int 1100000) (Int (-500000)))
       /\ length (filter (fun r => is_delete r = true) rs) <= 1
       /\ (deleteObject "cat" ∈ rs <-> "cat" ∈ element_ids page_info).
Proof.
  intros page_info page_info' w w'.
  assert (H1 : page_snapshot w "pres" "p1" = Some page_info) by (vm_compute; reflexivity).
  assert (H2 : page_snapshot w' "pres" "p1" = Some page_info')
    by (vm_compute; reflexivity).
  assert (H3 : "cat" ∈ element_ids page_info <-> "cat" ∈ element_ids page_info')
    by (split; intros _; apply py_in_spec; reflexivity).
  split; [exact H1 |]. split; [exact H2 |]. split; [exact H3 |].
  exact (batch_shape "pres" demo_credentials demo_url "cat" "p1"
           (Float 1.8) (Float 1.8) (Int 1100000) (Int (-500000)) w w'
           page_info page_info' H1 H2 H3).
Defined.

Lemma signed_url_v4_one_minute_get_witness :
  let w := placement_world None in
  let u := {| url_bucket := "bkt"; url_blob := "cat"; url_version := "v4";
              url_method := "GET"; url_issued := 100;
              url_expiration := timedelta_minutes 1 |} in
  result (generate_download_signed_url_v4 "bkt" "cat" demo_credentials w) = inr u
  /\ url_version u = "v4" /\ url_method u = "GET"
  /\ (total_seconds (url_expiration u) == 60)%Q
  /\ url_bucket u = "bkt" /\ url_blob u = "cat".
Proof.
  intros w u.
  assert (H : result (generate_download_signed_url_v4 "bkt" "cat" demo_credentials w)
              = inr u) by (vm_compute; reflexivity).
  split; [exact H |].
  exact (proj2 (proj2 (proj2
           (signed_url_v4_one_minute_get "bkt" "cat" demo_credentials w))) u H).
Defined.

Lemma file_name_used_uniformly_witness :
  let r := demo_run (fresh_world every_call_takes_a_second no_fault) in
  succeeded r = true
  /\ exists rs,
       map fst (calls (trace r))
       = [ LoadCredentials "key.json" [];
           Upload "bkt" "pics/cat.png" "cat";
           SignUrl "bkt" "cat" "v4" (timedelta_minutes 1) "GET";
           PagesGet "pres" "p1";
           BatchUpdate "pres" rs;
           Delete "bkt" "cat" ].
Proof.
  intros r.
  assert (H : succeeded r = true) by (vm_compute; reflexivity).
  split; [exact H |].
  exact (proj2 (file_name_used_uniformly "pics/" "cat" ".png" "key.json" [] "pres" "p1"
                  "bkt" (Float 1.8) (Float 1.8) (Int 1100000) (Int (-500000))
                  (fresh_world every_call_takes_a_second no_fault)) H).
Defined.

(** The batch update fails: the run stops there and the object stays. *)
Lemma failure_skips_remaining_steps_witness :
  let r := demo_run (fresh_world every_call_takes_a_second (fault_at 4)) in
  succeeded r = false
  /\ (Upload "bkt" "pics/cat.png" "cat", true) ∈ calls (trace r)
  /\ blob_exists (w_services (final r)) "bkt" "cat" = true.
Proof.
  intros r.
  assert (H : succeeded r = false) by (vm_compute; reflexivity).
  assert (E : calls (trace r)
              = [ (LoadCredentials "key.json" [], true);
                  (Upload "bkt" "pics/cat.png" "cat", true);
                  (SignUrl "bkt" "cat" "v4" (timedelta_minutes 1) "GET", true);
                  (PagesGet "pres" "p1", true);
                  (BatchUpdate "pres"
                     [image_request
                        {| url_bucket := "bkt"; url_blob := "cat"; url_version := "v4";
                           url_method := "GET"; url_issued := 102;
                           url_expiration := timedelta_minutes 1 |}
                        "cat" "p1" (Float 1.8) (Float 1.8) (Int 1100000)
                        (Int (-500000))], false) ])
    by (vm_compute; reflexivity).
  assert (U : (Upload "bkt" "pics/cat.png" "cat", true) ∈ calls (trace r))
    by (rewrite E; apply list_elem_of_further, list_elem_of_here).
  split; [exact H |]. split; [exact U |].
  exact (proj2 (proj2 (proj2
           (failure_skips_remaining_steps "pics/" "cat" ".png" "key.json" [] "pres" "p1"
              "bkt" (Float 1.8) (Float 1.8) (Int 1100000) (Int (-500000))
              (fresh_world every_call_takes_a_second (fault_at 4))))) H
           (ex_intro _ "bkt" (ex_intro _ "pics/cat.png" (ex_intro _ "cat" U)))).
Defined.

Lemma pipeline_order_and_object_window_witness :
  let r := demo_run (fresh_world every_call_takes_a_second no_fault) in
  succeeded r = true
  /\ last (calls (trace r)) = Some (Delete "bkt" "cat", true)
  /\ length (calls (trace r)) = 6.
Proof.
  intros r.
  assert (H : succeeded r = true) by (vm_compute; reflexivity).
  split; [exact H |].
  destruct (pipeline_order_and_object_window "pics/" "cat" ".png" "key.json" [] "pres"
              "p1" "bkt" (Float 1.8) (Float 1.8) (Int 1100000) (Int (-500000))
              (fresh_world every_call_takes_a_second no_fault))
    as (rs & _ & _ & _ & Hlast & _).
  exact (Hlast H).
Defined.

Lemma accessible_duration_witness :
  let r := demo_run (fresh_world every_call_takes_a_second no_fault) in
  succeeded r = true
  /\ exists t0 t1,
       time_reads (trace r) = [t0; t1]
       /\ (t1 - t0 == 3)%Q /\ (0 <= t1 - t0)%Q.
Proof.
  intros r.
  assert (H : succeeded r = true) by (vm_compute; reflexivity).
  split; [exact H |].
  destruct (accessible_duration "pics/" "cat" ".png" "key.json" [] "pres" "p1" "bkt"
              (Float 1.8) (Float 1.8) (Int 1100000) (Int (-500000))
              (fresh_world every_call_takes_a_second no_fault) H)
    as (rs & a1 & a2 & t0 & mid & td & t1 & Htr & _ & Hmid & Hd & Hnn & _).
  exists t0, t1. split; [| split].
  - subst r. unfold demo_run. rewrite Htr. unfold time_reads. rewrite !omap_app.
    fold (time_reads mid). rewrite Hmid. reflexivity.
  - rewrite Hd. reflexivity.
  - apply Hnn; discriminate.
Defined.

(** ** The accessible duration is not measured up to the invocation of the
    delete, and it can be negative *)

(** The claim as worded: the two readings differ by the time from the end of
    the URL request to the invocation of the delete, and never negatively. *)
Definition duration_as_worded (tr : list Event) : Prop :=
  forall t0 t1 td,
    time_reads tr = [t0; t1] -> delete_invoked_at tr = [td] ->
    (0 <= t1 - t0)%Q /\ (t1 - t0 == td - t0)%Q.

(** Every call takes a second: the URL request returns at 103 and the delete
    is invoked at 105, but the second reading is taken when the delete has
    returned, at 106.  And when the clock is set back during the batch
    update, the second reading is below the first. *)
Lemma accessible_duration_counterexample :
  let r := demo_run (fresh_world every_call_takes_a_second no_fault) in
  let r' := demo_run (fresh_world clock_set_back no_fault) in
  (succeeded r = true /\ time_reads (trace r) = [103%Q; 106%Q]
   /\ delete_invoked_at (trace r) = [105%Q]
   /\ last (trace r) = Some (Printed "Image was accessible for 3.0000 second(s).")
   /\ ~ duration_as_worded (trace r))
  /\ (succeeded r' = true /\ time_reads (trace r') = [103%Q; 95%Q]
      /\ last (trace r') = Some (Printed "Image was accessible for -8.0000 second(s).")
      /\ ~ duration_as_worded (trace r')).
Proof.
  intros r r'.
  assert (T : time_reads (trace r) = [103%Q; 106%Q]) by (vm_compute; reflexivity).
  assert (D : delete_invoked_at (trace r) = [105%Q]) by (vm_compute; reflexivity).
  assert (T' : time_reads (trace r') = [103%Q; 95%Q]) by (vm_compute; reflexivity).
  assert (D' : delete_invoked_at (trace r') = [94%Q]) by (vm_compute; reflexivity).
  split.
  - split; [vm_compute; reflexivity |]. split; [exact T |]. split; [exact D |].
    split; [vm_compute; reflexivity |].
    intros Hw. destruct (Hw _ _ _ T D) as (_ & Heq). vm_compute in Heq. discriminate.
  - split; [vm_compute; reflexivity |]. split; [exact T' |].
    split; [vm_compute; reflexivity |].
    intros Hw. destruct (Hw _ _ _ T' D') as (Hnn & _). vm_compute in Hnn.
    apply Hnn. reflexivity.
Qed.

(** * More of the script: the storage functions *)

(** The object stored under a key of a bucket. *)
Definition object_at (s : Services) (bucket_name blob_name : string) : option string :=
  match buckets s !! bucket_name with
  | Some objects => objects !! blob_name
  | None => None
  end.

(** The lines written to the console, in order. *)
Definition printed (tr : list Event) : list string :=
  omap (fun ev => match ev with Printed line => Some line | _ => None end) tr.

Lemma object_at_set_buckets (s : Services) (b : string) (objects : gmap string string)
    (b' k' : string) :
  object_at (set_buckets s (<[b := objects]> (buckets s))) b' k'
  = if decide (b = b') then objects !! k' else object_at s b' k'.
Proof.
  unfold object_at. cbn [buckets set_buckets]. rewrite lookup_insert.
  destruct (decide (b = b')); reflexivity.
Qed.

Lemma printed_of_stage (c : Call) (ok : bool) (t t' : Q) (line : string) :
  printed (Called c ok t t' :: (if ok then [Printed line] else []))
  = if ok then [line] else [].
Proof. destruct ok; reflexivity. Qed.

(** What the upload does to the services. *)
Lemma upload_blob_effect (credentials : Credentials)
    (bucket_name source_file_path destination_blob_name : string) (w : World) :
  let r := upload_blob credentials bucket_name source_file_path destination_blob_name w in
  let s := w_services w in
  (succeeded r = true ->
   exists data objects,
     files s !! source_file_path = Some data
     /\ buckets s !! bucket_name = Some objects
     /\ w_services (final r)
        = set_buckets s
            (<[bucket_name := <[destination_blob_name := data]> objects]> (buckets s)))
  /\ (succeeded r = false -> w_services (final r) = s)
  /\ (succeeded r = true <->
      w_fault w (w_calls w) = false /\ is_Some (files s !! source_file_path)
      /\ is_Some (buckets s !! bucket_name)).
Proof.
  unfold upload_blob. cbv zeta. rewrite bind_run.
  unfold upload_from_filename, external, succeeded.
  cbn [bl_name bl_bucket bk_name Bucket_blob Client_bucket].
  destruct (w_fault w (w_calls w)).
  { cbn. split; [discriminate |]. split; [reflexivity |].
    split; [discriminate | intros (H & _); discriminate]. }
  destruct (files (w_services w) !! source_file_path) as [data|].
  2:{ cbn. split; [discriminate |]. split; [reflexivity |].
      split; [discriminate | intros (_ & [x H] & _); discriminate]. }
  destruct (buckets (w_services w) !! bucket_name) as [objects|].
  2:{ cbn. split; [discriminate |]. split; [reflexivity |].
      split; [discriminate | intros (_ & _ & [x H]); discriminate]. }
  cbn. split; [intros _; eauto |]. split; [discriminate |].
  split; [intros _; eauto | reflexivity].
Qed.

(** What the delete does to the services. *)
Lemma delete_blob_effect (bucket_name blob_name : string) (credentials : Credentials)
    (w : World) :
  let r := delete_blob bucket_name blob_name credentials w in
  let s := w_services w in
  (succeeded r = true ->
   exists data objects,
     buckets s !! bucket_name = Some objects
     /\ objects !! blob_name = Some data
     /\ w_services (final r)
        = set_buckets s (<[bucket_name := delete blob_name objects]> (buckets s)))
  /\ (succeeded r = false -> w_services (final r) = s)
  /\ (succeeded r = true <->
      w_fault w (w_calls w) = false /\ is_Some (object_at s bucket_name blob_name)).
Proof.
  unfold delete_blob. cbv zeta. rewrite bind_run.
  unfold Blob_delete, external, succeeded, object_at.
  cbn [bl_name bl_bucket bk_name Bucket_blob Client_bucket].
  destruct (w_fault w (w_calls w)).
  { cbn. split; [discriminate |]. split; [reflexivity |].
    split; [discriminate | intros (H & _); discriminate]. }
  destruct (buckets (w_services w) !! bucket_name) as [objects|].
  2:{ cbn. split; [discriminate |]. split; [reflexivity |].
      split; [discriminate | intros (_ & [x H]); discriminate]. }
  destruct (objects !! blob_name) as [data|] eqn:Ho.
  2:{ cbn. split; [discriminate |]. split; [reflexivity |].
      split; [discriminate | intros (_ & [x H]); discriminate]. }
  cbn. split; [intros _; eauto |]. split; [discriminate |].
  split; [intros _; eauto | reflexivity].
Qed.

(** X1 (upload_blob).  When the upload succeeds, the object under the
    destination name has the content of the local file, every other object of
    every bucket is as before, files and presentations are untouched, and the
    message is printed.  When it raises, the services are as before and
    nothing is printed.  It succeeds exactly when the call does not fail for a
    reason of its own, the local file exists and the bucket exists. *)
Theorem upload_blob_stores_the_file (credentials : Credentials)
    (bucket_name source_file_path destination_blob_name : string) (w : World) :
  let r := upload_blob credentials bucket_name source_file_path destination_blob_name w in
  let s := w_services w in
  (succeeded r = true ->
   is_Some (files s !! source_file_path)
   /\ object_at (w_services (final r)) bucket_name destination_blob_name
      = files s !! source_file_path
   /\ (forall b k, (b, k) <> (bucket_name, destination_blob_name) ->
         object_at (w_services (final r)) b k = object_at s b k)
   /\ files (w_services (final r)) = files s
   /\ presentations (w_services (final r)) = presentations s
   /\ printed (trace r) = ["File uploaded to cloud."])
  /\ (succeeded r = false -> w_services (final r) = s /\ printed (trace r) = [])
  /\ (succeeded r = true <->
      w_fault w (w_calls w) = false /\ is_Some (files s !! source_file_path)
      /\ is_Some (buckets s !! bucket_name)).
Proof.
  intros r s.
  destruct (upload_blob_effect credentials bucket_name source_file_path
              destination_blob_name w) as (Hok & Hfail & Hiff).
  destruct (upload_blob_run credentials bucket_name source_file_path
              destination_blob_name w) as (Ht & _).
  fold r in Hok, Hfail, Hiff, Ht. fold s in Hok, Hfail, Hiff.
  split; [| split; [| exact Hiff]].
  - intros H. destruct (Hok H) as (data & objects & Hf & Hb & ->).
    rewrite Ht, printed_of_stage, H, Hf.
    split; [eauto |]. split; [| split; [| auto]].
    + rewrite object_at_set_buckets, decide_True by reflexivity.
      apply lookup_insert_eq.
    + intros b k Hne. rewrite object_at_set_buckets.
      destruct (decide (bucket_name = b)) as [<-|Hb']; [| reflexivity].
      unfold object_at. rewrite Hb. apply lookup_insert_ne. congruence.
  - intros H. split; [exact (Hfail H) |].
    rewrite Ht, printed_of_stage, H. reflexivity.
Qed.

(** X2 (delete_blob).  When the delete succeeds, there was an object under
    the name and there is none afterwards, every other object is as before,
    files and presentations are untouched, and the message names the object.
    When it raises, the services are as before and nothing is printed; it
    raises whenever there is no such object. *)
Theorem delete_blob_removes_the_object (bucket_name blob_name : string)
    (credentials : Credentials) (w : World) :
  let r := delete_blob bucket_name blob_name credentials w in
  let s := w_services w in
  (succeeded r = true ->
   is_Some (object_at s bucket_name blob_name)
   /\ object_at (w_services (final r)) bucket_name blob_name = None
   /\ (forall b k, (b, k) <> (bucket_name, blob_name) ->
         object_at (w_services (final r)) b k = object_at s b k)
   /\ files (w_services (final r)) = files s
   /\ presentations (w_services (final r)) = presentations s
   /\ printed (trace r) = [("Blob " ++ blob_name ++ " deleted.")%string])
  /\ (succeeded r = false -> w_services (final r) = s /\ printed (trace r) = [])
  /\ (object_at s bucket_name blob_name = None -> succeeded r = false).
Proof.
  intros r s.
  destruct (delete_blob_effect bucket_name blob_name credentials w)
    as (Hok & Hfail & Hiff).
  destruct (delete_blob_run bucket_name blob_name credentials w) as (Ht & _).
  fold r in Hok, Hfail, Hiff, Ht. fold s in Hok, Hfail, Hiff.
  split; [| split].
  - intros H. destruct (Hok H) as (data & objects & Hb & Ho & ->).
    rewrite Ht, printed_of_stage, H.
    split; [apply Hiff; exact H |]. split; [| split; [| auto]].
    + rewrite object_at_set_buckets, decide_True by reflexivity.
      apply lookup_delete_eq.
    + intros b k Hne. rewrite object_at_set_buckets.
      destruct (decide (bucket_name = b)) as [<-|Hb']; [| reflexivity].
      unfold object_at. rewrite Hb. apply lookup_delete_ne. congruence.
  - intros H. split; [exact (Hfail H) |].
    rewrite Ht, printed_of_stage, H. reflexivity.
  - intros Hnone. destruct (succeeded r) eqn:H; [| reflexivity].
    destruct (proj1 Hiff eq_refl) as (_ & [x Hx]). congruence.
Qed.

(** X3 (upload, then delete).  An upload followed by the delete of the same
    name, both successful, leaves the bucket without the object, whatever it
    held under that name before; when the name was free before, the services
    are exactly as they were. *)
Theorem upload_then_delete_restores (credentials : Credentials)
    (bucket_name source_file_path blob_name : string) (w : World) :
  let r1 := upload_blob credentials bucket_name source_file_path blob_name w in
  let r2 := delete_blob bucket_name blob_name credentials (final r1) in
  succeeded r1 = true -> succeeded r2 = true ->
  object_at (w_services (final r2)) bucket_name blob_name = None
  /\ (forall b k, (b, k) <> (bucket_name, blob_name) ->
        object_at (w_services (final r2)) b k = object_at (w_services w) b k)
  /\ (object_at (w_services w) bucket_name blob_name = None ->
      w_services (final r2) = w_services w).
Proof.
  intros r1 r2 H1 H2.
  destruct (upload_blob_effect credentials bucket_name source_file_path blob_name w)
    as (Hok1 & _).
  destruct (delete_blob_effect bucket_name blob_name credentials (final r1))
    as (Hok2 & _).
  fold r1 in Hok1, Hok2. fold r2 in Hok2.
  destruct (Hok1 H1) as (data & objects & Hf & Hb & E1).
  destruct (Hok2 H2) as (data' & objects' & Hb' & Ho' & E2).
  rewrite E1 in Hb', E2. cbn [buckets set_buckets] in Hb', E2.
  rewrite lookup_insert_eq in Hb'. inversion Hb'; subst objects'; clear Hb'.
  rewrite insert_insert_eq, delete_insert_eq in E2. rewrite E2.
  split; [| split].
  - unfold object_at. cbn [buckets set_buckets]. rewrite lookup_insert_eq.
    apply lookup_delete_eq.
  - intros b k Hne. unfold object_at. cbn [buckets set_buckets].
    rewrite lookup_insert.
    destruct (decide (bucket_name = b)) as [<-|Hb']; [| reflexivity].
    rewrite Hb. apply lookup_delete_ne. congruence.
  - unfold object_at. rewrite Hb. intros Hnone.
    rewrite (delete_id _ _ Hnone), (insert_id _ _ _ Hb).
    destruct (w_services w); reflexivity.
Qed.

(** * More of the script: placement, as a whole *)

(** The run of [add_image_to_slide], by what the page read answers. *)
Lemma add_image_to_slide_outcome (presentation_id : string) (credentials : Credentials)
    (image_url : SignedUrl) (image_name page_object_id : string)
    (sx sy tx ty : number) (w : World) :
  let r := add_image_to_slide presentation_id credentials image_url image_name
             page_object_id sx sy tx ty w in
  let s := w_services w in
  match page_snapshot w presentation_id page_object_id with
  | None =>
      succeeded r = false /\ w_services (final r) = s
      /\ trace r = [Called (PagesGet presentation_id page_object_id) false (w_now w)
                      (returned_at w)]
  | Some page_info =>
      let batch := batch_for page_info image_url image_name page_object_id sx sy tx ty in
      trace r
      = [Called (PagesGet presentation_id page_object_id) true (w_now w) (returned_at w)]
        ++ (if py_in image_name (element_ids page_info)
            then [Printed "Image already present on slide. Request added to delete the pre-existing copy so that a new one can be added."]
            else [])
        ++ [Called (BatchUpdate presentation_id batch) (succeeded r) (returned_at w)
              (returned_at (after_call w s))]
        ++ (if succeeded r
            then [Printed "Image added to slide. Pre-existing image deleted if requested."]
            else [])
      /\ (succeeded r = false -> w_services (final r) = s)
      /\ (succeeded r = true ->
          exists pages pages',
            presentations s !! presentation_id = Some pages
            /\ pages !! page_object_id = Some page_info
            /\ apply_requests (returned_at w) s pages batch = Some pages'
            /\ w_services (final r)
               = set_presentations s (<[presentation_id := pages']> (presentations s)))
  end.
Proof.
  intros r s. subst r. rewrite add_image_to_slide_run.
  destruct (pages_get_run (build "slides" "v1" credentials) presentation_id
              page_object_id w) as (Hf & Ht & Hr).
  destruct (page_snapshot w presentation_id page_object_id) as [page_info|] eqn:Hsnap.
  - rewrite Hr. cbv zeta.
    match goal with |- context [batchUpdate ?sv ?p ?b ?w'] =>
      destruct (batchUpdate_run sv p b w') as (Hbt & Hbf & Hbs);
      remember (batchUpdate sv p b w') as b' eqn:Eb'
    end.
    clear Eb'. unfold succeeded in *. rewrite Hr in Ht. rewrite Ht, Hbt.
    cbn [result final trace requests] in *.
    rewrite Hf in Hbf, Hbs. cbn [w_now w_services after_call] in Hbf, Hbs.
    rewrite Hf. cbn [w_now w_services after_call].
    split; [reflexivity |].
    split; [intros Hfail; rewrite (Hbf Hfail); reflexivity |].
    intros Hok. destruct (Hbs Hok) as (pages & pages' & Hp & Ha & Hfin).
    exists pages, pages'. split; [exact Hp |].
    split; [| split; [exact Ha | rewrite Hfin; reflexivity]].
    unfold page_snapshot in Hsnap.
    destruct (w_fault w (w_calls w)); [discriminate |].
    subst s. rewrite Hp in Hsnap. exact Hsnap.
  - destruct Hr as [e He]. rewrite He. cbn [final trace]. unfold succeeded at 1.
    cbn [result]. rewrite Ht, Hf. unfold succeeded. rewrite He.
    split; [reflexivity |]. split; reflexivity.
Qed.

(** X4 (placement raises only through its two calls).  Whatever the page
    holds, a blank slide included, the scan of the page elements raises
    nothing: when the page read answers, the batch update is submitted, and
    the invocation raises exactly when one of the two calls raises, which is
    then its last call. *)
Theorem add_image_to_slide_raises_only_from_calls (presentation_id : string)
    (credentials : Credentials) (image_url : SignedUrl)
    (image_name page_object_id : string) (sx sy tx ty : number) (w : World) :
  let r := add_image_to_slide presentation_id credentials image_url image_name
             page_object_id sx sy tx ty w in
  (succeeded r = false -> exists c, last (calls (trace r)) = Some (c, false))
  /\ (succeeded r = true <-> Forall (fun c => snd c = true) (calls (trace r)))
  /\ (forall page_info,
        page_snapshot w presentation_id page_object_id = Some page_info ->
        map fst (calls (trace r))
        = [PagesGet presentation_id page_object_id;
           BatchUpdate presentation_id
             (batch_for page_info image_url image_name page_object_id sx sy tx ty)])
  /\ (page_snapshot w presentation_id page_object_id = None ->
      calls (trace r) = [(PagesGet presentation_id page_object_id, false)]).
Proof.
  intros r.
  pose proof (add_image_to_slide_outcome presentation_id credentials image_url
                image_name page_object_id sx sy tx ty w) as H.
  cbv zeta in H. fold r in H.
  destruct (page_snapshot w presentation_id page_object_id) as [page_info|].
  - destruct H as (Ht & _).
    assert (E : calls (trace r)
                = [(PagesGet presentation_id page_object_id, true);
                   (BatchUpdate presentation_id
                      (batch_for page_info image_url image_name page_object_id
                         sx sy tx ty), succeeded r)]).
    { rewrite Ht at 1. rewrite !calls_app.
      destruct (py_in image_name (element_ids page_info)), (succeeded r);
        reflexivity. }
    rewrite E. clear Ht E.
    split; [intros ->; eexists; reflexivity |]. split; [| split].
    + split.
      * intros ->. repeat constructor.
      * intros HF. apply Forall_cons in HF as [_ HF].
        apply Forall_cons in HF as [HF _]. exact HF.
    + intros p Hp. inversion Hp; subst. reflexivity.
    + discriminate.
  - destruct H as (Hfail & _ & Ht). rewrite Ht, Hfail. cbn.
    split; [intros _; eexists; reflexivity |]. split; [| split].
    + split; [discriminate |].
      intros HF. apply Forall_cons in HF as [HF _]. discriminate.
    + discriminate.
    + reflexivity.
Qed.

(** X5 (the messages of placement).  The message about the pre-existing copy
    is printed exactly when the name is among the element identifiers of the
    snapshot, and before the batch is submitted, so also when the batch then
    fails; the closing message is printed exactly when the invocation
    succeeds.  Nothing is printed when the page read fails. *)
Theorem add_image_to_slide_messages (presentation_id : string)
    (credentials : Credentials) (image_url : SignedUrl)
    (image_name page_object_id : string) (sx sy tx ty : number) (w : World) :
  let r := add_image_to_slide presentation_id credentials image_url image_name
             page_object_id sx sy tx ty w in
  printed (trace r)
  = match page_snapshot w presentation_id page_object_id with
    | None => []
    | Some page_info =>
        (if py_in image_name (element_ids page_info)
         then ["Image already present on slide. Request added to delete the pre-existing copy so that a new one can be added."]
         else [])
        ++ (if succeeded r
            then ["Image added to slide. Pre-existing image deleted if requested."]
            else [])
    end.
Proof.
  intros r.
  pose proof (add_image_to_slide_outcome presentation_id credentials image_url
                image_name page_object_id sx sy tx ty w) as H.
  cbv zeta in H. fold r in H.
  destruct (page_snapshot w presentation_id page_object_id) as [page_info|].
  - destruct H as (Ht & _). rewrite Ht. unfold printed. rewrite !omap_app.
    destruct (py_in image_name (element_ids page_info)), (succeeded r); reflexivity.
  - destruct H as (_ & _ & Ht). rewrite Ht. reflexivity.
Qed.

(** X6 (what placement leaves alone).  Placement never changes the local
    files or the buckets.  When it raises, the presentations are unchanged as
    well: a batch is applied as a whole or not at all.  When it succeeds, all
    other presentations are unchanged. *)
Theorem add_image_to_slide_frame (presentation_id : string)
    (credentials : Credentials) (image_url : SignedUrl)
    (image_name page_object_id : string) (sx sy tx ty : number) (w : World) :
  let r := add_image_to_slide presentation_id credentials image_url image_name
             page_object_id sx sy tx ty w in
  files (w_services (final r)) = files (w_services w)
  /\ buckets (w_services (final r)) = buckets (w_services w)
  /\ (succeeded r = false -> w_services (final r) = w_services w)
  /\ (forall p, p <> presentation_id ->
        presentations (w_services (final r)) !! p = presentations (w_services w) !! p).
Proof.
  intros r.
  pose proof (add_image_to_slide_outcome presentation_id credentials image_url
                image_name page_object_id sx sy tx ty w) as H.
  cbv zeta in H. fold r in H.
  assert (Hcases : w_services (final r) = w_services w
                   \/ exists pages',
                        w_services (final r)
                        = set_presentations (w_services w)
                            (<[presentation_id := pages']>
                               (presentations (w_services w)))).
  { destruct (page_snapshot w presentation_id page_object_id) as [page_info|].
    - destruct H as (_ & Hfail & Hok). destruct (succeeded r).
      + destruct (Hok eq_refl) as (pages & pages' & _ & _ & _ & E). right. eauto.
      + left. apply Hfail. reflexivity.
    - left. apply H. }
  assert (Hfail : succeeded r = false -> w_services (final r) = w_services w).
  { destruct (page_snapshot w presentation_id page_object_id) as [page_info|];
      [apply H | intros _; apply H]. }
  split; [| split; [| split; [exact Hfail |]]].
  - destruct Hcases as [E | [pages' E]]; rewrite E; reflexivity.
  - destruct Hcases as [E | [pages' E]]; rewrite E; reflexivity.
  - intros p Hp. destruct Hcases as [E | [pages' E]]; rewrite E; [reflexivity |].
    cbn [presentations set_presentations]. apply lookup_insert_ne. congruence.
Qed.

(** ** The page after a successful placement *)

Lemma map_filter_objectId (id : string) (els : list PageElement) :
  map pe_objectId (filter (fun e => pe_objectId e <> id) els)
  = filter (fun i => i <> id) (map pe_objectId els).
Proof.
  induction els as [|e els IH]; [reflexivity |].
  cbn [map]. rewrite !filter_cons.
  destruct (decide (pe_objectId e <> id)); cbn [map]; rewrite IH; reflexivity.
Qed.

Lemma element_ids_remove_element (id : string) (page : PageInfo) :
  element_ids (remove_element id page) = filter (fun i => i <> id) (element_ids page).
Proof.
  unfold remove_element, element_ids.
  destruct (pageElements page) as [els|] eqn:Hels; [| rewrite Hels; reflexivity].
  rewrite <- map_filter_objectId.
  destruct (filter (fun e => pe_objectId e <> id) els); reflexivity.
Qed.

Lemma filter_other_ids (id : string) (ids : list string) :
  id ∉ ids -> filter (fun i => i <> id) ids = ids.
Proof.
  induction ids as [|i ids IH]; intros Hnot; [reflexivity |].
  rewrite filter_cons. apply not_elem_of_cons in Hnot. destruct Hnot as (Hne & Hnot).
  rewrite decide_True by congruence. rewrite (IH Hnot). reflexivity.
Qed.

(** A [createImage] that is accepted appends its element to its page. *)
Lemma create_appends (now : Q) (s : Services) (pages pages' : gmap string PageInfo)
    (id : string) (u : SignedUrl) (props : ElementProperties) (page : PageInfo) :
  apply_request now s pages (createImage id u props) = Some pages' ->
  pages !! pageObjectId props = Some page ->
  id_in_use id pages = false
  /\ exists page',
       pages' !! pageObjectId props = Some page'
       /\ element_ids page' = element_ids page ++ [id].
Proof.
  cbn. intros H Hp.
  destruct (id_in_use id pages); [discriminate |]. split; [reflexivity |].
  rewrite Hp in H. destruct (fetchable now s u); [| discriminate].
  inversion H; subst pages'. eexists. split; [apply lookup_insert_eq |].
  apply element_ids_add_element.
Qed.

(** The batch of a placement, accepted: the elements of other names stay on
    the page in their order, and the new image comes last. *)
Lemma batch_for_page (now : Q) (s : Services) (pages pages' : gmap string PageInfo)
    (page_info : PageInfo) (image_url : SignedUrl) (image_name page_object_id : string)
    (sx sy tx ty : number) :
  pages !! page_object_id = Some page_info ->
  apply_requests now s pages
    (batch_for page_info image_url image_name page_object_id sx sy tx ty) = Some pages' ->
  exists page',
    pages' !! page_object_id = Some page'
    /\ element_ids page'
       = filter (fun i => i <> image_name) (element_ids page_info) ++ [image_name].
Proof.
  intros Hp. unfold batch_for, image_request.
  destruct (py_in image_name (element_ids page_info)) eqn:Hin.
  - cbn [app apply_requests].
    destruct (apply_request now s pages (deleteObject image_name)) as [pages1|] eqn:Hd;
      [| discriminate].
    destruct (apply_request now s pages1 _) as [pages2|] eqn:Hc; [| discriminate].
    intros H. inversion H; subst pages2; clear H.
    apply py_in_spec in Hin.
    cbn in Hd.
    destruct (bool_decide (is_Some (pages !! image_name))) eqn:Hpage.
    + (* the name is the identifier of a page: the page goes, and the
         [createImage] is rejected *)
      inversion Hd; subst pages1; clear Hd. exfalso.
      cbn in Hc.
      destruct (decide (page_object_id = image_name)) as [->|Hne].
      * destruct (id_in_use image_name (delete image_name pages)); [discriminate |].
        rewrite lookup_delete_eq in Hc. discriminate.
      * assert (Huse : id_in_use image_name (delete image_name pages) = true).
        { unfold id_in_use. apply orb_true_intro. right. apply bool_decide_eq_true.
          exists page_object_id, page_info. split; [| exact Hin].
          rewrite lookup_delete_ne by congruence. exact Hp. }
        rewrite Huse in Hc. discriminate.
    + destruct (id_in_use image_name pages); [| discriminate].
      inversion Hd; subst pages1; clear Hd.
      assert (Hp1 : (remove_element image_name <$> pages) !! page_object_id
                    = Some (remove_element image_name page_info))
        by (rewrite lookup_fmap, Hp; reflexivity).
      destruct (create_appends _ _ _ _ _ _ _ _ Hc Hp1) as (_ & page' & Hp' & Hids).
      exists page'. split; [exact Hp' |].
      rewrite Hids, element_ids_remove_element. reflexivity.
  - cbn [app apply_requests].
    destruct (apply_request now s pages _) as [pages1|] eqn:Hc; [| discriminate].
    intros H. inversion H; subst pages1; clear H.
    destruct (create_appends _ _ _ _ _ _ _ _ Hc Hp) as (_ & page' & Hp' & Hids).
    exists page'. split; [exact Hp' |].
    rewrite Hids, filter_other_ids; [reflexivity |].
    intros Hin'. apply py_in_spec in Hin'. congruence.
Qed.

(** X7 (the page after placement).  After a successful invocation the page
    holds the elements it held before, except those of the image's name, in
    their order, followed by the new image: elements of other names are not
    disturbed and the image is the last one. *)
Theorem add_image_to_slide_page_after (presentation_id : string)
    (credentials : Credentials) (image_url : SignedUrl)
    (image_name page_object_id : string) (sx sy tx ty : number) (w : World) :
  let r := add_image_to_slide presentation_id credentials image_url image_name
             page_object_id sx sy tx ty w in
  succeeded r = true ->
  exists page_info pages' page',
    page_snapshot w presentation_id page_object_id = Some page_info
    /\ presentations (w_services (final r)) !! presentation_id = Some pages'
    /\ pages' !! page_object_id = Some page'
    /\ element_ids page'
       = filter (fun i => i <> image_name) (element_ids page_info) ++ [image_name].
Proof.
  intros r Hok.
  pose proof (add_image_to_slide_outcome presentation_id credentials image_url
                image_name page_object_id sx sy tx ty w) as H.
  cbv zeta in H. fold r in H.
  destruct (page_snapshot w presentation_id page_object_id) as [page_info|].
  2:{ destruct H as (Hfail & _). congruence. }
  destruct H as (_ & _ & Hs). destruct (Hs Hok) as (pages & pages' & Hp & Hpi & Ha & E).
  destruct (batch_for_page _ _ _ _ _ _ _ _ _ _ _ _ Hpi Ha) as (page' & Hp' & Hids).
  exists page_info, pages', page'. split; [reflexivity |].
  split; [| split; assumption].
  rewrite E. cbn [presentations set_presentations]. apply lookup_insert_eq.
Qed.

(** * More of the script: the orchestrator from end to end *)

Lemma page_snapshot_Some (w : World) (presentation_id page_object_id : string)
    (page_info : PageInfo) :
  page_snapshot w presentation_id page_object_id = Some page_info ->
  exists pages,
    presentations (w_services w) !! presentation_id = Some pages
    /\ pages !! page_object_id = Some page_info.
Proof.
  unfold page_snapshot. destruct (w_fault w (w_calls w)); [discriminate |].
  destruct (presentations (w_services w) !! presentation_id) as [pages|];
    [eauto | discriminate].
Qed.

(** The services after a successful run, and what the run printed and
    submitted, in terms of what it found. *)
Lemma orchestrator_success_summary
    (image_folder_path image_file_name image_file_extension service_account_path : string)
    (scopes : list string) (presentation_id page_object_id bucket_name : string)
    (sx sy tx ty : number) (w : World) :
  let r := upload_image_and_add_to_slide image_folder_path image_file_name
             image_file_extension service_account_path scopes presentation_id
             page_object_id bucket_name sx sy tx ty w in
  let path := (image_folder_path ++ image_file_name ++ image_file_extension)%string in
  let s := w_services w in
  succeeded r = true ->
  exists data objects pages page_info pages' page' url t0 t1,
    files s !! path = Some data
    /\ buckets s !! bucket_name = Some objects
    /\ presentations s !! presentation_id = Some pages
    /\ pages !! page_object_id = Some page_info
    /\ pages' !! page_object_id = Some page'
    /\ element_ids page'
       = filter (fun i => i <> image_file_name) (element_ids page_info)
         ++ [image_file_name]
    /\ w_services (final r)
       = {| files := files s;
            buckets := <[bucket_name := delete image_file_name objects]> (buckets s);
            presentations := <[presentation_id := pages']> (presentations s) |}
    /\ url_bucket url = bucket_name /\ url_blob url = image_file_name
    /\ batches (trace r)
       = [batch_for page_info url image_file_name page_object_id sx sy tx ty]
    /\ time_reads (trace r) = [t0; t1]
    /\ printed (trace r)
       = ["File uploaded to cloud."; "Signed URL generated."]
         ++ (if py_in image_file_name (element_ids page_info)
             then ["Image already present on slide. Request added to delete the pre-existing copy so that a new one can be added."]
             else [])
         ++ ["Image added to slide. Pre-existing image deleted if requested.";
             ("Blob " ++ image_file_name ++ " deleted.")%string;
             ("Image was accessible for " ++ format_4f (t1 - t0)
              ++ " second(s).")%string].
Proof.
  intros r path s Hok.
  destruct (orchestrator_success image_folder_path image_file_name image_file_extension
              service_account_path scopes presentation_id page_object_id bucket_name
              sx sy tx ty w Hok)
    as (credentials & url & R0 & R1 & R2 & R3 & R4 & Hfin & Htr).
  fold r in Hfin, Htr. fold path in R1, R2, R3, R4, Hfin, Htr.
  (* credentials *)
  destruct (from_service_account_file_run service_account_path scopes w) as (T0 & F0).
  remember (from_service_account_file service_account_path scopes w) as r0 eqn:E0.
  clear E0. rewrite (succeeded_inr _ _ R0) in T0.
  (* upload *)
  destruct (upload_blob_run credentials bucket_name path image_file_name (final r0))
    as (T1 & _).
  destruct (upload_blob_effect credentials bucket_name path image_file_name (final r0))
    as (U1 & _).
  remember (upload_blob credentials bucket_name path image_file_name (final r0))
    as r1 eqn:E1.
  clear E1. rewrite (succeeded_inr _ _ R1) in T1.
  destruct (U1 (succeeded_inr _ _ R1)) as (data & objects & Hfile & Hbucket & S1).
  clear U1. rewrite F0 in Hfile, Hbucket, S1.
  cbn [w_services after_call] in Hfile, Hbucket, S1. fold s in Hfile, Hbucket, S1.
  (* URL request *)
  destruct (generate_download_signed_url_v4_run bucket_name image_file_name credentials
              (final r1)) as (T2 & F2 & U2).
  remember (generate_download_signed_url_v4 bucket_name image_file_name credentials
              (final r1)) as r2 eqn:E2.
  clear E2. rewrite (succeeded_inr _ _ R2) in T2.
  pose proof (U2 url R2) as Hurl. clear U2.
  assert (S2 : w_services (final r2) = w_services (final r1))
    by (rewrite F2; reflexivity).
  (* placement *)
  pose proof (add_image_to_slide_outcome presentation_id credentials url image_file_name
                page_object_id sx sy tx ty (final r2)) as O3.
  cbv zeta in O3.
  remember (add_image_to_slide presentation_id credentials url image_file_name
              page_object_id sx sy tx ty (final r2)) as r3 eqn:E3.
  clear E3.
  destruct (page_snapshot (final r2) presentation_id page_object_id) as [page_info|].
  2:{ destruct O3 as (Hfail & _). rewrite (succeeded_inr _ _ R3) in Hfail.
      discriminate. }
  destruct O3 as (T3 & _ & U3). rewrite (succeeded_inr _ _ R3) in T3.
  destruct (U3 (succeeded_inr _ _ R3)) as (pages & pages' & Hpages & Hpage & Happly & S3).
  clear U3.
  destruct (batch_for_page _ _ _ _ _ _ _ _ _ _ _ _ Hpage Happly) as (page' & Hpage' & Hids).
  rewrite S2, S1 in Hpages, S3. cbn [presentations set_buckets] in Hpages, S3.
  (* delete *)
  destruct (delete_blob_run bucket_name image_file_name credentials (final r3))
    as (T4 & _).
  destruct (delete_blob_effect bucket_name image_file_name credentials (final r3))
    as (U4 & _).
  remember (delete_blob bucket_name image_file_name credentials (final r3)) as r4 eqn:E4.
  clear E4. rewrite (succeeded_inr _ _ R4) in T4.
  destruct (U4 (succeeded_inr _ _ R4)) as (data' & objects' & Hbucket' & _ & S4).
  clear U4. rewrite S3 in Hbucket', S4.
  cbn [buckets files presentations set_buckets set_presentations] in Hbucket', S4.
  rewrite lookup_insert_eq in Hbucket'. inversion Hbucket'; subst objects'.
  clear Hbucket'.
  rewrite insert_insert_eq, delete_insert_eq in S4.
  exists data, objects, pages, page_info, pages', page', url,
         (w_now (final r2)), (w_now (final r4)).
  split; [exact Hfile |]. split; [exact Hbucket |]. split; [exact Hpages |].
  split; [exact Hpage |]. split; [exact Hpage' |]. split; [exact Hids |].
  split; [rewrite Hfin; exact S4 |].
  split; [rewrite Hurl; reflexivity |]. split; [rewrite Hurl; reflexivity |].
  rewrite Htr, T0, T1, T2, T3, T4, report_line.
  split; [| split].
  - unfold batches. rewrite !omap_app.
    destruct (py_in image_file_name (element_ids page_info)); reflexivity.
  - unfold time_reads. rewrite !omap_app.
    destruct (py_in image_file_name (element_ids page_info)); reflexivity.
  - unfold printed. rewrite !omap_app.
    destruct (py_in image_file_name (element_ids page_info)); reflexivity.
Qed.

Lemma none_left (id : string) (ids : list string) :
  filter (fun i => i = id) (filter (fun i => i <> id) ids) = [].
Proof.
  induction ids as [|i ids IH]; [reflexivity |].
  rewrite (filter_cons (fun i => i <> id)).
  destruct (decide (i <> id)) as [Hne|Heq]; [| exact IH].
  rewrite filter_cons, decide_False by exact Hne. exact IH.
Qed.

(** X8 (what a successful run leaves).  After a successful run the local
    files are untouched; the bucket no longer holds an object under the file
    name, whether or not it held one before, and every other object and
    bucket is as before; the page holds its former elements of other names,
    in their order, followed by the image, hence exactly one element of that
    name; every other presentation is as before. *)
Theorem successful_run_postcondition
    (image_folder_path image_file_name image_file_extension service_account_path : string)
    (scopes : list string) (presentation_id page_object_id bucket_name : string)
    (sx sy tx ty : number) (w : World) :
  let r := upload_image_and_add_to_slide image_folder_path image_file_name
             image_file_extension service_account_path scopes presentation_id
             page_object_id bucket_name sx sy tx ty w in
  let s := w_services w in
  let s' := w_services (final r) in
  succeeded r = true ->
  files s' = files s
  /\ object_at s' bucket_name image_file_name = None
  /\ (forall b k, (b, k) <> (bucket_name, image_file_name) ->
        object_at s' b k = object_at s b k)
  /\ (forall p, p <> presentation_id -> presentations s' !! p = presentations s !! p)
  /\ exists pages page_info pages' page',
       presentations s !! presentation_id = Some pages
       /\ pages !! page_object_id = Some page_info
       /\ presentations s' !! presentation_id = Some pages'
       /\ pages' !! page_object_id = Some page'
       /\ element_ids page'
          = filter (fun i => i <> image_file_name) (element_ids page_info)
            ++ [image_file_name]
       /\ count_id image_file_name page' = 1.
Proof.
  intros r s s' Hok.
  destruct (orchestrator_success_summary image_folder_path image_file_name
              image_file_extension service_account_path scopes presentation_id
              page_object_id bucket_name sx sy tx ty w Hok)
    as (data & objects & pages & page_info & pages' & page' & url & t0 & t1
        & _ & Hb & Hps & Hp & Hp' & Hids & E & _).
  fold r in E. fold s' in E. fold s in Hb, Hps, E. rewrite E.
  split; [reflexivity |]. split; [| split; [| split]].
  - unfold object_at. cbn [buckets]. rewrite lookup_insert_eq. apply lookup_delete_eq.
  - intros b k Hne. unfold object_at. cbn [buckets]. rewrite lookup_insert.
    destruct (decide (bucket_name = b)) as [<-|Hb']; [| reflexivity].
    rewrite Hb. apply lookup_delete_ne. congruence.
  - intros p Hne. cbn [presentations]. apply lookup_insert_ne. congruence.
  - exists pages, page_info, pages', page'.
    split; [exact Hps |]. split; [exact Hp |].
    split; [cbn [presentations]; apply lookup_insert_eq |].
    split; [exact Hp' |]. split; [exact Hids |].
    unfold count_id. rewrite Hids, filter_app, length_app, none_left.
    cbn. rewrite decide_True by reflexivity. reflexivity.
Qed.

(** X10 (the console of a successful run).  A successful run prints, in this
    order: the upload message, the URL message, the message about the
    pre-existing copy exactly when the page already held an element of the
    file name, the placement message, the delete message with the file name,
    and the duration line built from the two clock readings. *)
Theorem successful_run_console
    (image_folder_path image_file_name image_file_extension service_account_path : string)
    (scopes : list string) (presentation_id page_object_id bucket_name : string)
    (sx sy tx ty : number) (w : World) :
  let r := upload_image_and_add_to_slide image_folder_path image_file_name
             image_file_extension service_account_path scopes presentation_id
             page_object_id bucket_name sx sy tx ty w in
  succeeded r = true ->
  exists pages page_info t0 t1,
    presentations (w_services w) !! presentation_id = Some pages
    /\ pages !! page_object_id = Some page_info
    /\ time_reads (trace r) = [t0; t1]
    /\ printed (trace r)
       = ["File uploaded to cloud."; "Signed URL generated."]
         ++ (if py_in image_file_name (element_ids page_info)
             then ["Image already present on slide. Request added to delete the pre-existing copy so that a new one can be added."]
             else [])
         ++ ["Image added to slide. Pre-existing image deleted if requested.";
             ("Blob " ++ image_file_name ++ " deleted.")%string;
             ("Image was accessible for " ++ format_4f (t1 - t0)
              ++ " second(s).")%string].
Proof.
  intros r Hok.
  destruct (orchestrator_success_summary image_folder_path image_file_name
              image_file_extension service_account_path scopes presentation_id
              page_object_id bucket_name sx sy tx ty w Hok)
    as (data & objects & pages & page_info & pages' & page' & url & t0 & t1
        & _ & _ & Hps & Hp & _ & _ & _ & _ & _ & _ & Ht & Hpr).
  exists pages, page_info, t0, t1. auto.
Qed.

(** ** Runs that do not get as far as the upload, and the URL that is placed *)

Lemma omap_cons_None {A B} (f : A -> option B) (x : A) (l : list A) :
  f x = None -> omap f (x :: l) = omap f l.
Proof. intros H. cbn. rewrite H. reflexivity. Qed.

Section StagesAgain.

Context {C U : Type}.
Variable load : M C.
Variable upload : C -> M unit.
Variable sign : C -> M U.
Variable place : C -> U -> M unit.
Variable remove : C -> M unit.

Section Untouched.

Variable c1 : Call.
Hypothesis load_keeps : forall w, w_services (final (load w)) = w_services w.
Hypothesis failed_upload_keeps :
  forall c w, succeeded (upload c w) = false ->
    w_services (final (upload c w)) = w_services w.
Hypothesis upload_call :
  forall c w, calls (trace (upload c w)) = [(c1, succeeded (upload c w))].

(** When the upload call is not among the successful calls, the services are
    as they were found. *)
Lemma script_untouched (w : World) :
  (c1, true) ∉ calls (trace (script load upload sign place remove w)) ->
  w_services (final (script load upload sign place remove w)) = w_services w.
Proof.
  unfold script. rewrite five_stages. cbv zeta.
  destruct (result (load w)) as [e|c] eqn:R0.
  { intros _. cbn [final]. apply load_keeps. }
  pose proof (upload_call c (final (load w))) as Hc.
  pose proof (failed_upload_keeps c (final (load w))) as Hk.
  destruct (result (upload c (final (load w)))) as [e|[]] eqn:R1.
  { intros _. cbn [final]. rewrite Hk by apply (succeeded_inl _ _ R1).
    apply load_keeps. }
  rewrite (succeeded_inr _ _ R1) in Hc.
  intros Hnot. exfalso. apply Hnot.
  destruct (result (sign c (final (upload c (final (load w)))))) as [e|u];
    [| destruct (result (place c u _)) as [e|[]];
       [| destruct (result (remove c _)) as [e|[]]]];
    cbn [trace]; rewrite calls_app, (calls_app (trace (upload c (final (load w))))), Hc;
    apply elem_of_app; right; apply elem_of_app; left; apply list_elem_of_here.
Qed.

End Untouched.

Section PlaceEvents.

Context {X : Type}.
Variable f : Event -> option X.
Hypothesis f_time : forall t, f (TimeRead t) = None.
Hypothesis f_printed : forall line, f (Printed line) = None.
Hypothesis f_load : forall w, omap f (trace (load w)) = [].
Hypothesis f_upload : forall c w, omap f (trace (upload c w)) = [].
Hypothesis f_sign : forall c w, omap f (trace (sign c w)) = [].
Hypothesis f_remove : forall c w, omap f (trace (remove c w)) = [].

(** Events that only the placement stage produces: a run has those of its
    placement stage, which it reaches through a successful URL request, or
    none. *)
Lemma script_place_events (w : World) :
  omap f (trace (script load upload sign place remove w)) = []
  \/ exists c u,
       result (sign c (final (upload c (final (load w))))) = inr u
       /\ (exists pre post,
             trace (script load upload sign place remove w)
             = pre ++ trace (sign c (final (upload c (final (load w))))) ++ post)
       /\ omap f (trace (script load upload sign place remove w))
          = omap f (trace (place c u (final (sign c (final (upload c (final (load w)))))))).
Proof.
  unfold script. rewrite five_stages. cbv zeta.
  destruct (result (load w)) as [e|c] eqn:R0.
  { left. cbn [trace]. apply f_load. }
  destruct (result (upload c (final (load w)))) as [e|[]] eqn:R1.
  { left. cbn [trace]. rewrite omap_app, f_load, f_upload. reflexivity. }
  destruct (result (sign c (final (upload c (final (load w)))))) as [e|u] eqn:R2.
  { left. cbn [trace]. rewrite !omap_app, f_load, f_upload, f_sign. reflexivity. }
  right. exists c, u. split; [exact R2 |].
  destruct (result (place c u _)) as [e|[]] eqn:R3;
    [| destruct (result (remove c _)) as [e|[]] eqn:R4]; cbn [trace].
  - split.
    + eexists (trace (load w) ++ trace (upload c (final (load w)))), _.
      rewrite <- app_assoc. reflexivity.
    + rewrite !omap_app, f_load, f_upload, f_sign.
      cbn [app]. rewrite (omap_cons_None f _ _ (f_time _)). reflexivity.
  - split.
    + eexists (trace (load w) ++ trace (upload c (final (load w)))), _.
      rewrite <- app_assoc. reflexivity.
    + rewrite !omap_app, f_load, f_upload, f_sign, f_remove.
      cbn [app]. rewrite (omap_cons_None f _ _ (f_time _)), app_nil_r. reflexivity.
  - split.
    + eexists (trace (load w) ++ trace (upload c (final (load w)))), _.
      rewrite <- app_assoc. reflexivity.
    + rewrite !omap_app, f_load, f_upload, f_sign, f_remove.
      cbn [app]. rewrite (omap_cons_None f _ _ (f_time _)).
      rewrite (omap_cons_None f _ _ (f_time _)), (omap_cons_None f _ _ (f_printed _)).
      cbn [omap list_omap]. rewrite app_nil_r. reflexivity.
Qed.

End PlaceEvents.

End StagesAgain.

(** X11 (no upload, no change).  A run in which the upload does not go
    through (the key file or the picture is missing, the bucket does not
    exist, the call fails) leaves files, buckets and presentations exactly as
    it found them. *)
Theorem run_without_upload_changes_nothing
    (image_folder_path image_file_name image_file_extension service_account_path : string)
    (scopes : list string) (presentation_id page_object_id bucket_name : string)
    (sx sy tx ty : number) (w : World) :
  let r := upload_image_and_add_to_slide image_folder_path image_file_name
             image_file_extension service_account_path scopes presentation_id
             page_object_id bucket_name sx sy tx ty w in
  (Upload bucket_name (image_folder_path ++ image_file_name ++ image_file_extension)%string
     image_file_name, true) ∉ calls (trace r) ->
  w_services (final r) = w_services w.
Proof.
  cbv zeta.
  rewrite (orchestrator_is_script image_folder_path image_file_name image_file_extension
             service_account_path scopes presentation_id page_object_id bucket_name
             sx sy tx ty w).
  apply script_untouched.
  - intros w'.
    destruct (from_service_account_file_run service_account_path scopes w') as (_ & F).
    rewrite F. reflexivity.
  - intros c w' Hfail.
    destruct (upload_blob_effect c bucket_name
                (image_folder_path ++ image_file_name ++ image_file_extension)%string
                image_file_name w') as (_ & Hk & _).
    exact (Hk Hfail).
  - intros c w'.
    destruct (upload_blob_run c bucket_name
                (image_folder_path ++ image_file_name ++ image_file_extension)%string
                image_file_name w') as (T & _).
    rewrite T. apply calls_of_stage.
Qed.

(** The batch of an event, when the event is a batch update. *)
Definition batch_of (ev : Event) : option (list Request) :=
  match ev with
  | Called (BatchUpdate _ rs) _ _ _ => Some rs
  | _ => None
  end.

Lemma batches_omap (tr : list Event) : batches tr = omap batch_of tr.
Proof. reflexivity. Qed.

Lemma batches_of_stage (c : Call) (ok : bool) (t t' : Q) (line : string) :
  (forall p rs, c <> BatchUpdate p rs) ->
  omap batch_of (Called c ok t t' :: (if ok then [Printed line] else [])) = [].
Proof.
  intros Hc. destruct c; try (destruct ok; reflexivity).
  exfalso. eapply Hc. reflexivity.
Qed.

Lemma no_batch_in_credentials (path : string) (scopes : list string) (w : World) :
  omap batch_of (trace (from_service_account_file path scopes w)) = [].
Proof.
  destruct (from_service_account_file_run path scopes w) as (T & _).
  rewrite T. reflexivity.
Qed.

Lemma no_batch_in_upload (credentials : Credentials)
    (bucket_name source_file_path destination_blob_name : string) (w : World) :
  omap batch_of (trace (upload_blob credentials bucket_name source_file_path
                          destination_blob_name w)) = [].
Proof.
  destruct (upload_blob_run credentials bucket_name source_file_path
              destination_blob_name w) as (T & _).
  rewrite T. apply batches_of_stage. discriminate.
Qed.

Lemma no_batch_in_url_request (bucket_name blob_name : string)
    (credentials : Credentials) (w : World) :
  omap batch_of (trace (generate_download_signed_url_v4 bucket_name blob_name
                          credentials w)) = [].
Proof.
  destruct (generate_download_signed_url_v4_run bucket_name blob_name credentials w)
    as (T & _).
  rewrite T. apply batches_of_stage. discriminate.
Qed.

Lemma no_batch_in_delete (bucket_name blob_name : string) (credentials : Credentials)
    (w : World) :
  omap batch_of (trace (delete_blob bucket_name blob_name credentials w)) = [].
Proof.
  destruct (delete_blob_run bucket_name blob_name credentials w) as (T & _).
  rewrite T. apply batches_of_stage. discriminate.
Qed.

(** The batches of a run are those of its placement stage, which it reaches
    through a successful URL request, or there is none. *)
Lemma orchestrator_batches
    (image_folder_path image_file_name image_file_extension service_account_path : string)
    (scopes : list string) (presentation_id page_object_id bucket_name : string)
    (sx sy tx ty : number) (w : World) :
  let r := upload_image_and_add_to_slide image_folder_path image_file_name
             image_file_extension service_account_path scopes presentation_id
             page_object_id bucket_name sx sy tx ty w in
  batches (trace r) = []
  \/ exists credentials url w2,
       url_bucket url = bucket_name /\ url_blob url = image_file_name
       /\ url_version url = "v4" /\ url_method url = "GET"
       /\ url_expiration url = timedelta_minutes 1
       /\ (exists t',
             Called (SignUrl bucket_name image_file_name "v4" (timedelta_minutes 1) "GET")
               true (url_issued url) t' ∈ trace r)
       /\ batches (trace r)
          = batches (trace (add_image_to_slide presentation_id credentials url
                              image_file_name page_object_id sx sy tx ty w2)).
Proof.
  cbv zeta.
  rewrite (orchestrator_is_script image_folder_path image_file_name image_file_extension
             service_account_path scopes presentation_id page_object_id bucket_name
             sx sy tx ty w).
  rewrite !batches_omap.
  pose proof (script_place_events
                (from_service_account_file service_account_path scopes)
                (fun credentials =>
                   upload_blob credentials bucket_name
                     (image_folder_path ++ image_file_name ++ image_file_extension)%string
                     image_file_name)
                (fun credentials =>
                   generate_download_signed_url_v4 bucket_name image_file_name
                     credentials)
                (fun credentials url =>
                   add_image_to_slide presentation_id credentials url image_file_name
                     page_object_id sx sy tx ty)
                (fun credentials => delete_blob bucket_name image_file_name credentials)
                batch_of (fun _ => eq_refl) (fun _ => eq_refl)
                (no_batch_in_credentials service_account_path scopes)
                (fun c w' =>
                   no_batch_in_upload c bucket_name
                     (image_folder_path ++ image_file_name ++ image_file_extension)%string
                     image_file_name w')
                (fun c w' => no_batch_in_url_request bucket_name image_file_name c w')
                (fun c w' => no_batch_in_delete bucket_name image_file_name c w')
                w) as H.
  cbv beta in H.
  destruct H as [Hnone | (c & url & R2 & (pre & post & Htr) & Hb)].
  - left. exact Hnone.
  - right.
    match type of R2 with result (generate_download_signed_url_v4 ?b ?n ?c ?w') = _ =>
      destruct (generate_download_signed_url_v4_run b n c w') as (T2 & _ & U2);
      remember (generate_download_signed_url_v4 b n c w') as r2 eqn:E2
    end.
    clear E2. rewrite (succeeded_inr _ _ R2) in T2. pose proof (U2 url R2) as Hurl.
    clear U2.
    exists c, url, (final r2).
    split; [rewrite Hurl; reflexivity |]. split; [rewrite Hurl; reflexivity |].
    split; [rewrite Hurl; reflexivity |]. split; [rewrite Hurl; reflexivity |].
    split; [rewrite Hurl; reflexivity |]. split; [| exact Hb].
    exists (returned_at
              (final (upload_blob c bucket_name
                        (image_folder_path ++ image_file_name ++ image_file_extension)%string
                        image_file_name
                        (final (from_service_account_file service_account_path scopes w))))).
    rewrite Htr, T2, Hurl. cbn [url_issued].
    apply elem_of_app. right. apply list_elem_of_here.
Qed.

(** X9 (the URL that is placed).  In every run, every [createImage] request
    that is submitted carries the URL that the URL request of this very run
    returned: a v4 URL for GET on the object of the file name in the bucket,
    valid for 60 seconds from the moment the request was made; the request is
    for the file name as identifier and for the given page. *)
Theorem placed_url_is_the_signed_url
    (image_folder_path image_file_name image_file_extension service_account_path : string)
    (scopes : list string) (presentation_id page_object_id bucket_name : string)
    (sx sy tx ty : number) (w : World)
    (rs : list Request) (id : string) (u : SignedUrl) (props : ElementProperties) :
  let r := upload_image_and_add_to_slide image_folder_path image_file_name
             image_file_extension service_account_path scopes presentation_id
             page_object_id bucket_name sx sy tx ty w in
  rs ∈ batches (trace r) ->
  createImage id u props ∈ rs ->
  id = image_file_name /\ pageObjectId props = page_object_id
  /\ url_bucket u = bucket_name /\ url_blob u = image_file_name
  /\ url_version u = "v4" /\ url_method u = "GET"
  /\ (total_seconds (url_expiration u) == 60)%Q
  /\ exists t',
       Called (SignUrl bucket_name image_file_name "v4" (timedelta_minutes 1) "GET")
         true (url_issued u) t' ∈ trace r.
Proof.
  intros r.
  destruct (orchestrator_batches image_folder_path image_file_name image_file_extension
              service_account_path scopes presentation_id page_object_id bucket_name
              sx sy tx ty w)
    as [Hnone | (c & url & w2 & Hb & Hn & Hv & Hm & He & Ht & Hbs)];
    fold r in Hnone || fold r in Ht, Hbs.
  - rewrite Hnone. intros Hin. inversion Hin.
  - rewrite Hbs, add_image_to_slide_batches.
    destruct (page_snapshot w2 presentation_id page_object_id) as [page_info|];
      intros Hrs Hin; [| inversion Hrs].
    apply list_elem_of_singleton in Hrs. subst rs.
    unfold batch_for in Hin. apply elem_of_app in Hin. destruct Hin as [Hin | Hin].
    { destruct (py_in image_file_name (element_ids page_info)); [| inversion Hin].
      apply list_elem_of_singleton in Hin. discriminate. }
    apply list_elem_of_singleton in Hin. unfold image_request in Hin.
    inversion Hin; subst id u props. cbn [pageObjectId].
    rewrite He. repeat (split; [first [reflexivity | assumption] |]). exact Ht.
Qed.

(** ** Running the script again *)

Lemma count_after_replacement (id : string) (ids : list string) (page' : PageInfo) :
  element_ids page' = filter (fun i => i <> id) ids ++ [id] ->
  count_id id page' = 1 /\ py_in id (element_ids page') = true.
Proof.
  intros Hids. split.
  - unfold count_id. rewrite Hids, filter_app, length_app, none_left.
    cbn. rewrite decide_True by reflexivity. reflexivity.
  - apply py_in_spec. rewrite Hids. apply elem_of_app. right. apply list_elem_of_here.
Qed.

(** X12 (a second run replaces the image).  When the script is run a second
    time for the same file name, presentation, page and bucket, right after a
    successful run, and succeeds again, its batch deletes the image of the
    first run and creates the new one, it prints the message about the
    pre-existing copy, and it leaves exactly one element of the name on the
    page and no object under the name in the bucket; the elements of other
    names are those the page held before the first run, in their order. *)
Theorem second_run_replaces_the_image
    (image_folder_path image_file_name image_file_extension service_account_path : string)
    (scopes : list string) (presentation_id page_object_id bucket_name : string)
    (sx sy tx ty sx' sy' tx' ty' : number) (w : World) :
  let r := upload_image_and_add_to_slide image_folder_path image_file_name
             image_file_extension service_account_path scopes presentation_id
             page_object_id bucket_name sx sy tx ty w in
  let r' := upload_image_and_add_to_slide image_folder_path image_file_name
              image_file_extension service_account_path scopes presentation_id
              page_object_id bucket_name sx' sy' tx' ty' (final r) in
  succeeded r = true -> succeeded r' = true ->
  exists url' pages page_info pages'' page'',
    batches (trace r')
    = [[deleteObject image_file_name;
        image_request url' image_file_name page_object_id sx' sy' tx' ty']]
    /\ "Image already present on slide. Request added to delete the pre-existing copy so that a new one can be added."
       ∈ printed (trace r')
    /\ presentations (w_services w) !! presentation_id = Some pages
    /\ pages !! page_object_id = Some page_info
    /\ presentations (w_services (final r')) !! presentation_id = Some pages''
    /\ pages'' !! page_object_id = Some page''
    /\ element_ids page''
       = filter (fun i => i <> image_file_name) (element_ids page_info)
         ++ [image_file_name]
    /\ count_id image_file_name page'' = 1
    /\ object_at (w_services (final r')) bucket_name image_file_name = None.
Proof.
  intros r r' Hok Hok'.
  destruct (orchestrator_success_summary image_folder_path image_file_name
              image_file_extension service_account_path scopes presentation_id
              page_object_id bucket_name sx sy tx ty w Hok)
    as (data & objects & pages & page_info & pages1 & page1 & url & t0 & t1
        & _ & _ & Hps & Hp & Hp1 & Hids1 & E1 & _).
  destruct (orchestrator_success_summary image_folder_path image_file_name
              image_file_extension service_account_path scopes presentation_id
              page_object_id bucket_name sx' sy' tx' ty' (final r) Hok')
    as (data' & objects' & pages2 & page2 & pages'' & page'' & url' & t0' & t1'
        & _ & _ & Hps2 & Hp2 & Hp'' & Hids2 & E2 & _ & _ & Hb & _ & Hpr).
  fold r in E1, Hps2, E2. fold r' in E2, Hb, Hpr.
  rewrite E1 in Hps2. cbn [presentations] in Hps2. rewrite lookup_insert_eq in Hps2.
  inversion Hps2; subst pages2; clear Hps2.
  rewrite Hp1 in Hp2. inversion Hp2; subst page2; clear Hp2.
  destruct (count_after_replacement _ _ _ Hids1) as (_ & Hin).
  destruct (count_after_replacement _ _ _ Hids2) as (Hcount & _).
  exists url', pages, page_info, pages'', page''.
  split. { rewrite Hb. unfold batch_for. rewrite Hin. reflexivity. }
  split. { rewrite Hpr, Hin. apply elem_of_app. right. apply list_elem_of_here. }
  split; [exact Hps |]. split; [exact Hp |].
  split. { rewrite E2. cbn [presentations]. apply lookup_insert_eq. }
  split; [exact Hp'' |].
  split.
  { rewrite Hids2, Hids1, filter_app, list_filter_filter.
    cbn. rewrite decide_False by (intros H; apply H; reflexivity).
    rewrite app_nil_r. f_equal.
    apply list_filter_iff. intros i. tauto. }
  split; [exact Hcount |].
  rewrite E2. unfold object_at. cbn [buckets]. rewrite lookup_insert_eq.
  apply lookup_delete_eq.
Qed.

(** ** Witnesses, continued *)

(** The picture is in the bucket, the page is blank, and call number [k]
    fails. *)
Definition faulty_placement_world (k : nat) : World :=
  demo_world {[ "cat" := "PNG" ]} None every_call_takes_a_second (fault_at k).

(** The same run as [demo_run], for a picture that is not on disk. *)
Definition missing_picture_run (w : World) : Run unit :=
  upload_image_and_add_to_slide "pics/" "dog" ".png" "key.json" [] "pres" "p1" "bkt"
    (Float 1.8) (Float 1.8) (Int 1100000) (Int (-500000)) w.

Lemma upload_blob_stores_the_file_witness :
  let w := fresh_world every_call_takes_a_second no_fault in
  let r := upload_blob demo_credentials "bkt" "pics/cat.png" "cat" w in
  succeeded r = true
  /\ object_at (w_services (final r)) "bkt" "cat" = Some "PNG"
  /\ printed (trace r) = ["File uploaded to cloud."].
Proof.
  intros w r.
  assert (H : succeeded r = true) by (vm_compute; reflexivity).
  split; [exact H |].
  destruct (proj1 (upload_blob_stores_the_file demo_credentials "bkt" "pics/cat.png"
                     "cat" w) H) as (_ & Hobj & _ & _ & _ & Hpr).
  split; [| exact Hpr].
  fold r in Hobj. rewrite Hobj. vm_compute. reflexivity.
Defined.

Lemma delete_blob_removes_the_object_witness :
  let w := placement_world None in
  let r := delete_blob "bkt" "cat" demo_credentials w in
  succeeded r = true
  /\ object_at (w_services (final r)) "bkt" "cat" = None
  /\ printed (trace r) = ["Blob cat deleted."].
Proof.
  intros w r.
  assert (H : succeeded r = true) by (vm_compute; reflexivity).
  split; [exact H |].
  destruct (proj1 (delete_blob_removes_the_object "bkt" "cat" demo_credentials w) H)
    as (_ & Hobj & _ & _ & _ & Hpr).
  split; [exact Hobj | exact Hpr].
Defined.

Lemma upload_then_delete_restores_witness :
  let w := fresh_world every_call_takes_a_second no_fault in
  let r1 := upload_blob demo_credentials "bkt" "pics/cat.png" "cat" w in
  let r2 := delete_blob "bkt" "cat" demo_credentials (final r1) in
  succeeded r1 = true /\ succeeded r2 = true
  /\ object_at (w_services w) "bkt" "cat" = None
  /\ w_services (final r2) = w_services w.
Proof.
  intros w r1 r2.
  assert (H1 : succeeded r1 = true) by (vm_compute; reflexivity).
  assert (H2 : succeeded r2 = true) by (vm_compute; reflexivity).
  assert (H3 : object_at (w_services w) "bkt" "cat" = None) by (vm_compute; reflexivity).
  split; [exact H1 |]. split; [exact H2 |]. split; [exact H3 |].
  exact (proj2 (proj2 (upload_then_delete_restores demo_credentials "bkt" "pics/cat.png"
                         "cat" w H1 H2)) H3).
Defined.

Lemma add_image_to_slide_raises_only_from_calls_witness :
  let r := demo_place demo_url (faulty_placement_world 1) in
  succeeded r = false /\ exists c, last (calls (trace r)) = Some (c, false).
Proof.
  intros r.
  assert (H : succeeded r = false) by (vm_compute; reflexivity).
  split; [exact H |].
  exact (proj1 (add_image_to_slide_raises_only_from_calls "pres" demo_credentials
                  demo_url "cat" "p1" (Float 1.8) (Float 1.8) (Int 1100000)
                  (Int (-500000)) (faulty_placement_world 1)) H).
Defined.

Lemma add_image_to_slide_frame_witness :
  let w := faulty_placement_world 1 in
  let r := demo_place demo_url w in
  succeeded r = false /\ w_services (final r) = w_services w.
Proof.
  intros w r.
  assert (H : succeeded r = false) by (vm_compute; reflexivity).
  split; [exact H |].
  exact (proj1 (proj2 (proj2
           (add_image_to_slide_frame "pres" demo_credentials demo_url "cat" "p1"
              (Float 1.8) (Float 1.8) (Int 1100000) (Int (-500000)) w))) H).
Defined.

Lemma add_image_to_slide_page_after_witness :
  let w := placement_world (Some [shape "title"; shape "cat"; shape "logo"]) in
  let r := demo_place demo_url w in
  succeeded r = true
  /\ exists page_info pages' page',
       page_snapshot w "pres" "p1" = Some page_info
       /\ presentations (w_services (final r)) !! "pres" = Some pages'
       /\ pages' !! "p1" = Some page'
       /\ element_ids page'
          = filter (fun i => i <> "cat") (element_ids page_info) ++ ["cat"].
Proof.
  intros w r.
  assert (H : succeeded r = true) by (vm_compute; reflexivity).
  split; [exact H |].
  exact (add_image_to_slide_page_after "pres" demo_credentials demo_url "cat" "p1"
           (Float 1.8) (Float 1.8) (Int 1100000) (Int (-500000)) w H).
Defined.

(** The title and the logo stay where they were; the picture goes on top. *)
Example page_after_example :
  let w := placement_world (Some [shape "title"; shape "cat"; shape "logo"]) in
  match presentations (w_services (final (demo_place demo_url w))) !! "pres" with
  | Some pages => element_ids <$> pages !! "p1"
  | None => None
  end = Some ["title"; "logo"; "cat"].
Proof. vm_compute. reflexivity. Qed.

Lemma successful_run_postcondition_witness :
  let w := fresh_world every_call_takes_a_second no_fault in
  let r := demo_run w in
  succeeded r = true
  /\ files (w_services (final r)) = files (w_services w)
  /\ object_at (w_services (final r)) "bkt" "cat" = None.
Proof.
  intros w r.
  assert (H : succeeded r = true) by (vm_compute; reflexivity).
  split; [exact H |].
  destruct (successful_run_postcondition "pics/" "cat" ".png" "key.json" [] "pres" "p1"
              "bkt" (Float 1.8) (Float 1.8) (Int 1100000) (Int (-500000)) w H)
    as (Hfiles & Hobj & _).
  split; [exact Hfiles | exact Hobj].
Defined.

Lemma placed_url_is_the_signed_url_witness :
  let w := fresh_world every_call_takes_a_second no_fault in
  let u := {| url_bucket := "bkt"; url_blob := "cat"; url_version := "v4";
              url_method := "GET"; url_issued := 102;
              url_expiration := timedelta_minutes 1 |} in
  let props :=
    {| pageObjectId := "p1";
       size := {| height := {| magnitude := 4000000; dim_unit := "EMU" |};
                  width := {| magnitude := 4000000; dim_unit := "EMU" |} |};
       transform := {| scaleX := Float 1.8; scaleY := Float 1.8;
                       translateX := Int 1100000; translateY := Int (-500000);
                       tr_unit := "EMU" |} |} in
  [createImage "cat" u props] ∈ batches (trace (demo_run w))
  /\ createImage "cat" u props ∈ [createImage "cat" u props]
  /\ exists t',
       Called (SignUrl "bkt" "cat" "v4" (timedelta_minutes 1) "GET") true
         (url_issued u) t' ∈ trace (demo_run w).
Proof.
  intros w u props.
  assert (E : batches (trace (demo_run w)) = [[createImage "cat" u props]])
    by (vm_compute; reflexivity).
  assert (H1 : [createImage "cat" u props] ∈ batches (trace (demo_run w)))
    by (rewrite E; apply list_elem_of_here).
  assert (H2 : createImage "cat" u props ∈ [createImage "cat" u props])
    by apply list_elem_of_here.
  split; [exact H1 |]. split; [exact H2 |].
  exact (proj2 (proj2 (proj2 (proj2 (proj2 (proj2 (proj2
           (placed_url_is_the_signed_url "pics/" "cat" ".png" "key.json" [] "pres" "p1"
              "bkt" (Float 1.8) (Float 1.8) (Int 1100000) (Int (-500000)) w
              [createImage "cat" u props] "cat" u props H1 H2)))))))).
Defined.

Lemma successful_run_console_witness :
  let w := fresh_world every_call_takes_a_second no_fault in
  let r := demo_run w in
  succeeded r = true
  /\ exists pages page_info t0 t1,
       presentations (w_services w) !! "pres" = Some pages
       /\ pages !! "p1" = Some page_info
       /\ time_reads (trace r) = [t0; t1]
       /\ printed (trace r)
          = ["File uploaded to cloud."; "Signed URL generated."]
            ++ (if py_in "cat" (element_ids page_info)
                then ["Image already present on slide. Request added to delete the pre-existing copy so that a new one can be added."]
                else [])
            ++ ["Image added to slide. Pre-existing image deleted if requested.";
                "Blob cat deleted.";
                ("Image was accessible for " ++ format_4f (t1 - t0)
                 ++ " second(s).")%string].
Proof.
  intros w r.
  assert (H : succeeded r = true) by (vm_compute; reflexivity).
  split; [exact H |].
  exact (successful_run_console "pics/" "cat" ".png" "key.json" [] "pres" "p1" "bkt"
           (Float 1.8) (Float 1.8) (Int 1100000) (Int (-500000)) w H).
Defined.

Example console_example :
  printed (trace (demo_run (fresh_world every_call_takes_a_second no_fault)))
  = ["File uploaded to cloud."; "Signed URL generated.";
     "Image added to slide. Pre-existing image deleted if requested.";
     "Blob cat deleted."; "Image was accessible for 3.0000 second(s)."].
Proof. vm_compute. reflexivity. Qed.

Lemma run_without_upload_changes_nothing_witness :
  let w := fresh_world every_call_takes_a_second no_fault in
  let r := missing_picture_run w in
  ((Upload "bkt" "pics/dog.png" "dog", true) ∉ calls (trace r))
  /\ result r = inl (FileNotFoundError "pics/dog.png")
  /\ w_services (final r) = w_services w.
Proof.
  intros w r.
  assert (E : calls (trace r)
              = [(LoadCredentials "key.json" [], true);
                 (Upload "bkt" "pics/dog.png" "dog", false)])
    by (vm_compute; reflexivity).
  assert (H : (Upload "bkt" "pics/dog.png" "dog", true) ∉ calls (trace r)).
  { rewrite E. intros Hin.
    apply elem_of_cons in Hin. destruct Hin as [Hin|Hin]; [discriminate |].
    apply list_elem_of_singleton in Hin. discriminate. }
  split; [exact H |]. split; [vm_compute; reflexivity |].
  exact (run_without_upload_changes_nothing "pics/" "dog" ".png" "key.json" [] "pres"
           "p1" "bkt" (Float 1.8) (Float 1.8) (Int 1100000) (Int (-500000)) w H).
Defined.

Lemma second_run_replaces_the_image_witness :
  let w := fresh_world every_call_takes_a_second no_fault in
  let r := demo_run w in
  let r' := demo_run (final r) in
  succeeded r = true /\ succeeded r' = true
  /\ exists url' pages page_info pages'' page'',
       batches (trace r')
       = [[deleteObject "cat";
           image_request url' "cat" "p1" (Float 1.8) (Float 1.8) (Int 1100000)
             (Int (-500000))]]
       /\ "Image already present on slide. Request added to delete the pre-existing copy so that a new one can be added."
          ∈ printed (trace r')
       /\ presentations (w_services w) !! "pres" = Some pages
       /\ pages !! "p1" = Some page_info
       /\ presentations (w_services (final r')) !! "pres" = Some pages''
       /\ pages'' !! "p1" = Some page''
       /\ element_ids page''
          = filter (fun i => i <> "cat") (element_ids page_info) ++ ["cat"]
       /\ count_id "cat" page'' = 1
       /\ object_at (w_services (final r')) "bkt" "cat" = None.
Proof.
  intros w r r'.
  assert (H : succeeded r = true) by (vm_compute; reflexivity).
  assert (H' : succeeded r' = true) by (vm_compute; reflexivity).
  split; [exact H |]. split; [exact H' |].
  exact (second_run_replaces_the_image "pics/" "cat" ".png" "key.json" [] "pres" "p1"
           "bkt" (Float 1.8) (Float 1.8) (Int 1100000) (Int (-500000))
           (Float 1.8) (Float 1.8) (Int 1100000) (Int (-500000)) w H H').
Defined.

(** * More of the script: the URL request, and runs that raise *)

(** X13 (generate_download_signed_url_v4).  The URL request leaves files,
    buckets and presentations as they are, whether it returns or raises; it
    prints its message exactly when it returns; it returns whenever the call
    does not fail for a reason of its own, whether or not the bucket or the
    object exists; and the URL it returns is for the given bucket and object,
    issued at the moment of the request. *)
Theorem generate_download_signed_url_v4_is_local (bucket_name blob_name : string)
    (credentials : Credentials) (w : World) :
  let r := generate_download_signed_url_v4 bucket_name blob_name credentials w in
  w_services (final r) = w_services w
  /\ printed (trace r) = (if succeeded r then ["Signed URL generated."] else [])
  /\ (succeeded r = true <-> w_fault w (w_calls w) = false)
  /\ (forall u, result r = inr u ->
        url_bucket u = bucket_name /\ url_blob u = blob_name /\ url_issued u = w_now w).
Proof.
  unfold generate_download_signed_url_v4. cbv zeta. rewrite bind_run.
  unfold generate_signed_url, external, succeeded.
  cbn [bl_name bl_bucket bk_name Bucket_blob Client_bucket].
  destruct (w_fault w (w_calls w)); cbn.
  - split; [reflexivity |]. split; [reflexivity |].
    split; [split; discriminate | intros u Hu; discriminate].
  - split; [reflexivity |]. split; [reflexivity |].
    split; [split; reflexivity |]. intros u Hu. inversion Hu. cbn. auto.
Qed.

(** An event of a stage: a call or a message, never a clock reading and
    never the report of line 210. *)
Definition no_report (ev : Event) : Prop :=
  match ev with
  | Called _ _ _ _ => True
  | Printed line => String.prefix "Image was accessible for" line = false
  | TimeRead _ => False
  end.

(** An event other than the successful call [c]. *)
Definition not_returned (c : Call) (ev : Event) : Prop :=
  match ev with
  | Called c' true _ _ => c' <> c
  | _ => True
  end.

Lemma no_report_stage (c : Call) (ok : bool) (t t' : Q) (line : string) :
  String.prefix "Image was accessible for" line = false ->
  Forall no_report (Called c ok t t' :: (if ok then [Printed line] else [])).
Proof.
  intros H. constructor; [exact I |]. destruct ok; repeat constructor. exact H.
Qed.

Lemma not_returned_stage (c c' : Call) (ok : bool) (t t' : Q) (line : string) :
  (ok = true -> c' <> c) ->
  Forall (not_returned c) (Called c' ok t t' :: (if ok then [Printed line] else [])).
Proof.
  intros H. destruct ok; repeat constructor. cbn. apply H. reflexivity.
Qed.

Lemma time_reads_app (l l' : list Event) :
  time_reads (l ++ l') = time_reads l ++ time_reads l'.
Proof. apply omap_app. Qed.

Lemma printed_app (l l' : list Event) : printed (l ++ l') = printed l ++ printed l'.
Proof. apply omap_app. Qed.

Lemma no_report_time_reads (l : list Event) : Forall no_report l -> time_reads l = [].
Proof.
  induction 1 as [| ev l Hev _ IH]; [reflexivity |].
  destruct ev; cbn in *; [exact IH | exact IH | contradiction].
Qed.

Lemma no_report_printed (l : list Event) (line : string) :
  Forall no_report l -> line ∈ printed l ->
  String.prefix "Image was accessible for" line = false.
Proof.
  induction 1 as [| ev l Hev _ IH]; intros Hin; [inversion Hin |].
  destruct ev as [c ok t t' | line' | t]; cbn in Hin.
  - apply IH, Hin.
  - apply elem_of_cons in Hin. destruct Hin as [-> | Hin]; [exact Hev | apply IH, Hin].
  - apply IH, Hin.
Qed.

Lemma not_returned_calls (c : Call) (l : list Event) :
  Forall (not_returned c) l -> (c, true) ∉ calls l.
Proof.
  induction 1 as [| ev l Hev _ IH]; intros Hin; [inversion Hin |].
  destruct ev as [c' ok t t' | line' | t]; cbn in Hin.
  - apply elem_of_cons in Hin. destruct Hin as [E | Hin]; [| apply IH, Hin].
    inversion E; subst c' ok. cbn in Hev. apply Hev. reflexivity.
  - apply IH, Hin.
  - apply IH, Hin.
Qed.

Section StagesFailing.

Context {C U : Type}.
Variable load : M C.
Variable upload : C -> M unit.
Variable sign : C -> M U.
Variable place : C -> U -> M unit.
Variable remove : C -> M unit.
Variables early quiet : Event -> Prop.
Hypothesis early_load : forall w, Forall early (trace (load w)).
Hypothesis early_upload : forall c w, Forall early (trace (upload c w)).
Hypothesis early_sign :
  forall c w, succeeded (sign c w) = false -> Forall early (trace (sign c w)).
Hypothesis quiet_load : forall w, Forall quiet (trace (load w)).
Hypothesis quiet_upload : forall c w, Forall quiet (trace (upload c w)).
Hypothesis quiet_sign : forall c w, Forall quiet (trace (sign c w)).
Hypothesis quiet_place : forall c u w, Forall quiet (trace (place c u w)).
Hypothesis quiet_remove : forall c w, Forall quiet (trace (remove c w)).

(** A run that raises either stops before the first clock reading, with the
    events of the stages up to a failing one, or has the events of the first
    three stages, the first clock reading and then events of the placement
    and the removal only. *)
Lemma script_failure (w : World) :
  succeeded (script load upload sign place remove w) = false ->
  (Forall early (trace (script load upload sign place remove w))
   /\ Forall quiet (trace (script load upload sign place remove w)))
  \/ exists c u after,
       result (sign c (final (upload c (final (load w))))) = inr u
       /\ Forall quiet (trace (load w) ++ trace (upload c (final (load w)))
                        ++ trace (sign c (final (upload c (final (load w))))))
       /\ Forall quiet after
       /\ trace (script load upload sign place remove w)
          = (trace (load w) ++ trace (upload c (final (load w)))
             ++ trace (sign c (final (upload c (final (load w))))))
            ++ TimeRead (w_now (final (sign c (final (upload c (final (load w)))))))
               :: after.
Proof.
  unfold script. rewrite five_stages. cbv zeta.
  destruct (result (load w)) as [e|c] eqn:R0.
  { intros _. left. cbn [trace]. split; auto. }
  destruct (result (upload c (final (load w)))) as [e|[]] eqn:R1.
  { intros _. left. cbn [trace]. split; apply Forall_app; split; auto. }
  destruct (result (sign c (final (upload c (final (load w)))))) as [e|u] eqn:R2.
  { intros _. left. cbn [trace].
    split; apply Forall_app; split; auto; apply Forall_app; split; auto.
    apply early_sign. apply (succeeded_inl _ _ R2). }
  assert (Hq : Forall quiet (trace (load w) ++ trace (upload c (final (load w)))
                             ++ trace (sign c (final (upload c (final (load w)))))))
    by (apply Forall_app; split; auto; apply Forall_app; split; auto).
  destruct (result (place c u _)) as [e|[]] eqn:R3;
    [| destruct (result (remove c _)) as [e|[]] eqn:R4]; cbn [trace].
  - intros _. right. exists c, u, (trace (place c u
      (final (sign c (final (upload c (final (load w)))))))).
    split; [exact R2 |]. split; [exact Hq |]. split; [apply quiet_place |].
    rewrite <- !app_assoc. reflexivity.
  - intros _. right. eexists c, u, (trace (place c u _) ++ trace (remove c _)).
    split; [exact R2 |]. split; [exact Hq |].
    split; [apply Forall_app; split; [apply quiet_place | apply quiet_remove] |].
    rewrite <- !app_assoc. reflexivity.
  - intros H. discriminate H.
Qed.

End StagesFailing.

Lemma no_report_placement (presentation_id : string) (credentials : Credentials)
    (image_url : SignedUrl) (image_name page_object_id : string)
    (sx sy tx ty : number) (w : World) :
  Forall no_report (trace (add_image_to_slide presentation_id credentials image_url
                             image_name page_object_id sx sy tx ty w)).
Proof.
  pose proof (add_image_to_slide_outcome presentation_id credentials image_url image_name
                page_object_id sx sy tx ty w) as H.
  cbv zeta in H.
  destruct (page_snapshot w presentation_id page_object_id) as [page_info|].
  - destruct H as (T & _). rewrite T.
    apply Forall_app. split; [repeat constructor |].
    apply Forall_app. split.
    { destruct (py_in image_name (element_ids page_info)); repeat constructor. }
    apply Forall_app. split; [repeat constructor |].
    destruct (succeeded _); repeat constructor.
  - destruct H as (_ & _ & T). rewrite T. repeat constructor.
Qed.

(** X14 (a run that raises reports no duration).  A run that raises never
    prints the line 'Image was accessible for ...'.  It reads the clock not
    at all when the URL request did not return, and exactly once, when the
    URL request returned, otherwise: the second reading and the report are
    reached only through a delete that returned. *)
Theorem failed_run_reports_no_duration
    (image_folder_path image_file_name image_file_extension service_account_path : string)
    (scopes : list string) (presentation_id page_object_id bucket_name : string)
    (sx sy tx ty : number) (w : World) :
  let r := upload_image_and_add_to_slide image_folder_path image_file_name
             image_file_extension service_account_path scopes presentation_id
             page_object_id bucket_name sx sy tx ty w in
  let url_request := SignUrl bucket_name image_file_name "v4" (timedelta_minutes 1) "GET" in
  succeeded r = false ->
  (forall line, line ∈ printed (trace r) ->
     String.prefix "Image was accessible for" line = false)
  /\ (((url_request, true) ∉ calls (trace r)) /\ time_reads (trace r) = []
      \/ exists t t', Called url_request true t t' ∈ trace r
                      /\ time_reads (trace r) = [t']).
Proof.
  cbv zeta.
  rewrite (orchestrator_is_script image_folder_path image_file_name image_file_extension
             service_account_path scopes presentation_id page_object_id bucket_name
             sx sy tx ty w).
  intros Hfail.
  assert (E0 : forall w', Forall
            (not_returned
               (SignUrl bucket_name image_file_name "v4" (timedelta_minutes 1) "GET"))
            (trace (from_service_account_file service_account_path scopes w'))).
  { intros w'.
    destruct (from_service_account_file_run service_account_path scopes w') as (T & _).
    rewrite T. constructor; [| constructor].
    destruct (succeeded (from_service_account_file service_account_path scopes w'));
      cbn; [discriminate | exact I]. }
  assert (E1 : forall c w', Forall
            (not_returned
               (SignUrl bucket_name image_file_name "v4" (timedelta_minutes 1) "GET"))
            (trace (upload_blob c bucket_name
                      (image_folder_path ++ image_file_name ++ image_file_extension)%string
                      image_file_name w'))).
  { intros c w'.
    destruct (upload_blob_run c bucket_name
                (image_folder_path ++ image_file_name ++ image_file_extension)%string
                image_file_name w') as (T & _).
    rewrite T. apply not_returned_stage. discriminate. }
  assert (E2 : forall c w',
            succeeded (generate_download_signed_url_v4 bucket_name image_file_name c w')
            = false ->
            Forall
              (not_returned
                 (SignUrl bucket_name image_file_name "v4" (timedelta_minutes 1) "GET"))
              (trace (generate_download_signed_url_v4 bucket_name image_file_name c w'))).
  { intros c w' Hf.
    destruct (generate_download_signed_url_v4_run bucket_name image_file_name c w')
      as (T & _).
    rewrite T. apply not_returned_stage. rewrite Hf. discriminate. }
  assert (Q0 : forall w', Forall no_report
            (trace (from_service_account_file service_account_path scopes w'))).
  { intros w'.
    destruct (from_service_account_file_run service_account_path scopes w') as (T & _).
    rewrite T. repeat constructor. }
  assert (Q1 : forall c w', Forall no_report
            (trace (upload_blob c bucket_name
                      (image_folder_path ++ image_file_name ++ image_file_extension)%string
                      image_file_name w'))).
  { intros c w'.
    destruct (upload_blob_run c bucket_name
                (image_folder_path ++ image_file_name ++ image_file_extension)%string
                image_file_name w') as (T & _).
    rewrite T. apply no_report_stage. reflexivity. }
  assert (Q2 : forall c w', Forall no_report
            (trace (generate_download_signed_url_v4 bucket_name image_file_name c w'))).
  { intros c w'.
    destruct (generate_download_signed_url_v4_run bucket_name image_file_name c w')
      as (T & _).
    rewrite T. apply no_report_stage. reflexivity. }
  assert (Q4 : forall c w', Forall no_report
            (trace (delete_blob bucket_name image_file_name c w'))).
  { intros c w'.
    destruct (delete_blob_run bucket_name image_file_name c w') as (T & _).
    rewrite T. apply no_report_stage. reflexivity. }
  match type of Hfail with succeeded (script ?l ?up ?sg ?pl ?rm w) = false =>
    destruct (script_failure l up sg pl rm
                (not_returned
                   (SignUrl bucket_name image_file_name "v4" (timedelta_minutes 1) "GET"))
                no_report E0 E1 E2 Q0 Q1 Q2
                (fun c u w' => no_report_placement presentation_id c u image_file_name
                                 page_object_id sx sy tx ty w')
                Q4 w Hfail)
      as [(He & Hq) | (c & u & after & R2 & Hq & Ha & Htr)]
  end.
  - split.
    + intros line. apply no_report_printed, Hq.
    + left. split; [apply not_returned_calls, He | apply no_report_time_reads, Hq].
  - rewrite Htr. clear Htr Hfail.
    match type of R2 with result (generate_download_signed_url_v4 ?b ?n ?c ?w') = _ =>
      destruct (generate_download_signed_url_v4_run b n c w') as (T2 & F2 & _);
      remember (generate_download_signed_url_v4 b n c w') as r2 eqn:Er2;
      remember w' as w2 eqn:Ew2
    end.
    clear Er2 Ew2. rewrite (succeeded_inr _ _ R2) in T2.
    split.
    + intros line Hin. rewrite printed_app in Hin. apply elem_of_app in Hin.
      destruct Hin as [Hin | Hin]; [exact (no_report_printed _ _ Hq Hin) |].
      exact (no_report_printed _ _ Ha Hin).
    + right. exists (w_now w2), (returned_at w2). split.
      * apply elem_of_app. left. apply elem_of_app. right. apply elem_of_app. right.
        rewrite T2. apply list_elem_of_here.
      * rewrite time_reads_app, (no_report_time_reads _ Hq).
        cbn [app]. change (time_reads (TimeRead (w_now (final r2)) :: after))
          with (w_now (final r2) :: time_reads after).
        rewrite (no_report_time_reads _ Ha), F2. reflexivity.
Qed.

Lemma failed_run_reports_no_duration_witness :
  let w := fresh_world every_call_takes_a_second (fault_at 4) in
  let r := demo_run w in
  let url_request := SignUrl "bkt" "cat" "v4" (timedelta_minutes 1) "GET" in
  succeeded r = false
  /\ (forall line, line ∈ printed (trace r) ->
        String.prefix "Image was accessible for" line = false)
  /\ (((url_request, true) ∉ calls (trace r)) /\ time_reads (trace r) = []
      \/ exists t t', Called url_request true t t' ∈ trace r
                      /\ time_reads (trace r) = [t']).
Proof.
  intros w r url_request.
  assert (H : succeeded r = false) by (vm_compute; reflexivity).
  split; [exact H |].
  exact (failed_run_reports_no_duration "pics/" "cat" ".png" "key.json" [] "pres" "p1"
           "bkt" (Float 1.8) (Float 1.8) (Int 1100000) (Int (-500000)) w H).
Defined.

(** The run of the witness: the batch update fails; the clock was read once,
    when the URL request had returned, and nothing is reported. *)
Example failed_run_example :
  let r := demo_run (fresh_world every_call_takes_a_second (fault_at 4)) in
  result r = inl TransportError
  /\ time_reads (trace r) = [103%Q]
  /\ printed (trace r) = ["File uploaded to cloud."; "Signed URL generated."].
Proof. vm_compute. auto. Qed.
